(** * EMIT-Data-Resources: the CMR search how-to and the L2A reflectance tutorial

    A shallow embedding of the two notebooks of the repository:

    - [Cmr]: "How to: Find EMIT Data using NASA's CMR API and Download"
      (concept-id lookup, the three paginated granule searches, the results
      dataframe, the asset filter and the URL text file);
    - [Refl]: "1. Exploring L2A Reflectance" (the water-absorption mask,
      [gamma_adjust], and the binding structure of the notebook's cells).

    Python values that come out of [response.json()] are modelled by the
    type [json]; Python's dynamic operations on them (subscripting,
    iteration, [in], truthiness) are the functions of module [Py], each
    returning the exception Python raises where it raises one.  Text is
    modelled by [string], one [ascii] per character; floating-point values
    by [spec_float].

    Library calls whose result the notebooks only pass on are parameters of
    the sections that use them: [float] and [str] on numbers, the answers
    of the CMR server, [np.nanmean], [math.log], [np.power], pandas'
    [drop_duplicates] and the characters the csv writer takes for line
    breaks.  The three modules hold the definitions; the properties follow
    them. *)

From Stdlib Require Import ZArith List Bool Ascii String Lia DecimalString.
From Stdlib Require Import Floats.SpecFloat.
From stdpp Require Import gmap strings list.

Open Scope string_scope.
Open Scope list_scope.

(** ** Python values and their dynamic operations *)

Module Py.

(** The exception classes the notebooks can run into. *)
Inductive pyerr :=
| KeyError | IndexError | TypeError | ValueError | AttributeError
| NameError | ZeroDivisionError | JSONDecodeError.

Inductive pyresult (A : Type) :=
| Ok (a : A)
| Raise (e : pyerr).
Arguments Ok {A} a.
Arguments Raise {A} e.

(** Sequencing: the first exception raised ends the computation. *)
#[export] Instance pyresult_bind : MBind pyresult := λ A B k m,
  match m with
  | Ok a => k a
  | Raise e => Raise e
  end.
#[export] Instance pyresult_ret : MRet pyresult := λ A a, Ok a.

(** [[f(x) for x in l]], stopping at the first exception. *)
Fixpoint mapM {A B} (f : A → pyresult B) (l : list A) : pyresult (list B) :=
  match l with
  | [] => Ok []
  | a :: l' => b ← f a; bs ← mapM f l'; Ok (b :: bs)
  end.

(** [[x for x in l if p(x)]] with a test that may raise. *)
Fixpoint filterM {A} (p : A → pyresult bool) (l : list A) : pyresult (list A) :=
  match l with
  | [] => Ok []
  | a :: l' =>
      p a ≫= λ keep : bool,
      rest ← filterM p l';
      Ok (if keep then a :: rest else rest)
  end.

(** *** Strings *)

Definition space : ascii := " "%char.
Definition slash : ascii := "/"%char.

(** [s.split(sep)] for a one-character separator: never empty, and
    [''.split(sep) == ['']]. *)
Fixpoint split_on (sep : ascii) (s : string) : list string :=
  match s with
  | EmptyString => [EmptyString]
  | String c s' =>
      if Ascii.eqb c sep then EmptyString :: split_on sep s'
      else match split_on sep s' with
           | [] => [String c EmptyString]
           | w :: ws => String c w :: ws
           end
  end.

(** [sep.join(parts)]. *)
Definition join (sep : string) (parts : list string) : string :=
  String.concat sep parts.

(** [needle in hay] on two strings: substring search. *)
Fixpoint contains (needle hay : string) : bool :=
  String.prefix needle hay ||
  match hay with
  | EmptyString => false
  | String _ hay' => contains needle hay'
  end.

(** The string has no occurrence of the character. *)
Fixpoint no_char (c : ascii) (s : string) : bool :=
  match s with
  | EmptyString => true
  | String a s' => negb (Ascii.eqb a c) && no_char c s'
  end.

(** The characters of a string, as Python iterates them: one-character
    strings. *)
Fixpoint chars (s : string) : list string :=
  match s with
  | EmptyString => []
  | String c s' => String c EmptyString :: chars s'
  end.

(** [zip(i, i)] on one shared iterator [i]: consecutive items are paired, and
    when the second [next] of a round finds the iterator exhausted the item
    already taken is dropped. *)
Fixpoint zip_self {A} (l : list A) : list (A * A) :=
  match l with
  | a :: b :: rest => (a, b) :: zip_self rest
  | _ => []
  end.

(** *** Decoded JSON *)

(** What [json.loads] builds: [None], [bool], [int], [float], [str], [list]
    and [dict] with string keys.  A dict is kept as its items in insertion
    order; lookup takes the first item with the key. *)
#[warnings="-register-all"]
Inductive json :=
| JNull
| JBool (b : bool)
| JInt (z : Z)
| JFloat (f : spec_float)
| JStr (s : string)
| JArr (items : list json)
| JObj (fields : list (string * json)).

Fixpoint assoc {V} (k : string) (kvs : list (string * V)) : option V :=
  match kvs with
  | [] => None
  | (k', v) :: rest => if String.eqb k k' then Some v else assoc k rest
  end.

(** [bool(v)], the test of [if v:]. *)
Definition truthy (v : json) : bool :=
  match v with
  | JNull => false
  | JBool b => b
  | JInt z => negb (Z.eqb z 0)
  | JFloat f => negb (SFeqb f (S754_zero false))
  | JStr s => negb (String.eqb s "")
  | JArr l => match l with [] => false | _ => true end
  | JObj kvs => match kvs with [] => false | _ => true end
  end.

(** [v[key]] with a string key. *)
Definition getitem (key : string) (v : json) : pyresult json :=
  match v with
  | JObj kvs => match assoc key kvs with Some x => Ok x | None => Raise KeyError end
  | _ => Raise TypeError
  end.

(** [v[0]]. *)
Definition getitem0 (v : json) : pyresult json :=
  match v with
  | JArr (x :: _) => Ok x
  | JArr [] => Raise IndexError
  | JStr (String c _) => Ok (JStr (String c EmptyString))
  | JStr EmptyString => Raise IndexError
  | JObj _ => Raise KeyError
  | _ => Raise TypeError
  end.

(** [key in v] with a string key: substring of a string, element of a list,
    key of a dict. *)
Definition json_is_str (s : string) (v : json) : bool :=
  match v with JStr s' => String.eqb s s' | _ => false end.

Definition py_in (needle : string) (v : json) : pyresult bool :=
  match v with
  | JStr s => Ok (contains needle s)
  | JArr l => Ok (existsb (json_is_str needle) l)
  | JObj kvs => Ok (match assoc needle kvs with Some _ => true | None => false end)
  | _ => Raise TypeError
  end.

(** [for x in v]: the items Python iterates. *)
Definition py_iter (v : json) : pyresult (list json) :=
  match v with
  | JArr l => Ok l
  | JStr s => Ok (map JStr (chars s))
  | JObj kvs => Ok (map (fun kv => JStr (fst kv)) kvs)
  | _ => Raise TypeError
  end.

(** [v.split(" ")]: only [str] has the method. *)
Definition py_split (sep : ascii) (v : json) : pyresult (list string) :=
  match v with
  | JStr s => Ok (split_on sep s)
  | _ => Raise AttributeError
  end.

(** [l[i]] on a Python list of strings. *)
Definition list_get {A} (l : list A) (i : nat) : pyresult A :=
  match l !! i with
  | Some x => Ok x
  | None => Raise IndexError
  end.

End Py.

(** ** The CMR search notebook *)

Module Cmr.
Import Py.

(** *** Cell values *)

(** A shapely [Polygon] is modelled by the coordinate list handed to its
    constructor (each coordinate the two-element list [[x, y]] of the
    source), a [MultiPolygon] by the list of polygons handed to it. *)
Inductive polygon := Polygon (shell : list (spec_float * spec_float)).

(** What a cell of [granule_arr] or of the dataframe can hold: a decoded JSON
    value (a Python list of hrefs is a [JArr], [''] is [JStr ""]), a
    [MultiPolygon], or pandas' missing value. *)
Inductive pyval :=
| Json (j : json)
| MultiPolygon (polys : list polygon)
| NaN.

Section Granules.

(** Python's [float(s)] on a string: [None] where it raises [ValueError]. *)
Variable pyfloat : string → option spec_float.

Definition float (s : string) : pyresult spec_float :=
  match pyfloat s with
  | Some f => Ok f
  | None => Raise ValueError
  end.

(** [[float(p.split(" ")[1]), float(p.split(" ")[0])]] *)
Definition vertex (p : string) : pyresult (spec_float * spec_float) :=
  s1 ← list_get (split_on space p) 1;
  x ← float s1;
  s0 ← list_get (split_on space p) 0;
  y ← float s0;
  Ok (x, y).

(** shapely's constructor [Polygon(shell)] on a list of coordinates: the
    shell becomes a linear ring, which has no coordinate or at least three
    (the library closes it); one or two coordinates raise [ValueError]. *)
Definition shapely_Polygon (shell : list (spec_float * spec_float)) : pyresult polygon :=
  match shell with
  | [_] | [_; _] => Raise ValueError
  | _ => Ok (Polygon shell)
  end.

(** The body of [for poly in polygons]:
    [i = iter(poly[0].split(" "))], [ltln = list(map(" ".join, zip(i, i)))],
    [Polygon([... for p in ltln])]. *)
Definition parse_polygon (poly : json) : pyresult polygon :=
  ring ← getitem0 poly;
  tokens ← py_split space ring;
  let ltln := map (λ ab : string * string, join " " [ab.1; ab.2]) (zip_self tokens) in
  pts ← mapM vertex ltln;
  shapely_Polygon pts.

(** [granule_poly]: [''] unless the granule has a ['polygons'] key. *)
Definition granule_geometry (g : json) : pyresult pyval :=
  py_in "polygons" g ≫= λ has : bool,
  if has then
    polygons ← getitem "polygons" g;
    polys ← py_iter polygons;
    multipolygons ← mapM parse_polygon polys;
    Ok (MultiPolygon multipolygons)
  else Ok (Json (JStr "")).

(** The test of the link comprehension:
    ['https' in x['href'] and '.nc' in x['href'] and '.dmrpp' not in x['href']]. *)
Definition link_selected (x : json) : pyresult bool :=
  h ← getitem "href" x;
  py_in "https" h ≫= λ a : bool,
  if a then
    py_in ".nc" h ≫= λ b : bool,
    if b then
      py_in ".dmrpp" h ≫= λ c : bool, Ok (negb c)
    else Ok false
  else Ok false.

(** [[x['href'] for x in links if ...]] *)
Fixpoint selected_hrefs (links : list json) : pyresult (list json) :=
  match links with
  | [] => Ok []
  | x :: rest =>
      link_selected x ≫= λ keep : bool,
      if keep then
        h ← getitem "href" x;
        hs ← selected_hrefs rest;
        Ok (h :: hs)
      else selected_hrefs rest
  end.

Definition granule_urls (g : json) : pyresult (list json) :=
  links ← getitem "links" g;
  xs ← py_iter links;
  selected_hrefs xs.

(** The body of [for g in granules]: the row appended to [granule_arr].
    The polygon search reads [g['title']] first ([with_title]); the point
    and bounding-box searches do not. *)
Definition parse_granule (with_title : bool) (g : json) : pyresult (list pyval) :=
  _ ← (if with_title then getitem "title" g else Ok JNull);
  cloud_cover ← getitem "cloud_cover" g;
  granule_poly ← granule_geometry g;
  urls ← granule_urls g;
  Ok [Json (JArr urls); Json cloud_cover; granule_poly].

End Granules.

(** Numbers alternating latitude and longitude, paired and swapped: the
    vertices (longitude, latitude); an unpaired last number is left out. *)
Definition lon_lat (nums : list spec_float) : list (spec_float * spec_float) :=
  map (λ p : spec_float * spec_float, (p.2, p.1)) (zip_self nums).

(** The numbers give no vertex or at least three, the shells shapely
    accepts. *)
Definition ring_sized (nums : list spec_float) : Prop :=
  length (lon_lat nums) = 0%nat ∨ (3 ≤ length (lon_lat nums))%nat.

(** [s] is the numbers [nums] written with one space between them, each
    number a text without space that [float] reads. *)
Definition spaced_numbers (pyfloat : string → option spec_float)
  (s : string) (nums : list spec_float) : Prop :=
  ∃ tokens : list string,
    s = join " " tokens ∧
    Forall (λ t, no_char space t = true) tokens ∧
    Forall2 (λ t x, pyfloat t = Some x) tokens nums.

(** *** Requests *)

Inductive http_method := GET | POST.

(** One part of a multipart upload, as in
    [{"shapefile": (file name, content, content type)}]. *)
Record upload := {
  part_name : string;
  file_name : string;
  content : string;
  content_type : string
}.

(** A call of [requests.get(url)] or [requests.post(url, data=..., files=...)]. *)
Record request := {
  method : http_method;
  url : string;
  data : list (string * json);
  files : list upload
}.

Definition cmrurl : string := "https://cmr.earthdata.nasa.gov/search/".
Definition doi : string := "10.5067/EMIT/EMITL2ARFL.001".
Definition doisearch (doi : string) : string := cmrurl +:+ "collections.json?doi=" +:+ doi.

(** [requests.get(doisearch).json()['feed']['entry'][0]['id']], with the
    requests sent; [http] answers a request with the decoded body, or with
    the exception of [.json()]. *)
Definition concept_id (http : request → pyresult json) (doi : string)
  : list request * pyresult json :=
  let req := {| method := GET; url := doisearch doi; data := []; files := [] |} in
  ([req],
   body ← http req;
   feed ← getitem "feed" body;
   entry ← getitem "entry" feed;
   first ← getitem0 entry;
   getitem "id" first).

(** *** Temporal bound *)

Record datetime := {
  year : nat; month : nat; day : nat;
  hour : nat; minute : nat; second : nat
}.

Definition digit (n : nat) : ascii := ascii_of_nat (48 + n mod 10).
Definition pad2 (n : nat) : string := String (digit (n / 10)) (String (digit n) "").

(** A year of [dt.datetime] (1 to 9999) as the C library of Linux writes it
    for [%Y]: in decimal, without leading zeros. *)
Definition year_digits (n : nat) : string :=
  if Nat.ltb n 10 then String (digit n) ""
  else if Nat.ltb n 100 then pad2 n
  else if Nat.ltb n 1000 then String (digit (n / 100)) (pad2 n)
  else String (digit (n / 1000)) (String (digit (n / 100)) (pad2 n)).

(** The directives [dt_format] uses: two digits for the month, the day, the
    hour, the minute and the second, and the year as above. *)
Definition directive (c : ascii) (d : datetime) : string :=
  if Ascii.eqb c "Y" then year_digits (year d)
  else if Ascii.eqb c "m" then pad2 (month d)
  else if Ascii.eqb c "d" then pad2 (day d)
  else if Ascii.eqb c "H" then pad2 (hour d)
  else if Ascii.eqb c "M" then pad2 (minute d)
  else if Ascii.eqb c "S" then pad2 (second d)
  else String "%" (String c "").

Fixpoint strftime (fmt : string) (d : datetime) : string :=
  match fmt with
  | EmptyString => EmptyString
  | String c rest =>
      if Ascii.eqb c "%" then
        match rest with
        | String k rest' => directive k d +:+ strftime rest' d
        | EmptyString => String c EmptyString
        end
      else String c (strftime rest d)
  end.

Definition dt_format : string := "%Y-%m-%dT%H:%M:%SZ".

Definition temporal_str (start_date end_date : datetime) : string :=
  strftime dt_format start_date +:+ "," +:+ strftime dt_format end_date.

(** The values a [dt.datetime] can hold. *)
Definition valid_datetime (d : datetime) : Prop :=
  (1 ≤ year d < 100 * 100 ∧ 1 ≤ month d ≤ 12 ∧ 1 ≤ day d ≤ 31
   ∧ hour d < 24 ∧ minute d < 60 ∧ second d < 60)%nat.

(** The decimal numeral of a number, and the same on two digits. *)
Definition numeral (n : nat) : string := NilEmpty.string_of_uint (Nat.to_uint n).

Definition two_digits (n : nat) : string :=
  if Nat.ltb n 10 then "0" +:+ numeral n else numeral n.

(** A date and time written as year-MM-DDTHH:MM:SSZ. *)
Definition iso_utc (d : datetime) : string :=
  numeral (year d) +:+ "-" +:+ two_digits (month d) +:+ "-" +:+ two_digits (day d)
  +:+ "T" +:+ two_digits (hour d) +:+ ":" +:+ two_digits (minute d) +:+ ":"
  +:+ two_digits (second d) +:+ "Z".

Definition start_date : datetime :=
  {| year := 2022; month := 9; day := 3; hour := 0; minute := 0; second := 0 |}.
Definition end_date : datetime :=
  {| year := 2022; month := 9; day := 3; hour := 23; minute := 23; second := 59 |}.

(** *** The three searches *)

(** The POST to granules.json whose parameters are the concept id, the page
    size 2000, the page number [p], the temporal range and one more item
    [spatial], with the files [uploads]. *)
Definition search_request (cid : json) (temporal : string)
  (spatial : string * json) (uploads : list upload) (p : Z) : request :=
  {| method := POST;
     url := "https://cmr.earthdata.nasa.gov/search/granules.json";
     data := [("collection_concept_id", cid);
              ("page_size", JInt 2000);
              ("page_num", JInt p);
              ("temporal", JStr temporal);
              spatial];
     files := uploads |}.

(** The value of 'page_num' among the parameters of a request. *)
Definition page_num_of (r : request) : option json := assoc "page_num" (data r).

(** The three search cells of the notebook, each with what it searches by. *)
Inductive cell :=
| PointCell (lon lat : spec_float)
| BoundingBoxCell (bound : spec_float * spec_float * spec_float * spec_float)
| PolygonCell (shape : string).

(** [response.json()['feed']['entry']] *)
Definition entry_of (response : pyresult json) : pyresult json :=
  body ← response;
  feed ← getitem "feed" body;
  getitem "entry" feed.

Definition page_size : Z := 2000.

Section Searches.

Variable pyfloat : string → option spec_float.

(** Python's [str(x)] on a float. *)
Variable str_float : spec_float → string.

(** The [k]-th call of [requests.post] (counting from 0) and its decoded
    answer [response.json()]. *)
Variable server : nat → request → pyresult json.

Variable the_concept_id : json.
Variable the_temporal_str : string.

Definition point_str (lon lat : spec_float) : string :=
  str_float lon +:+ "," +:+ str_float lat.

Definition bound_str (bound : spec_float * spec_float * spec_float * spec_float) : string :=
  let '(w, s, e, n) := bound in
  join "," (map str_float [w; s; e; n]).

Definition granulesearch : string := cmrurl +:+ "granules.json".

(** The dictionary [cmr_param] of each search, without its last item. *)
Definition common_param (page_num : Z) : list (string * json) :=
  [("collection_concept_id", the_concept_id);
   ("page_size", JInt page_size);
   ("page_num", JInt page_num);
   ("temporal", JStr the_temporal_str)].

Definition point_request (point_str : string) (page_num : Z) : request :=
  {| method := POST; url := granulesearch;
     data := common_param page_num ++ [("point", JStr point_str)];
     files := [] |}.

Definition bbox_request (bound_str : string) (page_num : Z) : request :=
  {| method := POST; url := granulesearch;
     data := common_param page_num ++ [("bounding_box[]", JStr bound_str)];
     files := [] |}.

(** [geojson = {"shapefile": ("isla_gaviota.geojson", polygon.geometry.to_json(),
    "application/geo+json")}], the file's content being [shape]. *)
Definition geojson (shape : string) : list upload :=
  [{| part_name := "shapefile"; file_name := "isla_gaviota.geojson";
      content := shape; content_type := "application/geo+json" |}].

Definition polygon_request (shape : string) (page_num : Z) : request :=
  {| method := POST; url := granulesearch;
     data := common_param page_num ++ [("simplify-shapefile", JStr "true")];
     files := geojson shape |}.

(** The variables a search cell updates, and the requests it has sent. *)
Record search_state := {
  page_num : Z;
  granule_arr : list (list pyval);
  sent : list request
}.

Definition initial : search_state :=
  {| page_num := 1; granule_arr := []; sent := [] |}.

(** How a run of the [while True] loop stands after some iterations:
    left by [break], ended by an exception, or still iterating. *)
Inductive outcome :=
| Break (st : search_state)
| Raised (e : pyerr) (st : search_state)
| Looping (st : search_state).

Definition state_of (o : outcome) : search_state :=
  match o with
  | Break st | Raised _ st | Looping st => st
  end.

(** The page numbers 1, 2, ..., n. *)
Definition page_numbers (n : nat) : list Z :=
  map (λ k : nat, Z.of_nat k + 1)%Z (seq 0 n).

(** The granule [g] was an item of the page answered to one of the requests
    sent. *)
Definition received (sent : list request) (g : json) : Prop :=
  ∃ (k : nat) (req : request) (items : list json),
    sent !! k = Some req ∧
    (entry_of (server k req) ≫= py_iter) = Ok items ∧
    g ∈ items.

Section Loop.

(** What distinguishes the three cells: the request of a page, and whether
    [g['title']] is read. *)
Variable make_request : Z → request.
Variable with_title : bool.

(** [for g in granules: ... granule_arr.append([...])]: the rows appended
    before an exception stay in the list. *)
Fixpoint append_rows (gs : list json) (arr : list (list pyval))
  : list (list pyval) * option pyerr :=
  match gs with
  | [] => (arr, None)
  | g :: rest =>
      match parse_granule pyfloat with_title g with
      | Ok row => append_rows rest (arr ++ [row])
      | Raise e => (arr, Some e)
      end
  end.

(** One iteration of [while True]. *)
Definition step (st : search_state) : outcome :=
  let req := make_request (page_num st) in
  let st1 := {| page_num := page_num st; granule_arr := granule_arr st;
                sent := sent st ++ [req] |} in
  match entry_of (server (length (sent st)) req) with
  | Raise e => Raised e st1
  | Ok granules =>
      if truthy granules then
        match py_iter granules with
        | Raise e => Raised e st1
        | Ok gs =>
            match append_rows gs (granule_arr st1) with
            | (arr, Some e) =>
                Raised e {| page_num := page_num st1; granule_arr := arr; sent := sent st1 |}
            | (arr, None) =>
                Looping {| page_num := page_num st1 + 1; granule_arr := arr; sent := sent st1 |}
            end
        end
      else Break st1
  end.

(** The loop, run for at most [fuel] iterations. *)
Fixpoint search (fuel : nat) (st : search_state) : outcome :=
  match fuel with
  | O => Looping st
  | S fuel' =>
      match step st with
      | Looping st' => search fuel' st'
      | done => done
      end
  end.

(** Whatever the server answers, the requests sent so far are those of the
    page numbers 1, 2, ..., n, one each and in this order, and the loop
    is at page [n + 1] while it iterates, at page [n] once it has left or
    raised. *)
Definition in_sequence (o : outcome) : Prop :=
  ∃ n : nat,
    sent (state_of o) = map make_request (page_numbers n) ∧
    match o with
    | Looping st => page_num st = (Z.of_nat n + 1)%Z
    | Break st | Raised _ st => page_num st = Z.of_nat n
    end.

(** A row made from a granule received: the list of its selected hrefs, its
    ['cloud_cover'] value, and its geometry, in this order. *)
Definition triple_of (sent : list request) (row : list pyval) : Prop :=
  ∃ (g : json) (urls : list json) (cc : json) (poly : pyval),
    received sent g ∧
    row = [Json (JArr urls); Json cc; poly] ∧
    granule_urls g = Ok urls ∧
    getitem "cloud_cover" g = Ok cc ∧
    granule_geometry pyfloat g = Ok poly ∧
    (poly = Json (JStr "") ∨ ∃ polys, poly = MultiPolygon polys).

Definition rows_are_triples (st : search_state) : Prop :=
  Forall (triple_of (sent st)) (granule_arr st).

(** The requests of pages 1, 2, ..., n are answered by the non-empty lists
    of granules [pages], whose granules give the rows [rows]. *)
Definition pages_answered (pages : list (list json))
  (rows : list (list (list pyval))) : Prop :=
  (∀ k gs, pages !! k = Some gs →
     gs ≠ [] ∧
     entry_of (server k (make_request (Z.of_nat k + 1)%Z)) = Ok (JArr gs))
  ∧ Forall2 (Forall2 (λ g row, parse_granule pyfloat with_title g = Ok row)) pages rows.

(** The state of the loop once the pages [rows] are appended. *)
Definition after_pages (rows : list (list (list pyval))) : search_state :=
  {| page_num := (Z.of_nat (length rows) + 1)%Z;
     granule_arr := concat rows;
     sent := map make_request (page_numbers (length rows)) |}.

End Loop.

Definition point_search (lon lat : spec_float) (fuel : nat) : outcome :=
  search (point_request (point_str lon lat)) false fuel initial.

Definition bbox_search (bound : spec_float * spec_float * spec_float * spec_float)
  (fuel : nat) : outcome :=
  search (bbox_request (bound_str bound)) false fuel initial.

Definition polygon_search (shape : string) (fuel : nat) : outcome :=
  search (polygon_request shape) true fuel initial.

(** The request a cell sends for a page, whether it reads [g['title']], and
    its loop. *)
Definition request_of (c : cell) : Z → request :=
  match c with
  | PointCell lon lat => point_request (point_str lon lat)
  | BoundingBoxCell bound => bbox_request (bound_str bound)
  | PolygonCell shape => polygon_request shape
  end.

Definition reads_title (c : cell) : bool :=
  match c with
  | PolygonCell _ => true
  | _ => false
  end.

Definition run_cell (c : cell) (fuel : nat) : outcome :=
  match c with
  | PointCell lon lat => point_search lon lat fuel
  | BoundingBoxCell bound => bbox_search bound fuel
  | PolygonCell shape => polygon_search shape fuel
  end.

End Searches.

(** *** The results dataframe *)

(** A row of [pd.DataFrame(granule_arr, columns=["asset_url", "cloud_cover",
    "granule_poly"])]. *)
Record granule_row := {
  g_asset_url : pyval;
  g_cloud_cover : pyval;
  g_granule_poly : pyval
}.

(** A row once the column [asset_name] is inserted in front. *)
Record asset_row := {
  asset_name : pyval;
  asset_url : pyval;
  cloud_cover : pyval;
  granule_poly : pyval
}.

(** The length of the longest row. *)
Definition width (granule_arr : list (list pyval)) : nat :=
  foldr (λ r k, Nat.max (length r) k) 0%nat granule_arr.

(** A row as the dataframe stores it: the items a short row lacks are
    [None]. *)
Definition padded (r : list pyval) : granule_row :=
  {| g_asset_url := nth 0 r (Json JNull);
     g_cloud_cover := nth 1 r (Json JNull);
     g_granule_poly := nth 2 r (Json JNull) |}.

(** [pd.DataFrame(granule_arr, columns=[three names])].  The rows the
    searches append have three items each, one per column.  pandas makes
    the data as wide as the longest row, shorter rows padded with [None],
    and raises [ValueError] when that is not three columns; no row gives
    the empty frame. *)
Definition DataFrame (granule_arr : list (list pyval)) : pyresult (list granule_row) :=
  match granule_arr with
  | [] => Ok []
  | _ => if Nat.eqb (width granule_arr) 3 then Ok (map padded granule_arr)
         else Raise ValueError
  end.

(** [cell != ''] *)
Definition not_empty_str (v : pyval) : bool :=
  match v with
  | Json (JStr EmptyString) => false
  | _ => true
  end.

(** [df.explode('asset_url')] on one row: a list cell gives one row per
    item (a dict cell one per key), an empty one a row with a missing value,
    any other cell the row itself. *)
Definition explode_row (r : granule_row) : list granule_row :=
  let with_url (u : pyval) :=
    {| g_asset_url := u; g_cloud_cover := g_cloud_cover r;
       g_granule_poly := g_granule_poly r |} in
  match g_asset_url r with
  | Json (JArr []) | Json (JObj []) => [with_url NaN]
  | Json (JArr items) => map (λ x, with_url (Json x)) items
  | Json (JObj fields) => map (λ kv, with_url (Json (JStr (fst kv)))) fields
  | _ => [r]
  end.

Definition explode (df : list granule_row) : list granule_row :=
  flat_map explode_row df.

(** [s.str.split('/', n=-1).str.get(-1)] on one cell: the last piece of a
    string, a missing value for anything else. *)
Definition last_segment (v : pyval) : pyval :=
  match v with
  | Json (JStr s) => Json (JStr (List.last (split_on slash s) EmptyString))
  | _ => NaN
  end.

(** [df.insert(0, 'asset_name', ...)] *)
Definition insert_asset_name (r : granule_row) : asset_row :=
  {| asset_name := last_segment (g_asset_url r);
     asset_url := g_asset_url r;
     cloud_cover := g_cloud_cover r;
     granule_poly := g_granule_poly r |}.

(** The cell that creates [cmr_results_df]. *)
Definition results_table (granule_arr : list (list pyval)) : pyresult (list asset_row) :=
  df ← DataFrame granule_arr;
  let df := filter (λ r, not_empty_str (g_granule_poly r) = true) df in
  let df := explode df in
  Ok (map insert_asset_name df).

(** [s.str.contains(pat)] on one cell, for a pattern without regular
    expression operators; the missing value it gives for a cell that is not a
    string counts as [False] in the mask built with [|]. *)
Definition str_contains (pat : string) (v : pyval) : bool :=
  match v with
  | Json (JStr s) => contains pat s
  | _ => false
  end.

Definition wanted (r : asset_row) : bool :=
  str_contains "_RFL_" (asset_name r) || str_contains "MASK" (asset_name r).

(** [cmr_results_df[... .str.contains('_RFL_') | ... .str.contains('MASK')]] *)
Definition filter_assets (df : list asset_row) : list asset_row :=
  filter (λ r, wanted r = true) df.

(** Rows of three items each, as the searches append them. *)
Definition as_rows (triples : list (pyval * pyval * pyval)) : list (list pyval) :=
  map (λ t : pyval * pyval * pyval, [t.1.1; t.1.2; t.2]) triples.

(** The link test on an href that is a string. *)
Definition href_selected (s : string) : bool :=
  contains "https" s && contains ".nc" s && negb (contains ".dmrpp" s).

(** The last '/'-separated piece of a URL, and the asset filter on it. *)
Definition name_of_url (s : string) : string :=
  List.last (split_on slash s) EmptyString.

Definition asset_wanted (s : string) : bool :=
  contains "_RFL_" (name_of_url s) || contains "MASK" (name_of_url s).

(** The lines of the URL file that come from one granule, given whether it
    has a 'polygons' key and the hrefs of its links. *)
Definition lines_of_granule (has_polygons : bool) (hrefs : list string) : list string :=
  if has_polygons then List.filter asset_wanted (List.filter href_selected hrefs) else [].

(** The strings among the items of a URL list. *)
Definition text_urls (urls : list json) : list string :=
  flat_map (λ u, match u with JStr s => [s] | _ => [] end) urls.

(** The URLs of the file that come from one granule, given whether it has
    a 'polygons' key and its URL list. *)
Definition file_urls (has_polygons : bool) (urls : list json) : list string :=
  if has_polygons then List.filter asset_wanted (text_urls urls) else [].

(** What a granule's row holds in the column asset_url: the list of its
    selected hrefs. *)
Definition row_of (g : json) (r : granule_row) : Prop :=
  ∃ urls : list json, g_asset_url r = Json (JArr urls) ∧ granule_urls g = Ok urls.

(** The cell holds a string. *)
Definition is_text (v : pyval) : Prop := ∃ s : string, v = Json (JStr s).

(** The row is that of the URL [s]: [s] in the column asset_url, and its
    last '/'-separated piece in the column asset_name. *)
Definition holds_url (r : asset_row) (s : string) : Prop :=
  asset_url r = Json (JStr s) ∧ asset_name r = Json (JStr (name_of_url s)).

(** [s] is the href of a link of one of the granules [gs], and has 'https'
    and '.nc' in it but not '.dmrpp'. *)
Definition selected_href_of (gs : list json) (s : string) : Prop :=
  ∃ (g x : json) (links : list json),
    g ∈ gs ∧
    (getitem "links" g ≫= py_iter) = Ok links ∧
    x ∈ links ∧
    getitem "href" x = Ok (JStr s) ∧
    contains "https" s = true ∧ contains ".nc" s = true ∧ contains ".dmrpp" s = false.

Section Save.

(** Python's [str(v)], for a cell that is neither a string nor missing. *)
Variable py_str : pyval → string.

(** The characters the csv writer takes for line breaks: those of the line
    terminator ([os.linesep] for pandas), to which recent versions of
    Python add the carriage return and the line feed. *)
Variable line_break : ascii → bool.

(** [DataFrame.drop_duplicates(subset=['asset_url'])] of pandas. *)
Variable drop_duplicates : list asset_row → pyresult (list asset_row).

(** The text [to_csv] writes for a cell: a string as it is, a missing value
    ([NaN] or [None]) as the empty field. *)
Definition cell_text (v : pyval) : string :=
  match v with
  | Json (JStr s) => s
  | NaN | Json JNull => EmptyString
  | _ => py_str v
  end.

(** The character the writer quotes with. *)
Definition quotechar : ascii := ascii_of_nat 34.

(** The writer puts a field between quotes when it holds the delimiter, the
    quote character or a line break, and when it is empty and alone in
    its record. *)
Definition needs_quotes (field : string) : bool :=
  match field with
  | EmptyString => true
  | _ => existsb (λ c, Ascii.eqb c "," || Ascii.eqb c quotechar || line_break c)
                 (list_ascii_of_string field)
  end.

(** Each quote character of a quoted field is written twice. *)
Fixpoint doubled (field : string) : string :=
  match field with
  | EmptyString => EmptyString
  | String c rest =>
      if Ascii.eqb c quotechar then String c (String c (doubled rest))
      else String c (doubled rest)
  end.

(** One record of one field, as [csv.writer] writes it with its default
    dialect (the line terminator left out). *)
Definition csv_record (field : string) : string :=
  if needs_quotes field
  then String quotechar (doubled field +:+ String quotechar EmptyString)
  else field.

(** [df.to_csv(path, columns=['asset_url'], index=False, header=False)]: the
    records of the file, one per row, each the single selected field. *)
Definition to_csv (df : list asset_row) : list string :=
  map (λ r, csv_record (cell_text (asset_url r))) df.

(** [df[:-1]] *)
Definition all_but_last {A} (df : list A) : list A := removelast df.

(** The cell that saves the URLs, on the notebook's variables (those bound
    to dataframes): it binds [cmr_results_dfs] and writes the file from
    [cmr_results_df]. *)
Definition save_cell (env : gmap string (list asset_row))
  : pyresult (gmap string (list asset_row) * list string) :=
  match env !! "cmr_results_df" with
  | None => Raise NameError
  | Some df =>
      dfs ← drop_duplicates (all_but_last df);
      let env' := <["cmr_results_dfs" := dfs]> env in
      match env' !! "cmr_results_df" with
      | None => Raise NameError
      | Some df' => Ok (env', to_csv df')
      end
  end.

(** From [granule_arr] to the lines of [emit_asset_urls.txt]. *)
Definition emit_asset_urls (granule_arr : list (list pyval)) : pyresult (list string) :=
  table ← results_table granule_arr;
  '(_, lines) ← save_cell {["cmr_results_df" := filter_assets table]};
  Ok lines.

End Save.

(** A text that is not empty and has no comma, no double quote and no
    line break. *)
Definition plain_text (line_break : ascii → bool) (s : string) : bool :=
  negb (String.eqb s EmptyString)
  && forallb (λ c, negb (Ascii.eqb c "," || Ascii.eqb c quotechar || line_break c))
             (list_ascii_of_string s).

(** [line] is what the file holds for the text [s]: [s] itself when it is
    plain, and otherwise [s] between double quotes, two double quotes in
    the place of each one of [s]. *)
Definition written_as (line_break : ascii → bool) (s line : string) : Prop :=
  line = if plain_text line_break s then s
         else String quotechar
                (join (String quotechar (String quotechar EmptyString))
                      (split_on quotechar s)
                 +:+ String quotechar EmptyString).

(** A stand-in for [float] on unsigned decimal integers, used to run the
    definitions on concrete granules. *)
Definition digit_of (c : ascii) : option N :=
  let n := N_of_ascii c in
  if ((48 <=? n) && (n <=? 57))%N then Some (n - 48)%N else None.

Fixpoint parse_digits (acc : N) (s : string) : option N :=
  match s with
  | EmptyString => Some acc
  | String c s' =>
      match digit_of c with
      | Some d => parse_digits (10 * acc + d)%N s'
      | None => None
      end
  end.

Definition float_of_digits (s : string) : option spec_float :=
  match s with
  | EmptyString => None
  | _ =>
      match parse_digits 0 s with
      | Some N0 => Some (S754_zero false)
      | Some (Npos p) => Some (S754_finite false p 0)
      | None => None
      end
  end.

Definition fl (p : positive) : spec_float := S754_finite false p 0.

(** The first row of each URL, the rows kept in their order: what
    [drop_duplicates(subset=['asset_url'])] keeps of a column of strings. *)
Fixpoint first_of_each (seen : list string) (df : list asset_row) : list asset_row :=
  match df with
  | [] => []
  | r :: rest =>
      match asset_url r with
      | Json (JStr s) =>
          if existsb (String.eqb s) seen then first_of_each seen rest
          else r :: first_of_each (s :: seen) rest
      | _ => r :: first_of_each seen rest
      end
  end.

Definition sample_granule : json :=
  JObj [("title", JStr "EMIT_L2A_RFL_001_20220903T163129_2224611_012");
        ("cloud_cover", JStr "82");
        ("polygons", JArr [JArr [JStr "10 20 30 40 50 60 10 20"]]);
        ("links", JArr [
           JObj [("href", JStr "https://h/p/EMIT_L2A_RFL_001.nc")];
           JObj [("href", JStr "s3://h/p/EMIT_L2A_RFL_001.nc")];
           JObj [("href", JStr "https://h/p/EMIT_L2A_RFL_001.nc.dmrpp")];
           JObj [("href", JStr "https://h/p/EMIT_L2A_RFLUNCERT_001.nc")];
           JObj [("href", JStr "https://h/p/EMIT_L2A_MASK_001.nc")];
           JObj [("href", JStr "https://h/p/EMIT_L2A_RFL_001.png")]])].

Definition feed_of (granules : list json) : json :=
  JObj [("feed", JObj [("entry", JArr granules)])].

(** A server that answers every request with one granule. *)
Definition one_granule_each (k : nat) (r : request) : pyresult json :=
  Ok (feed_of [sample_granule]).

(** A server that answers the first request with one granule and every
    later one with [answer]. *)
Definition then_answer (answer : pyresult json) (k : nat) (r : request)
  : pyresult json :=
  match k with
  | 0 => Ok (feed_of [sample_granule])
  | _ => answer
  end.

(** A granule without 'cloud_cover'. *)
Definition bad_granule : json := JObj [("title", JStr "EMIT_L2A_RFL_001")].

(** A granule without 'title', its one link without 'href'. *)
Definition untitled_granule : json :=
  JObj [("cloud_cover", JStr "7"); ("links", JArr [JObj [("rel", JStr "data")]])].

(** A granule without 'polygons', with one link that passes both filters. *)
Definition plain_granule : json :=
  JObj [("cloud_cover", JStr "7");
        ("links", JArr [JObj [("href", JStr "https://h/p/EMIT_L2A_RFL_002.nc")]])].

(** The row it gives. *)
Definition plain_row : list pyval :=
  [Json (JArr [JStr "https://h/p/EMIT_L2A_RFL_002.nc"]); Json (JStr "7"); Json (JStr "")].

(** A granule with an empty 'polygons' list and a link whose href holds a
    comma. *)
Definition comma_granule : json :=
  JObj [("cloud_cover", JStr "7");
        ("polygons", JArr []);
        ("links", JArr [JObj [("href", JStr "https://h/p/EMIT_L2A_RFL_001,2.nc")]])].

(** The row it gives. *)
Definition comma_row : list pyval :=
  [Json (JArr [JStr "https://h/p/EMIT_L2A_RFL_001,2.nc"]); Json (JStr "7");
   MultiPolygon []].

Definition sample_hrefs : list string :=
  ["https://h/p/EMIT_L2A_RFL_001.nc"; "s3://h/p/EMIT_L2A_RFL_001.nc";
   "https://h/p/EMIT_L2A_RFL_001.nc.dmrpp"; "https://h/p/EMIT_L2A_RFLUNCERT_001.nc";
   "https://h/p/EMIT_L2A_MASK_001.nc"; "https://h/p/EMIT_L2A_RFL_001.png"].

(** A server with two pages of one granule each. *)
Definition two_pages (k : nat) (r : request) : pyresult json :=
  match k with
  | 0 | 1 => Ok (feed_of [sample_granule])
  | _ => Ok (feed_of [])
  end.

Definition sample_row : list pyval :=
  [Json (JArr [JStr "https://h/p/EMIT_L2A_RFL_001.nc";
               JStr "https://h/p/EMIT_L2A_RFLUNCERT_001.nc";
               JStr "https://h/p/EMIT_L2A_MASK_001.nc"]);
   Json (JStr "82");
   MultiPolygon [Polygon [(fl 20, fl 10); (fl 40, fl 30); (fl 60, fl 50); (fl 20, fl 10)]]].

Definition sample_asset (name : string) : asset_row :=
  {| asset_name := Json (JStr name);
     asset_url := Json (JStr ("https://h/p/" +:+ name));
     cloud_cover := Json (JStr "82");
     granule_poly := MultiPolygon [] |}.

(** An answer of collections.json. *)
Definition collection_entry : json :=
  JObj [("title", JStr "EMIT L2A Estimated Surface Reflectance");
        ("id", JStr "C2408750690-LPCLOUD")].

Definition collections_feed : json :=
  JObj [("updated", JStr "2023-01-20T00:00:00.000Z");
        ("entry", JArr [collection_entry])].

Definition collections_answer (r : request) : pyresult json :=
  Ok (JObj [("feed", collections_feed)]).

Definition keep_first (df : list asset_row) : pyresult (list asset_row) :=
  Ok (first_of_each [] df).

(** The line feed as the only line break. *)
Definition line_feed (c : ascii) : bool := Ascii.eqb c (ascii_of_nat 10).

Definition sample_table : list asset_row :=
  [sample_asset "A_RFL_1.nc"; sample_asset "A_RFL_1.nc"; sample_asset "A_MASK_1.nc"].

Definition sample_env : gmap string (list asset_row) :=
  {["cmr_results_df" := sample_table]}.

(** The request of a page in the sample searches. *)
Definition sample_request : Z → request :=
  point_request (JStr "C2408750690-LPCLOUD") (temporal_str start_date end_date)
                "-62.1123,-39.89402".

End Cmr.

(** ** The reflectance tutorial *)

Module Refl.
Import Py.

(** *** Floating-point arrays *)

(** The element types an array of reflectance can have. *)
Inductive dtype := float32 | float64.

Definition prec (dt : dtype) : Z :=
  match dt with float32 => 24 | float64 => 53 end.

Definition emax (dt : dtype) : Z :=
  match dt with float32 => 128 | float64 => 1024 end.

Definition nan : spec_float := S754_nan.
Definition zero : spec_float := S754_zero false.
Definition one (dt : dtype) : spec_float := SFone (prec dt) (emax dt).

(** An integer literal converted to the element type. *)
Definition of_int (dt : dtype) (z : Z) : spec_float :=
  binary_normalize (prec dt) (emax dt) z 0 false.

(** The literal [-0.01] converted to the element type: the float nearest
    to -1/100. *)
Definition minus_0_01 (dt : dtype) : spec_float :=
  SFopp (SFdiv (prec dt) (emax dt) (one dt) (of_int dt 100)).

(** The Python float [0.2]. *)
Definition lit_0_2 : spec_float :=
  SFdiv (prec float64) (emax float64) (one float64) (of_int float64 5).

Definition is_nan (x : spec_float) : bool :=
  match x with S754_nan => true | _ => false end.

(** The entry is a number between 0 and 1. *)
Definition in_unit_interval (dt : dtype) (y : spec_float) : Prop :=
  is_nan y = false ∧ SFleb zero y = true ∧ SFleb y (one dt) = true.

(** *** Masking the water-absorption bands *)

(** [data == c], element by element. *)
Definition equal_to (c : spec_float) (data : list spec_float) : list bool :=
  map (λ x, SFeqb x c) data.

(** [data[mask] = v]: the entries the mask selects are overwritten. *)
Fixpoint assign_where (mask : list bool) (v : spec_float) (data : list spec_float)
  : list spec_float :=
  match mask, data with
  | m :: mask', x :: data' => (if m then v else x) :: assign_where mask' v data'
  | _, _ => data
  end.

(** [ds['reflectance'].data[ds['reflectance'].data == -0.01] = np.nan] on the
    entries of the array, in any fixed order. *)
Definition mask_reflectance (dt : dtype) (data : list spec_float) : list spec_float :=
  assign_where (equal_to (minus_0_01 dt) data) nan data.

(** *** gamma_adjust *)

Section Gamma.

Variable dt : dtype.

(** [np.nanmean], [math.log] (which raises on a value outside its domain)
    and [np.power] on one entry. *)
Variable nanmean : list spec_float → spec_float.
Variable math_log : spec_float → pyresult spec_float.
Variable power : spec_float → spec_float → spec_float.

(** [a / b] on Python floats. *)
Definition py_div (a b : spec_float) : pyresult spec_float :=
  match b with
  | S754_zero _ => Raise ZeroDivisionError
  | _ => Ok (SFdiv (prec float64) (emax float64) a b)
  end.

(** [x.clip(lo, hi)] on one entry: a NaN stays. *)
Definition clip (lo hi x : spec_float) : spec_float :=
  if is_nan x then x
  else if SFltb x lo then lo
  else if SFltb hi x then hi
  else x.

(** [np.nan_to_num(x, nan=v)] on one entry: the infinities go to the largest
    and smallest finite values of the element type. *)
Definition nan_to_num (v x : spec_float) : spec_float :=
  match x with
  | S754_nan => v
  | S754_infinity false => SFmax_float (prec dt) (emax dt)
  | S754_infinity true => SFopp (SFmax_float (prec dt) (emax dt))
  | _ => x
  end.

(** [gamma = math.log(0.2)/math.log(np.nanmean(array))] *)
Definition gamma_exponent (array : list spec_float) : pyresult spec_float :=
  num ← math_log lit_0_2;
  den ← math_log (nanmean array);
  py_div num den.

(** [gamma_adjust(ds, band)], the dataset given by its reflectance at each
    band ([ds['reflectance'].sel(bands=band).data]). *)
Definition gamma_adjust (ds : Z → list spec_float) (band : Z) : pyresult (list spec_float) :=
  let array := ds band in
  gamma ← gamma_exponent array;
  let scaled := map (λ x, clip zero (one dt) (power x gamma)) array in
  let scaled := map (nan_to_num (one dt)) scaled in
  Ok scaled.

(** [r = gamma_adjust(ds_geo, b650)], [g = ...], [b = ...] and
    [rgb = np.stack([r, g, b])], which needs arrays of one shape. *)
Definition rgb_stack (ds_geo : Z → list spec_float) (b650 b560 b470 : Z)
  : pyresult (list (list spec_float)) :=
  r ← gamma_adjust ds_geo b650;
  g ← gamma_adjust ds_geo b560;
  b ← gamma_adjust ds_geo b470;
  if Nat.eqb (length r) (length g) && Nat.eqb (length r) (length b)
  then Ok [r; g; b]
  else Raise ValueError.

End Gamma.

(** *** The cells as statements over names *)

(** A statement of the notebook, by the global names it reads and binds;
    [line] is its line in the notebook file. *)
Inductive stmt :=
| Run (line : nat) (reads : list string) (binds : list string)
| Del (line : nat) (name : string).

Definition line_of (s : stmt) : nat :=
  match s with Run l _ _ | Del l _ => l end.

Definition reads_of (s : stmt) : list string :=
  match s with Run _ r _ => r | Del _ _ => [] end.

Definition notebook : list stmt := [
  Run 58 [] ["gdal"];
  Run 59 [] ["np"];
  Run 60 [] ["math"];
  Run 61 [] ["rio"];
  Run 62 [] ["xr"];
  Run 63 [] ["hv"];
  Run 64 [] ["hvplot"];
  Run 65 [] ["nc"];
  Run 81 [] ["fp"];
  Run 109 ["nc"; "fp"] ["ds"];
  Run 110 ["ds"] [];
  Run 133 ["ds"] [];
  Run 149 ["xr"; "fp"] ["refl"];
  Run 150 ["refl"] [];
  Run 168 ["xr"; "fp"] ["wvl"];
  Run 169 ["wvl"] [];
  Run 178 ["xr"; "fp"] ["loc"];
  Run 179 ["loc"] [];
  Run 195 ["xr"; "refl"; "loc"] ["ds"];
  Run 196 ["ds"] [];
  Run 212 ["ds"; "refl"; "wvl"] ["ds"];
  Run 213 ["ds"] [];
  Del 229 "refl";
  Del 230 "wvl";
  Del 231 "loc";
  Run 251 ["ds"] ["example"];
  Run 252 ["example"] [];
  Run 270 ["ds"; "np"] [];
  Run 288 ["ds"] [];
  Run 311 ["np"; "ds"] ["b850"];
  Run 312 ["b850"] [];
  Run 321 ["ds"; "b850"] [];
  Run 343 ["xr"; "fp"] ["loc"];
  Run 344 ["loc"] [];
  Del 362 "loc";
  Del 363 "example";
  Run 381 [] ["sys"];
  Run 382 ["sys"] [];
  Run 383 [] ["emit_xarray"];
  Run 384 ["emit_xarray"] [];
  Run 404 ["emit_xarray"; "fp"] ["ds_geo"];
  Run 405 ["ds_geo"] [];
  Run 425 ["np"; "ds_geo"] ["b850"];
  Run 426 ["ds_geo"; "b850"; "ds"] [];
  Run 443 ["ds_geo"; "b850"] [];
  Run 460 ["ds_geo"; "np"] [];
  Run 478 ["ds_geo"] ["point"];
  Run 479 ["point"] [];
  Run 528 ["np"; "ds_geo"] ["b650"];
  Run 529 ["np"; "ds_geo"] ["b560"];
  Run 530 ["np"; "ds_geo"] ["b470"];
  Run 547 [] ["gamma_adjust"];
  Run 571 ["gamma_adjust"; "ds_geo"; "b650"; "math"; "np"] ["r"];
  Run 572 ["gamma_adjust"; "ds_geo"; "b560"; "math"; "np"] ["g"];
  Run 573 ["gamma_adjust"; "ds_geo"; "b470"; "math"; "np"] ["b"];
  Run 575 ["np"; "r"; "g"; "b"] ["rgb"];
  Run 576 ["np"] ["bds"];
  Run 578 ["ds_geo"] ["x"];
  Run 579 ["ds_geo"] ["y"];
  Run 581 ["rgb"] ["data_vars"];
  Run 582 ["bds"; "y"; "x"] ["coords"];
  Run 583 ["ds_geo"] ["attrs"];
  Run 584 ["xr"; "data_vars"; "coords"; "attrs"] ["ds_rgb"];
  Run 585 ["ds_rgb"; "ds_geo"] [];
  Run 586 ["ds_rgb"; "ds_geo"] [];
  Run 587 ["ds_rgb"] [];
  Run 604 ["ds_rgb"] ["map"];
  Run 627 ["hv"; "map"] ["posxy"];
  Run 628 ["hv"; "map"] ["clickxy"];
  Run 631 [] ["point_spectra"];
  Run 635 [] ["click_spectra"];
  Run 640 ["hv"; "point_spectra"; "posxy"; "ds_geo"] ["point_dmap"];
  Run 641 ["hv"; "click_spectra"; "clickxy"; "ds_geo"] ["click_dmap"];
  Run 644 ["map"; "click_dmap"; "point_dmap"; "ds_geo"] []
].

(** The names that are imported modules and functions. *)
Definition libraries : list string :=
  ["gdal"; "np"; "math"; "rio"; "xr"; "hv"; "hvplot"; "nc"; "sys"; "emit_xarray"].

Definition mem (x : string) (l : list string) : bool := existsb (String.eqb x) l.

Definition remove_name (x : string) (l : list string) : list string :=
  List.filter (λ y, negb (String.eqb x y)) l.

(** No statement reads or deletes a name that is not bound when it runs,
    [bound] being the names bound before the statements. *)
Fixpoint well_scoped (bound : list string) (prog : list stmt) : bool :=
  match prog with
  | [] => true
  | Run _ reads binds :: rest =>
      forallb (λ x, mem x bound) reads && well_scoped (binds ++ bound) rest
  | Del _ x :: rest =>
      mem x bound && well_scoped (remove_name x bound) rest
  end.

(** The statements without the deletions. *)
Definition without_del (prog : list stmt) : list stmt :=
  List.filter (λ s, match s with Del _ _ => false | Run _ _ _ => true end) prog.

(** The deletions among the statements. *)
Definition deletions (prog : list stmt) : list stmt :=
  List.filter (λ s, match s with Del _ _ => true | Run _ _ _ => false end) prog.

(** The lines of the statements that bind the name [x]. *)
Definition lines_binding (x : string) (prog : list stmt) : list nat :=
  map line_of
      (List.filter (λ s, match s with Run _ _ binds => mem x binds | Del _ _ => false end)
                   prog).

(** The statements after line [l]. *)
Definition after (l : nat) (prog : list stmt) : list stmt :=
  List.filter (λ s, Nat.ltb l (line_of s)) prog.

(** Every name a statement reads is one of [allowed], a library, or a name
    bound by an earlier statement of [prog] and not deleted since ([fresh]). *)
Fixpoint reads_only (allowed fresh : list string) (prog : list stmt) : bool :=
  match prog with
  | [] => true
  | Run _ reads binds :: rest =>
      forallb (λ x, mem x allowed || mem x libraries || mem x fresh) reads
      && reads_only allowed (binds ++ fresh) rest
  | Del _ x :: rest => reads_only allowed (remove_name x fresh) rest
  end.

(** Running statements: what a statement computes depends on the values of
    the names it reads and on the objects in memory ([act], which may mutate
    them, display values, and raise); it gives each name the statement binds
    its value.  [del] unbinds a name. *)
Section Run.

Context {V H : Type}.
Variable act : nat → list V → H → pyresult ((string → V) * H).

Definition lookup_name (env : gmap string V) (x : string) : pyresult V :=
  match env !! x with
  | Some v => Ok v
  | None => Raise NameError
  end.

Fixpoint bind_names (xs : list string) (value : string → V) (env : gmap string V)
  : gmap string V :=
  match xs with
  | [] => env
  | x :: xs' => bind_names xs' value (<[x := value x]> env)
  end.

Definition exec (s : stmt) (st : gmap string V * H) : pyresult (gmap string V * H) :=
  let '(env, h) := st in
  match s with
  | Run line reads binds =>
      vs ← mapM (lookup_name env) reads;
      '(value, h') ← act line vs h;
      Ok (bind_names binds value env, h')
  | Del _ x =>
      match env !! x with
      | Some _ => Ok (delete x env, h)
      | None => Raise NameError
      end
  end.

Fixpoint run (prog : list stmt) (st : gmap string V * H) : pyresult (gmap string V * H) :=
  match prog with
  | [] => Ok st
  | s :: rest => st' ← exec s st; run rest st'
  end.

(** Two runs agree: the same exception, or the same memory with every
    binding of the first also in the second. *)
Definition agree (r1 r2 : pyresult (gmap string V * H)) : Prop :=
  match r1, r2 with
  | Ok (env1, h1), Ok (env2, h2) => h1 = h2 ∧ env1 ⊆ env2
  | Raise e1, Raise e2 => e1 = e2
  | _, _ => False
  end.

End Run.

(** Statements that compute 0 for every name they bind and never raise. *)
Definition quiet_act (line : nat) (vs : list nat) (h : unit)
  : pyresult ((string → nat) * unit) :=
  Ok (λ _, 0, h).

Definition sample_band (band : Z) : list spec_float :=
  [S754_infinity true; S754_infinity false; nan; of_int float64 2; zero; lit_0_2].

End Refl.

(** * Properties *)

Import Py.

(** ** Strings *)

Section StringFacts.

Lemma split_on_not_nil (c : ascii) (s : string) : split_on c s ≠ [].
Proof.
  destruct s as [|a s]; simpl; [discriminate|].
  destruct (Ascii.eqb a c); [discriminate|].
  destruct (split_on c s); discriminate.
Qed.

Lemma split_on_no_char (c : ascii) (s : string) :
  no_char c s = true → split_on c s = [s].
Proof.
  induction s as [|a s IH]; simpl; [reflexivity|].
  intros [Ha Hs]%andb_true_iff.
  apply negb_true_iff in Ha. rewrite Ha, (IH Hs). reflexivity.
Qed.

Lemma split_on_app (c : ascii) (a b : string) :
  no_char c a = true →
  split_on c (a +:+ String c b) = a :: split_on c b.
Proof.
  induction a as [|x a IH]; simpl.
  - intros _. rewrite Ascii.eqb_refl. reflexivity.
  - intros [Hx Ha]%andb_true_iff.
    apply negb_true_iff in Hx. rewrite Hx, (IH Ha). reflexivity.
Qed.

(** Splitting undoes joining, for pieces free of the separator. *)
Lemma split_on_join (c : ascii) (tokens : list string) :
  tokens ≠ [] →
  Forall (λ t, no_char c t = true) tokens →
  split_on c (join (String c EmptyString) tokens) = tokens.
Proof.
  intros Hne Hall. induction Hall as [|t rest Ht Hrest IH]; [done|].
  destruct rest as [|t' rest'].
  - simpl. by apply split_on_no_char.
  - change (join (String c EmptyString) (t :: t' :: rest'))
      with (t +:+ String c (join (String c EmptyString) (t' :: rest'))).
    rewrite split_on_app by done. f_equal. by apply IH.
Qed.

(** The pieces of a split are free of the separator. *)
Lemma split_on_pieces (c : ascii) (s : string) :
  Forall (λ t, no_char c t = true) (split_on c s).
Proof.
  induction s as [|a s IH]; simpl.
  - by constructor.
  - destruct (Ascii.eqb a c) eqn:Hac.
    + by constructor.
    + pose proof (split_on_not_nil c s) as Hne.
      destruct (split_on c s) as [|w ws]; [done|].
      inversion IH as [|? ? Hw Hws]; subst.
      constructor; [|done]. simpl. by rewrite Hac.
Qed.

Lemma zip_self_ind {A} (P : list A → Prop) :
  P [] → (∀ a, P [a]) → (∀ a b l, P l → P (a :: b :: l)) → ∀ l, P l.
Proof.
  intros H0 H1 H2.
  fix IH 1. intros [|a [|b l]]; [done|done|].
  apply H2, IH.
Qed.

End StringFacts.

(** ** Granule geometry *)

Import Cmr.

Section GeometryFacts.

Variable pyfloat : string → option spec_float.

(** A joined pair splits back into its two pieces, which are read as
    longitude (second piece) and latitude (first piece). *)
Lemma vertex_of_pair (a b : string) (x y : spec_float) :
  no_char space a = true → no_char space b = true →
  pyfloat a = Some x → pyfloat b = Some y →
  vertex pyfloat (join " " [a; b]) = Ok (y, x).
Proof.
  intros Ha Hb Hx Hy. unfold vertex.
  change (join " " [a; b]) with (a +:+ String space b).
  rewrite split_on_app by done. rewrite (split_on_no_char _ _ Hb).
  simpl. unfold float. rewrite Hy, Hx. reflexivity.
Qed.

Lemma vertices_of_tokens (tokens : list string) (nums : list spec_float) :
  Forall (λ t, no_char space t = true) tokens →
  Forall2 (λ t x, pyfloat t = Some x) tokens nums →
  mapM (vertex pyfloat)
       (map (λ ab : string * string, join " " [ab.1; ab.2]) (zip_self tokens))
  = Ok (lon_lat nums).
Proof.
  revert nums. induction tokens as [| a | a b rest IH] using zip_self_ind;
    intros nums Hsp Hnum.
  - inversion Hnum; subst. reflexivity.
  - inversion Hnum as [|? x ? nums' ? Hrest]; subst.
    inversion Hrest; subst. reflexivity.
  - inversion Hnum as [|? x ? nums' Hx Hrest]; subst.
    inversion Hrest as [|? y ? nums'' Hy Hrest']; subst.
    inversion Hsp as [|? ? Ha Hsp']; subst.
    inversion Hsp' as [|? ? Hb Hsp'']; subst.
    cbn [zip_self map mapM fst snd].
    rewrite (vertex_of_pair a b x y) by done.
    cbn [mbind pyresult_bind].
    rewrite (IH nums'') by done. reflexivity.
Qed.

(** A polygon element is read through its first item only. *)
Lemma parse_polygon_first_ring (s : string) (others : list json) (nums : list spec_float) :
  spaced_numbers pyfloat s nums →
  parse_polygon pyfloat (JArr (JStr s :: others)) = shapely_Polygon (lon_lat nums).
Proof.
  intros (tokens & -> & Hsp & Hnum). unfold parse_polygon. cbn [getitem0 py_split mbind pyresult_bind].
  destruct tokens as [|t0 tokens'].
  - inversion Hnum; subst. reflexivity.
  - change (join " " (t0 :: tokens')) with (join (String space EmptyString) (t0 :: tokens')).
    rewrite split_on_join by done.
    rewrite (vertices_of_tokens _ nums) by done. reflexivity.
Qed.

Lemma shapely_Polygon_cases (shell : list (spec_float * spec_float)) :
  ((length shell = 0 ∨ 3 ≤ length shell)%nat ∧ shapely_Polygon shell = Ok (Polygon shell))
  ∨ ((1 ≤ length shell ≤ 2)%nat ∧ shapely_Polygon shell = Raise ValueError).
Proof.
  destruct shell as [|p1 [|p2 [|p3 shell]]]; cbn [shapely_Polygon length].
  - left. split; [by left | reflexivity].
  - right. split; [lia | reflexivity].
  - right. split; [lia | reflexivity].
  - left. split; [right; lia | reflexivity].
Qed.

Lemma parse_polygons_first_rings (elems : list json) (numss : list (list spec_float)) :
  Forall2 (λ elem nums, ∃ s others,
             elem = JArr (JStr s :: others) ∧ spaced_numbers pyfloat s nums)
          elems numss →
  Forall ring_sized numss →
  mapM (parse_polygon pyfloat) elems = Ok (map (λ nums, Polygon (lon_lat nums)) numss).
Proof.
  induction 1 as [|elem nums elems numss (s & others & -> & Hs) _ IH];
    intros Hsized; [reflexivity|].
  inversion Hsized as [|? ? Hn Hrest]; subst.
  cbn [mapM map]. rewrite (parse_polygon_first_ring s others nums Hs).
  destruct (shapely_Polygon_cases (lon_lat nums)) as [[_ ->]|[Hsmall _]].
  - cbn [mbind pyresult_bind]. rewrite (IH Hrest). reflexivity.
  - unfold ring_sized in Hn. lia.
Qed.

(** One shell of one or two vertices makes the whole loop raise. *)
Lemma parse_polygons_small (elems : list json) (numss : list (list spec_float)) :
  Forall2 (λ elem nums, ∃ s others,
             elem = JArr (JStr s :: others) ∧ spaced_numbers pyfloat s nums)
          elems numss →
  Exists (λ nums, (1 ≤ length (lon_lat nums) ≤ 2)%nat) numss →
  mapM (parse_polygon pyfloat) elems = Raise ValueError.
Proof.
  induction 1 as [|elem nums elems numss (s & others & -> & Hs) _ IH];
    intros Hex; [inversion Hex|].
  cbn [mapM]. rewrite (parse_polygon_first_ring s others nums Hs).
  destruct (shapely_Polygon_cases (lon_lat nums)) as [[Hn ->]|[_ ->]]; [|reflexivity].
  cbn [mbind pyresult_bind].
  inversion Hex as [? ? Hsmall|? ? Hlater]; subst; [lia|].
  rewrite (IH Hlater). reflexivity.
Qed.

Lemma getitem_Ok_inv (key : string) (g v : json) :
  getitem key g = Ok v → ∃ fields, g = JObj fields ∧ assoc key fields = Some v.
Proof.
  destruct g; try discriminate. simpl.
  destruct (assoc key fields) eqn:E; [|discriminate].
  intros [= ->]. eauto.
Qed.

(** C3 (amended). For every granule whose ['polygons'] field is a list of
    lists, the first item of each being a string of numbers separated by
    single spaces and alternating latitude and longitude: when every such
    string gives no vertex or at least three, the parsed geometry is a
    MultiPolygon with one polygon per element, whose vertices are the
    (longitude, latitude) pairs of that first string in their order, a last
    unpaired number being dropped ([zip_self] in [lon_lat]); when one of
    them gives one or two vertices, the cell raises ValueError. The
    further items of an element are not read. A granule (a dict) without
    a ['polygons'] key gets the empty string. *)
Theorem C3_geometry_of_first_rings :
  (∀ (g : json) (elems : list json) (numss : list (list spec_float)),
     getitem "polygons" g = Ok (JArr elems) →
     Forall2 (λ elem nums, ∃ s others,
                elem = JArr (JStr s :: others) ∧ spaced_numbers pyfloat s nums)
             elems numss →
     (Forall ring_sized numss →
      granule_geometry pyfloat g
      = Ok (MultiPolygon (map (λ nums, Polygon (lon_lat nums)) numss)))
     ∧ (Exists (λ nums, (1 ≤ length (lon_lat nums) ≤ 2)%nat) numss →
        granule_geometry pyfloat g = Raise ValueError))
  ∧ (∀ fields : list (string * json),
       assoc "polygons" fields = None →
       granule_geometry pyfloat (JObj fields) = Ok (Json (JStr ""))).
Proof.
  split.
  - intros g elems numss Hg Hel.
    destruct (getitem_Ok_inv _ _ _ Hg) as (fields & -> & Hf).
    unfold granule_geometry. simpl. rewrite Hf. simpl. split.
    + intros Hsized.
      rewrite (parse_polygons_first_rings elems numss Hel Hsized). reflexivity.
    + intros Hsmall.
      rewrite (parse_polygons_small elems numss Hel Hsmall). reflexivity.
  - intros fields Hf. unfold granule_geometry. simpl. rewrite Hf. reflexivity.
Qed.

End GeometryFacts.

Example parse_sample_granule :
  parse_granule float_of_digits false sample_granule =
  Ok [Json (JArr [JStr "https://h/p/EMIT_L2A_RFL_001.nc";
                  JStr "https://h/p/EMIT_L2A_RFLUNCERT_001.nc";
                  JStr "https://h/p/EMIT_L2A_MASK_001.nc"]);
      Json (JStr "82");
      MultiPolygon [Polygon [(fl 20, fl 10); (fl 40, fl 30); (fl 60, fl 50); (fl 20, fl 10)]]].
Proof. vm_compute. reflexivity. Qed.

Lemma spaced_numbers_digits_7 :
  spaced_numbers float_of_digits "10 20 30 40 50 60 70"
    [fl 10; fl 20; fl 30; fl 40; fl 50; fl 60; fl 70].
Proof.
  exists ["10"; "20"; "30"; "40"; "50"; "60"; "70"].
  split; [reflexivity|]. split; repeat constructor.
Qed.

Lemma spaced_numbers_digits_5 :
  spaced_numbers float_of_digits "10 20 30 40 50" [fl 10; fl 20; fl 30; fl 40; fl 50].
Proof.
  exists ["10"; "20"; "30"; "40"; "50"].
  split; [reflexivity|]. split; repeat constructor.
Qed.

(** The theorem at a granule with two polygon elements, the first with an
    interior ring, which is not read, and an odd number of numbers; at a
    granule whose polygon has two vertices; and at one without polygons. *)
Lemma C3_geometry_witness :
  granule_geometry float_of_digits
    (JObj [("polygons",
            JArr [JArr [JStr "10 20 30 40 50 60 70"; JStr "1 2 3 4"]; JArr [JStr ""]])])
  = Ok (MultiPolygon [Polygon [(fl 20, fl 10); (fl 40, fl 30); (fl 60, fl 50)];
                      Polygon []])
  ∧ granule_geometry float_of_digits
      (JObj [("polygons", JArr [JArr [JStr "10 20 30 40 50"]])])
    = Raise ValueError
  ∧ granule_geometry float_of_digits (JObj [("cloud_cover", JStr "82")])
    = Ok (Json (JStr "")).
Proof.
  split; [|split].
  - apply (proj1 (C3_geometry_of_first_rings float_of_digits)
             _ [JArr [JStr "10 20 30 40 50 60 70"; JStr "1 2 3 4"]; JArr [JStr ""]]
             [[fl 10; fl 20; fl 30; fl 40; fl 50; fl 60; fl 70]; []]).
    + reflexivity.
    + constructor; [|constructor; [|constructor]].
      * exists "10 20 30 40 50 60 70", [JStr "1 2 3 4"].
        split; [reflexivity | exact spaced_numbers_digits_7].
      * exists "", []. split; [reflexivity|].
        exists []. split; [reflexivity|]. split; constructor.
    + constructor; [right; cbn; lia|constructor; [by left|constructor]].
  - apply (proj1 (C3_geometry_of_first_rings float_of_digits)
             _ [JArr [JStr "10 20 30 40 50"]] [[fl 10; fl 20; fl 30; fl 40; fl 50]]).
    + reflexivity.
    + constructor; [|constructor].
      exists "10 20 30 40 50", []. split; [reflexivity | exact spaced_numbers_digits_5].
    + constructor. cbn. lia.
  - apply (proj2 (C3_geometry_of_first_rings float_of_digits)). reflexivity.
Defined.

(** C3, counterexample: when an element of ['polygons'] is itself the string
    of numbers, [poly[0]] is its first character, and the polygon built from
    it has no vertex. *)
Lemma C3_counterexample_string_element :
  let g := JObj [("polygons", JArr [JStr "10 20 30 40"])] in
  getitem "polygons" g = Ok (JArr [JStr "10 20 30 40"])
  ∧ spaced_numbers float_of_digits "10 20 30 40" [fl 10; fl 20; fl 30; fl 40]
  ∧ granule_geometry float_of_digits g = Ok (MultiPolygon [Polygon []])
  ∧ granule_geometry float_of_digits g
    ≠ Ok (MultiPolygon [Polygon (lon_lat [fl 10; fl 20; fl 30; fl 40])]).
Proof.
  cbv zeta. split; [reflexivity|]. split.
  - exists ["10"; "20"; "30"; "40"].
    split; [reflexivity|]. split; repeat constructor.
  - split; [reflexivity | discriminate].
Qed.

(** ** The pagination loop *)

Section LoopFacts.

Variable pyfloat : string → option spec_float.
Variable server : nat → request → pyresult json.
Variable make_request : Z → request.
Variable with_title : bool.

Local Abbreviation parse := (parse_granule pyfloat with_title).
Local Abbreviation step' := (step pyfloat server make_request with_title).
Local Abbreviation search' := (search pyfloat server make_request with_title).
Local Abbreviation in_sequence := (Cmr.in_sequence make_request).
Local Abbreviation received := (Cmr.received server).
Local Abbreviation triple_of := (Cmr.triple_of pyfloat server).
Local Abbreviation rows_are_triples := (Cmr.rows_are_triples pyfloat server).

Lemma append_rows_parsed (gs : list json) (rows arr : list (list pyval)) :
  Forall2 (λ g row, parse g = Ok row) gs rows →
  append_rows pyfloat with_title gs arr = (arr ++ rows, None).
Proof.
  intros Hall. revert arr.
  induction Hall as [|g row gs rows Hg _ IH]; intros arr; simpl.
  - by rewrite app_nil_r.
  - rewrite Hg, IH, <- app_assoc. reflexivity.
Qed.

(** An iteration that receives a non-empty page of granules appends their
    rows and moves to the next page number. *)
Lemma step_page (st : search_state) (gs : list json) (rows : list (list pyval)) :
  entry_of (server (length (sent st)) (make_request (page_num st))) = Ok (JArr gs) →
  gs ≠ [] →
  Forall2 (λ g row, parse g = Ok row) gs rows →
  step' st = Looping {| page_num := page_num st + 1;
                        granule_arr := granule_arr st ++ rows;
                        sent := sent st ++ [make_request (page_num st)] |}.
Proof.
  intros Hentry Hne Hrows. unfold step. rewrite Hentry.
  destruct gs as [|g gs']; [done|].
  cbn [truthy py_iter granule_arr sent page_num].
  rewrite (append_rows_parsed _ rows) by done. reflexivity.
Qed.

(** An iteration that receives an empty page leaves the loop. *)
Lemma step_empty (st : search_state) :
  entry_of (server (length (sent st)) (make_request (page_num st))) = Ok (JArr []) →
  step' st = Break {| page_num := page_num st;
                      granule_arr := granule_arr st;
                      sent := sent st ++ [make_request (page_num st)] |}.
Proof. intros Hentry. unfold step. rewrite Hentry. reflexivity. Qed.

Lemma search_pages (pages : list (list json)) :
  ∀ (rows : list (list (list pyval))) (st : search_state) (fuel : nat),
    page_num st = (Z.of_nat (length (sent st)) + 1)%Z →
    (∀ k gs, pages !! k = Some gs →
       gs ≠ [] ∧
       entry_of (server (length (sent st) + k)
                        (make_request (Z.of_nat (length (sent st) + k) + 1)%Z))
       = Ok (JArr gs)) →
    Forall2 (Forall2 (λ g row, parse g = Ok row)) pages rows →
    entry_of (server (length (sent st) + length pages)
                     (make_request (Z.of_nat (length (sent st) + length pages) + 1)%Z))
    = Ok (JArr []) →
    length pages < fuel →
    search' fuel st =
    Break {| page_num := (Z.of_nat (length (sent st) + length pages) + 1)%Z;
             granule_arr := granule_arr st ++ concat rows;
             sent := sent st ++
                     map (λ k : nat, make_request (Z.of_nat k + 1)%Z)
                         (seq (length (sent st)) (S (length pages))) |}.
Proof.
  induction pages as [|gs pages IH]; intros rows st fuel Hpn Hpages Hrows Hlast Hfuel.
  - inversion Hrows; subst. destruct fuel as [|fuel]; [simpl in Hfuel; lia|].
    simpl in Hlast. rewrite Nat.add_0_r in Hlast. rewrite <- Hpn in Hlast.
    simpl. rewrite (step_empty st Hlast).
    rewrite Nat.add_0_r, app_nil_r, <- Hpn. reflexivity.
  - inversion Hrows as [|? r ? rows' Hr Hrows']; subst.
    destruct fuel as [|fuel]; [simpl in Hfuel; lia|].
    destruct (Hpages 0 gs eq_refl) as [Hne Hentry].
    rewrite Nat.add_0_r, <- Hpn in Hentry.
    cbn [search]. rewrite (step_page st gs r Hentry Hne Hr).
    rewrite (IH rows'); cbn [sent page_num granule_arr].
    + rewrite length_app. cbn [length concat].
      f_equal. f_equal.
      * f_equal. lia.
      * by rewrite <- app_assoc.
      * rewrite <- app_assoc. f_equal. cbn [app seq map].
        rewrite Hpn.
        replace (length (sent st) + 1) with (S (length (sent st))) by lia.
        reflexivity.
    + rewrite length_app. simpl. lia.
    + intros k gs' Hk. rewrite length_app. cbn [length].
      destruct (Hpages (S k) gs' Hk) as [Hne' He']. split; [done|].
      replace (length (sent st) + 1 + k) with (length (sent st) + S k) by lia. done.
    + done.
    + rewrite length_app. cbn [length].
      replace (length (sent st) + 1 + length pages)
        with (length (sent st) + length (gs :: pages)) by (simpl; lia). done.
    + simpl in Hfuel. lia.
Qed.

Lemma page_numbers_S (n : nat) :
  page_numbers (S n) = page_numbers n ++ [(Z.of_nat n + 1)%Z].
Proof.
  unfold page_numbers. rewrite seq_S, map_app. reflexivity.
Qed.

Lemma length_page_numbers (n : nat) : length (page_numbers n) = n.
Proof. unfold page_numbers. by rewrite length_map, length_seq. Qed.

Lemma step_in_sequence (st : search_state) :
  in_sequence (Looping st) → in_sequence (step' st).
Proof.
  intros (n & Hsent & Hpn). simpl in Hsent.
  assert (Hnext : sent st ++ [make_request (page_num st)]
                  = map make_request (page_numbers (S n))).
  { rewrite page_numbers_S, map_app, Hsent, Hpn. reflexivity. }
  assert (HpnS : page_num st = Z.of_nat (S n)) by lia.
  unfold step.
  destruct (entry_of _) as [granules|e]; [|by exists (S n)].
  destruct (truthy granules); [|by exists (S n)].
  destruct (py_iter granules) as [gs|e]; [|by exists (S n)].
  cbn [granule_arr sent page_num].
  destruct (append_rows _ _ gs (granule_arr st)) as [arr [e|]].
  - by exists (S n).
  - exists (S n). split; [done|]. simpl. lia.
Qed.

Lemma search_in_sequence (fuel : nat) (st : search_state) :
  in_sequence (Looping st) → in_sequence (search' fuel st).
Proof.
  revert st. induction fuel as [|fuel IH]; intros st Hst; [done|].
  simpl. pose proof (step_in_sequence st Hst) as Hstep.
  destruct (step' st) as [st'|e st'|st']; [done|done|]. by apply IH.
Qed.

Lemma initial_in_sequence : in_sequence (Looping initial).
Proof. exists 0. split; reflexivity. Qed.

(** *** The rows of granule_arr *)

Lemma granule_geometry_shape (g : json) (poly : pyval) :
  granule_geometry pyfloat g = Ok poly →
  poly = Json (JStr "") ∨ ∃ polys, poly = MultiPolygon polys.
Proof.
  unfold granule_geometry.
  destruct (py_in "polygons" g) as [[|]|e]; simpl; try discriminate.
  - destruct (getitem "polygons" g) as [ps|e]; simpl; [|discriminate].
    destruct (py_iter ps) as [items|e]; simpl; [|discriminate].
    destruct (mapM _ items) as [polys|e]; simpl; [|discriminate].
    intros [= <-]. right. eauto.
  - intros [= <-]. by left.
Qed.

Lemma parse_granule_shape (g : json) (row : list pyval) :
  parse g = Ok row →
  ∃ urls cc poly,
    row = [Json (JArr urls); Json cc; poly] ∧
    granule_urls g = Ok urls ∧
    getitem "cloud_cover" g = Ok cc ∧
    granule_geometry pyfloat g = Ok poly.
Proof.
  unfold parse_granule.
  destruct (if with_title then getitem "title" g else Ok JNull) as [?|e];
    simpl; [|discriminate].
  destruct (getitem "cloud_cover" g) as [cc|e]; simpl; [|discriminate].
  destruct (granule_geometry pyfloat g) as [poly|e]; simpl; [|discriminate].
  destruct (granule_urls g) as [urls|e]; simpl; [|discriminate].
  intros [= <-]. by exists urls, cc, poly.
Qed.

Lemma append_rows_from (gs : list json) :
  ∀ (arr arr' : list (list pyval)) (e : option pyerr),
    append_rows pyfloat with_title gs arr = (arr', e) →
    ∃ new, arr' = arr ++ new ∧
           Forall (λ row, ∃ g, g ∈ gs ∧ parse g = Ok row) new.
Proof.
  induction gs as [|g gs IH]; intros arr arr' e; simpl.
  - intros [= <- <-]. exists []. by rewrite app_nil_r.
  - destruct (parse g) as [row|e'] eqn:Hg.
    + intros Hrest. destruct (IH _ _ _ Hrest) as (new & -> & Hnew).
      exists (row :: new). split; [by rewrite <- app_assoc|].
      constructor.
      * exists g. split; [left|done].
      * eapply Forall_impl; [exact Hnew|].
        intros r (g' & Hin & Hp). exists g'. split; [by right|done].
    + intros [= <- <-]. exists []. by rewrite app_nil_r.
Qed.

Lemma received_more (sent : list request) (req : request) (g : json) :
  received sent g → received (sent ++ [req]) g.
Proof.
  intros (k & r & items & Hk & Hitems & Hin).
  exists k, r, items. split; [|done].
  by apply lookup_app_l_Some.
Qed.

Lemma triple_of_more (sent : list request) (req : request) (row : list pyval) :
  triple_of sent row → triple_of (sent ++ [req]) row.
Proof.
  intros (g & urls & cc & poly & Hrec & Hrest).
  exists g, urls, cc, poly. split; [by apply received_more|done].
Qed.

Lemma step_rows (st : search_state) :
  rows_are_triples st → rows_are_triples (state_of (step' st)).
Proof.
  intros Hst. unfold Cmr.rows_are_triples in *.
  assert (Hold : Forall (triple_of (sent st ++ [make_request (page_num st)]))
                        (granule_arr st)).
  { eapply Forall_impl; [exact Hst|]. intros row. apply triple_of_more. }
  unfold step.
  destruct (entry_of _) as [granules|e] eqn:Hentry; [|done].
  destruct (truthy granules); [|done].
  destruct (py_iter granules) as [gs|e] eqn:Hiter; [|done].
  cbn [granule_arr sent page_num].
  destruct (append_rows _ _ gs (granule_arr st)) as [arr e] eqn:Happ.
  destruct (append_rows_from _ _ _ _ Happ) as (new & -> & Hnew).
  assert (Hall : Forall (triple_of (sent st ++ [make_request (page_num st)]))
                        (granule_arr st ++ new)).
  { apply Forall_app. split; [done|].
    eapply Forall_impl; [exact Hnew|].
    intros row (g & Hin & Hp).
    destruct (parse_granule_shape g row Hp) as (urls & cc & poly & -> & Hu & Hc & Hgeo).
    exists g, urls, cc, poly.
    split; [|split_and!; try done; by apply (granule_geometry_shape g)].
    exists (length (sent st)), (make_request (page_num st)), gs.
    split; [by rewrite lookup_app_r, Nat.sub_diag|].
    split; [|done]. rewrite Hentry. exact Hiter. }
  by destruct e.
Qed.

Lemma search_rows (fuel : nat) (st : search_state) :
  rows_are_triples st → rows_are_triples (state_of (search' fuel st)).
Proof.
  revert st. induction fuel as [|fuel IH]; intros st Hst; [done|].
  simpl. pose proof (step_rows st Hst) as Hstep.
  destruct (step' st) as [st'|e st'|st']; [done|done|]. by apply IH.
Qed.

Lemma width_app (arr1 arr2 : list (list pyval)) :
  width (arr1 ++ arr2) = Nat.max (width arr1) (width arr2).
Proof.
  induction arr1 as [|r arr1 IH]; [reflexivity|].
  change (width ((r :: arr1) ++ arr2)) with (Nat.max (length r) (width (arr1 ++ arr2))).
  change (width (r :: arr1)) with (Nat.max (length r) (width arr1)).
  rewrite IH. lia.
Qed.

Lemma width_triples (arr : list (list pyval)) :
  Forall (λ r, length r = 3%nat) arr → arr ≠ [] → width arr = 3%nat.
Proof.
  induction 1 as [|r arr Hr Harr IH]; [done|]. intros _.
  change (width (r :: arr)) with (Nat.max (length r) (width arr)). rewrite Hr.
  destruct arr as [|r' arr']; [reflexivity|]. by rewrite IH.
Qed.

Lemma DataFrame_triples (arr : list (list pyval)) :
  Forall (λ r, length r = 3%nat) arr → DataFrame arr = Ok (map padded arr).
Proof.
  intros H. destruct arr as [|r arr]; [reflexivity|].
  unfold DataFrame. by rewrite (width_triples _ H).
Qed.

Lemma DataFrame_inv (arr : list (list pyval)) (df : list granule_row) :
  DataFrame arr = Ok df → df = map padded arr ∧ (arr = [] ∨ width arr = 3%nat).
Proof.
  destruct arr as [|r arr].
  - intros [= <-]. split; [reflexivity|by left].
  - unfold DataFrame. destruct (Nat.eqb _ 3) eqn:E; [|discriminate].
    intros [= <-]. split; [reflexivity|]. right. by apply Nat.eqb_eq.
Qed.

Lemma DataFrame_width (arr : list (list pyval)) :
  arr = [] ∨ width arr = 3%nat → DataFrame arr = Ok (map padded arr).
Proof.
  intros [->|H]; [reflexivity|]. destruct arr as [|r arr]; [reflexivity|].
  unfold DataFrame. by rewrite H.
Qed.

(** The frame of two batches that each make a frame. *)
Lemma DataFrame_app (arr1 arr2 : list (list pyval)) (df1 df2 : list granule_row) :
  DataFrame arr1 = Ok df1 → DataFrame arr2 = Ok df2 →
  DataFrame (arr1 ++ arr2) = Ok (df1 ++ df2).
Proof.
  intros [-> H1]%DataFrame_inv [-> H2]%DataFrame_inv. rewrite <- map_app.
  apply DataFrame_width.
  destruct H1 as [->|H1]; [exact H2|]. destruct H2 as [->|H2].
  - rewrite app_nil_r. by right.
  - right. rewrite width_app, H1, H2. reflexivity.
Qed.

Lemma DataFrame_of_triples (arr : list (list pyval)) :
  Forall (λ row, ∃ u c p, row = [u; c; p]) arr →
  ∃ df, DataFrame arr = Ok df ∧
        Forall2 (λ row r, row = [g_asset_url r; g_cloud_cover r; g_granule_poly r])
                arr df.
Proof.
  intros H. exists (map padded arr). split.
  - apply DataFrame_triples. eapply Forall_impl; [exact H|].
    by intros row (u & c & p & ->).
  - induction H as [|row arr (u & c & p & ->) _ IH]; cbn [map]; constructor;
      [reflexivity|exact IH].
Qed.

(** C6. After any number of iterations of a search loop, and whatever the
    server has answered, every element of [granule_arr] is a list of exactly
    three items made from one granule received: the list of its selected
    hrefs, the value of its ['cloud_cover'] field unchanged, and its geometry
    (a MultiPolygon or the empty string), in this order; the dataframe built
    from [granule_arr] exists and each of its rows holds these three items
    in the columns asset_url, cloud_cover and granule_poly. *)
Theorem C6_rows_are_triples (fuel : nat) :
  let st := state_of (search' fuel initial) in
  Forall (triple_of (sent st)) (granule_arr st)
  ∧ ∃ df, DataFrame (granule_arr st) = Ok df ∧
          Forall2 (λ row r, row = [g_asset_url r; g_cloud_cover r; g_granule_poly r])
                  (granule_arr st) df.
Proof.
  cbv zeta.
  assert (H : rows_are_triples (state_of (search' fuel initial))).
  { apply search_rows. constructor. }
  split; [exact H|].
  apply DataFrame_of_triples.
  eapply Forall_impl; [exact H|].
  intros row (g & urls & cc & poly & _ & -> & _). eauto.
Qed.

End LoopFacts.

(** ** The requests *)

Section RequestFacts.

Variable pyfloat : string → option spec_float.
Variable str_float : spec_float → string.
Variable server : nat → request → pyresult json.

(** The digits [strftime] writes are the decimal numerals. *)
Lemma pad2_two_digits (n : nat) : (n < 100)%nat → pad2 n = two_digits n.
Proof.
  intros Hn.
  assert (H : forallb (λ k, String.eqb (pad2 k) (two_digits k)) (seq 0 100) = true)
    by (vm_compute; reflexivity).
  rewrite forallb_forall in H. apply String.eqb_eq, H, in_seq. lia.
Qed.

Lemma year_digits_numeral (n : nat) : (n < 100 * 100)%nat → year_digits n = numeral n.
Proof.
  intros Hn.
  assert (H : forallb (λ k, String.eqb (year_digits k) (numeral k)) (seq 0 (100 * 100)) = true)
    by (vm_compute; reflexivity).
  rewrite forallb_forall in H. apply String.eqb_eq, H, in_seq. lia.
Qed.

Lemma strftime_dt_format (d : datetime) :
  valid_datetime d → strftime dt_format d = iso_utc d.
Proof.
  intros (Hy & Hm & Hd & HH & HM & HS). unfold iso_utc.
  rewrite <- (year_digits_numeral (year d)) by lia.
  rewrite <- !pad2_two_digits by lia. reflexivity.
Qed.

Example temporal_str_of_notebook :
  temporal_str start_date end_date = "2022-09-03T00:00:00Z,2022-09-03T23:23:59Z".
Proof. vm_compute. reflexivity. Qed.

(** Every iteration sends one request, that of the current page. *)
Lemma step_sent (make_request : Z → request) (with_title : bool) (st : search_state) :
  sent (state_of (step pyfloat server make_request with_title st))
  = sent st ++ [make_request (page_num st)].
Proof.
  unfold step. cbv zeta.
  destruct (entry_of _) as [granules|e]; [|reflexivity].
  destruct (truthy granules); [|reflexivity].
  destruct (py_iter granules) as [gs|e]; [|reflexivity].
  destruct (append_rows _ _ _ _) as [arr [e|]]; reflexivity.
Qed.

Lemma search_sent_length (make_request : Z → request) (with_title : bool)
  (fuel : nat) (st : search_state) :
  (length (sent st) + Nat.min 1 fuel
   ≤ length (sent (state_of (search pyfloat server make_request with_title fuel st))))%nat.
Proof.
  revert st. induction fuel as [|fuel IH]; intros st; cbn [search].
  - simpl. lia.
  - pose proof (step_sent make_request with_title st) as Hs.
    destruct (step pyfloat server make_request with_title st) as [st'|e st'|st'];
      cbn [state_of] in *.
    + rewrite Hs, length_app. simpl. lia.
    + rewrite Hs, length_app. simpl. lia.
    + specialize (IH st'). rewrite Hs, length_app in IH. simpl in IH.
      destruct fuel; simpl in *; lia.
Qed.

(** The requests a search has sent: those of the pages 1..n, at least one
    once the loop has begun. *)
Lemma sent_exact (make_request : Z → request) (with_title : bool) (fuel : nat) :
  ∃ n : nat,
    (fuel ≠ 0%nat → n ≠ 0%nat)
    ∧ sent (state_of (search pyfloat server make_request with_title fuel initial))
      = map make_request (page_numbers n).
Proof.
  destruct (search_in_sequence pyfloat server make_request with_title fuel initial
              (initial_in_sequence make_request)) as (n & Hn & _).
  exists n. split; [|exact Hn]. intros Hf ->.
  pose proof (search_sent_length make_request with_title fuel initial) as Hl.
  rewrite Hn in Hl. destruct fuel; [done|]. simpl in Hl. lia.
Qed.

Lemma page_num_of_request (cid : json) (temporal : string) (c : cell) (p : Z) :
  page_num_of (request_of str_float cid temporal c p) = Some (JInt p).
Proof. destruct c; reflexivity. Qed.

Lemma run_cell_search (cid : json) (temporal : string) (c : cell) (fuel : nat) :
  run_cell pyfloat str_float server cid temporal c fuel
  = search pyfloat server (request_of str_float cid temporal c) (reads_title c)
           fuel initial.
Proof. destruct c; reflexivity. Qed.


(** C4. Every request of a granule search is the POST to granules.json
    whose parameters are collection_concept_id, page_size = 2000, page_num
    and temporal (start and end written as year-MM-DDTHH:MM:SSZ with a comma
    between them; for the notebook's two datetimes this is
    2022-09-03T00:00:00Z,2022-09-03T23:23:59Z), and one more: 'point' with
    the text lon,lat for the point search, 'bounding_box[]' with the text
    west,south,east,north for the bounding-box search, and
    'simplify-shapefile' = 'true' for the polygon search, which alone
    uploads a file, the shapefile. The requests sent are these for the
    pages 1..n, and there is one at least once the loop has begun. *)
Theorem C4_search_requests (cid : json) (start stop : datetime) (fuel : nat) :
  valid_datetime start → valid_datetime stop →
  let temporal := temporal_str start stop in
  temporal = iso_utc start +:+ "," +:+ iso_utc stop
  ∧ temporal_str start_date end_date = "2022-09-03T00:00:00Z,2022-09-03T23:23:59Z"
  ∧ (∀ lon lat : spec_float, ∃ n : nat,
       (fuel ≠ 0%nat → n ≠ 0%nat)
       ∧ sent (state_of (point_search pyfloat str_float server cid temporal
                                      lon lat fuel))
         = map (search_request cid temporal
                  ("point", JStr (str_float lon +:+ "," +:+ str_float lat)) [])
               (page_numbers n))
  ∧ (∀ west south east north : spec_float, ∃ n : nat,
       (fuel ≠ 0%nat → n ≠ 0%nat)
       ∧ sent (state_of (bbox_search pyfloat str_float server cid temporal
                                     (west, south, east, north) fuel))
         = map (search_request cid temporal
                  ("bounding_box[]",
                   JStr (str_float west +:+ "," +:+ str_float south +:+ "," +:+
                         str_float east +:+ "," +:+ str_float north)) [])
               (page_numbers n))
  ∧ (∀ shape : string, ∃ n : nat,
       (fuel ≠ 0%nat → n ≠ 0%nat)
       ∧ sent (state_of (polygon_search pyfloat server cid temporal shape fuel))
         = map (search_request cid temporal
                  ("simplify-shapefile", JStr "true")
                  [{| part_name := "shapefile"; file_name := "isla_gaviota.geojson";
                      content := shape; content_type := "application/geo+json" |}])
               (page_numbers n)).
Proof.
  intros Hstart Hstop. cbv zeta. split; [|split; [|split; [|split]]].
  - unfold temporal_str. by rewrite !strftime_dt_format.
  - vm_compute. reflexivity.
  - intros lon lat. exact (sent_exact _ false fuel).
  - intros w s e n. exact (sent_exact _ false fuel).
  - intros shape. exact (sent_exact _ true fuel).
Qed.

End RequestFacts.

(** ** The concept id *)

(** C5 (amended). The concept id is resolved by one GET of
    collections.json?doi=<doi>, and for every response whose
    ['feed']['entry'] is a non-empty list the resolution is the lookup of
    ['id'] in the first element of that list: it returns that id when the
    first element has one, and raises what the lookup raises when it has
    none. *)
Theorem C5_concept_id (http : request → pyresult json) (doi : string) :
  let req := {| method := GET;
                url := "https://cmr.earthdata.nasa.gov/search/collections.json?doi=" +:+ doi;
                data := []; files := [] |} in
  fst (concept_id http doi) = [req]
  ∧ (∀ (body feed first : json) (rest : list json),
       http req = Ok body →
       getitem "feed" body = Ok feed →
       getitem "entry" feed = Ok (JArr (first :: rest)) →
       snd (concept_id http doi) = getitem "id" first
       ∧ ∀ id, getitem "id" first = Ok id → snd (concept_id http doi) = Ok id).
Proof.
  cbv zeta. split; [reflexivity|].
  intros body feed first rest Hbody Hfeed Hentry.
  assert (H : snd (concept_id http doi) = getitem "id" first).
  { unfold concept_id. cbn [snd].
    change (doisearch doi)
      with ("https://cmr.earthdata.nasa.gov/search/collections.json?doi=" +:+ doi).
    rewrite Hbody. simpl. rewrite Hfeed. simpl. rewrite Hentry. reflexivity. }
  split; [exact H|]. intros id Hid. by rewrite H.
Qed.

Lemma C5_concept_id_witness :
  snd (concept_id collections_answer doi) = Ok (JStr "C2408750690-LPCLOUD").
Proof.
  apply (proj2 (proj2 (C5_concept_id collections_answer doi)
                  (JObj [("feed", collections_feed)]) collections_feed
                  collection_entry [] eq_refl eq_refl eq_refl)).
  reflexivity.
Defined.

(** C5, counterexample: a non-empty entry list whose first element has no
    'id'; the resolution raises KeyError. *)
Lemma C5_counterexample_no_id :
  let answer := λ _ : request,
    Ok (JObj [("feed", JObj [("entry", JArr [JObj [("title", JStr "EMIT L2A")]])])]) in
  let req := {| method := GET; url := doisearch doi; data := []; files := [] |} in
  entry_of (answer req) = Ok (JArr [JObj [("title", JStr "EMIT L2A")]])
  ∧ snd (concept_id answer doi) = Raise KeyError.
Proof. cbv zeta. split; reflexivity. Qed.

(** ** The URL file *)

Section LinkFacts.

Lemma link_selected_true (x : json) :
  link_selected x = Ok true →
  ∃ h, getitem "href" x = Ok h ∧
       py_in "https" h = Ok true ∧ py_in ".nc" h = Ok true ∧
       py_in ".dmrpp" h = Ok false.
Proof.
  unfold link_selected.
  destruct (getitem "href" x) as [h|e]; simpl; [|discriminate].
  destruct (py_in "https" h) as [[|]|e] eqn:H1; simpl; try discriminate.
  destruct (py_in ".nc" h) as [[|]|e] eqn:H2; simpl; try discriminate.
  destruct (py_in ".dmrpp" h) as [[|]|e] eqn:H3; simpl; try discriminate.
  intros _. by exists h.
Qed.

Lemma selected_hrefs_sound (links : list json) :
  ∀ hs, selected_hrefs links = Ok hs →
    ∀ h, h ∈ hs →
      ∃ x, x ∈ links ∧ getitem "href" x = Ok h ∧
           py_in "https" h = Ok true ∧ py_in ".nc" h = Ok true ∧
           py_in ".dmrpp" h = Ok false.
Proof.
  induction links as [|x links IH]; intros hs; simpl.
  - intros [= <-] h Hh. by apply elem_of_nil in Hh.
  - destruct (link_selected x) as [[|]|e] eqn:Hsel; simpl; [| |discriminate].
    + destruct (link_selected_true x Hsel) as (h0 & Hh0 & Hfacts).
      rewrite Hh0. simpl.
      destruct (selected_hrefs links) as [hs'|e]; simpl; [|discriminate].
      intros [= <-] h [->|Hin]%elem_of_cons.
      * exists x. split; [left|done].
      * destruct (IH hs' eq_refl h Hin) as (x' & Hx' & Hrest).
        exists x'. split; [by right|done].
    + intros Hrest h Hin.
      destruct (IH hs Hrest h Hin) as (x' & Hx' & Hfacts).
      exists x'. split; [by right|done].
Qed.

Lemma granule_urls_text (g : json) (urls : list json) (s : string) :
  granule_urls g = Ok urls → JStr s ∈ urls → selected_href_of [g] s.
Proof.
  unfold granule_urls.
  destruct (getitem "links" g) as [l|e] eqn:Hl; simpl; [|discriminate].
  destruct (py_iter l) as [links|e] eqn:Hit; simpl; [|discriminate].
  intros Hsel Hin.
  destruct (selected_hrefs_sound links urls Hsel _ Hin) as (x & Hx & Hh & H1 & H2 & H3).
  simpl in H1, H2, H3. injection H1 as H1. injection H2 as H2. injection H3 as H3.
  exists g, x, links. split; [left|]. rewrite Hl. simpl. done.
Qed.

Lemma selected_href_of_mono (gs gs' : list json) (s : string) :
  gs ⊆ gs' → selected_href_of gs s → selected_href_of gs' s.
Proof.
  intros Hsub (g & x & links & Hg & Hrest).
  exists g, x, links. split; [by apply Hsub|done].
Qed.

Lemma wanted_is_text (r : granule_row) :
  wanted (insert_asset_name r) = true → is_text (g_asset_url r).
Proof.
  unfold wanted, insert_asset_name, last_segment, is_text. simpl.
  destruct (g_asset_url r) as [[]| |]; simpl; try discriminate. eauto.
Qed.

End LinkFacts.

Section FileFacts.

Variable pyfloat : string → option spec_float.
Variable py_str : pyval → string.
Variable line_break : ascii → bool.
Variable drop_duplicates : list asset_row → pyresult (list asset_row).

(** pandas drops duplicates of a column of strings without raising. *)
Hypothesis drop_duplicates_text :
  ∀ df, Forall (λ r, is_text (asset_url r)) df → ∃ dfs, drop_duplicates df = Ok dfs.

Local Abbreviation table_of df :=
  (map insert_asset_name (explode (filter (λ r, not_empty_str (g_granule_poly r) = true) df))).
Local Abbreviation emit := (emit_asset_urls py_str line_break drop_duplicates).

Lemma DataFrame_parsed (with_title : bool) (gs : list json) (arr : list (list pyval)) :
  Forall2 (λ g row, parse_granule pyfloat with_title g = Ok row) gs arr →
  DataFrame arr = Ok (map padded arr) ∧ Forall2 row_of gs (map padded arr).
Proof.
  intros H. split.
  - apply DataFrame_triples.
    induction H as [|g row gs arr Hg _ IH]; constructor; [|exact IH].
    by destruct (parse_granule_shape _ _ _ _ Hg) as (urls & cc & poly & -> & _).
  - induction H as [|g row gs arr Hg _ IH]; cbn [map]; constructor; [|exact IH].
    destruct (parse_granule_shape _ _ _ _ Hg) as (urls & cc & poly & -> & Hu & _).
    by exists urls.
Qed.

Lemma explode_row_hrefs (g : json) (r : granule_row) :
  row_of g r →
  Forall (λ er, ∀ s, g_asset_url er = Json (JStr s) → selected_href_of [g] s)
         (explode_row r).
Proof.
  intros (urls & Hr & Hu). unfold explode_row. rewrite Hr.
  destruct urls as [|u urls].
  - constructor; [|constructor]. simpl. discriminate.
  - apply Forall_map, Forall_forall. intros x Hx s. simpl. intros [= ->].
    by apply (granule_urls_text g (u :: urls) s Hu).
Qed.

Lemma table_hrefs (gs : list json) (df : list granule_row) :
  Forall2 row_of gs df →
  Forall (λ r, ∀ s, asset_url r = Json (JStr s) → selected_href_of gs s) (table_of df).
Proof.
  induction 1 as [|g r gs df Hr _ IH]; [constructor|].
  assert (Hrest : Forall (λ r, ∀ s, asset_url r = Json (JStr s)
                               → selected_href_of (g :: gs) s) (table_of df)).
  { eapply Forall_impl; [exact IH|]. intros r' Hr' s Hs.
    eapply selected_href_of_mono; [|by apply Hr']. intros x Hx. by right. }
  rewrite filter_cons. case_decide; [|done].
  cbn [explode flat_map]. rewrite map_app. apply Forall_app. split; [|done].
  apply Forall_map. eapply Forall_impl; [exact (explode_row_hrefs g r Hr)|].
  intros er Her s Hs. eapply selected_href_of_mono; [|by apply Her].
  intros x ->%list_elem_of_singleton. left.
Qed.

Lemma filter_assets_text (df : list granule_row) :
  Forall (λ r, is_text (asset_url r)) (filter_assets (map insert_asset_name df)).
Proof.
  apply Forall_forall. intros r [Hw Hin]%list_elem_of_filter.
  apply list_elem_of_In, in_map_iff in Hin. destruct Hin as (r0 & <- & _).
  by apply wanted_is_text.
Qed.

Lemma to_csv_text (df : list asset_row) :
  Forall (λ r, is_text (asset_url r)) df →
  Forall2 (λ r line, ∃ s, asset_url r = Json (JStr s) ∧ line = csv_record line_break s)
          df (to_csv py_str line_break df).
Proof.
  induction 1 as [|r df (s & Hs) _ IH]; [constructor|].
  cbn [to_csv map]. constructor; [|exact IH]. exists s. by rewrite Hs.
Qed.

Lemma to_csv_urls (df : list asset_row) (urls : list string) :
  Forall2 holds_url df urls →
  to_csv py_str line_break df = map (csv_record line_break) urls.
Proof.
  induction 1 as [|r s df urls [Hs _] _ IH]; [reflexivity|].
  unfold to_csv in *. cbn [map]. rewrite Hs, IH. reflexivity.
Qed.

Lemma Forall_all_but_last {A} (P : A → Prop) (l : list A) :
  Forall P l → Forall P (all_but_last l).
Proof.
  unfold all_but_last. induction 1 as [|x l Hx Hl IH]; [constructor|].
  simpl. destruct l; [constructor|]. by constructor.
Qed.

(** The cell writes the table it finds under [cmr_results_df], whatever
    [drop_duplicates] returned. *)
Lemma save_cell_writes (env : gmap string (list asset_row)) (df : list asset_row) :
  env !! "cmr_results_df" = Some df →
  save_cell py_str line_break drop_duplicates env =
  (dfs ← drop_duplicates (all_but_last df);
   Ok (<["cmr_results_dfs" := dfs]> env, to_csv py_str line_break df)).
Proof.
  intros Hdf. unfold save_cell. rewrite Hdf.
  destruct (drop_duplicates (all_but_last df)) as [dfs|e]; [|reflexivity].
  cbn [mbind pyresult_bind].
  rewrite lookup_insert_ne by done. rewrite Hdf. reflexivity.
Qed.

Lemma emit_of_table (arr : list (list pyval)) (table : list asset_row) :
  results_table arr = Ok table →
  emit arr = (_ ← drop_duplicates (all_but_last (filter_assets table));
              Ok (to_csv py_str line_break (filter_assets table))).
Proof.
  intros Ht. unfold emit_asset_urls. rewrite Ht. cbn [mbind pyresult_bind].
  rewrite (save_cell_writes _ (filter_assets table)) by apply lookup_singleton_eq.
  by destruct (drop_duplicates _).
Qed.

Lemma table_of_rows (arr : list (list pyval)) (table : list asset_row) :
  results_table arr = Ok table → ∃ df, table = map insert_asset_name df.
Proof.
  unfold results_table. destruct (DataFrame arr) as [df|e]; cbn [mbind pyresult_bind];
    [|discriminate].
  intros [= <-]. eauto.
Qed.

Lemma emit_returns (arr : list (list pyval)) (table : list asset_row) :
  results_table arr = Ok table →
  emit arr = Ok (to_csv py_str line_break (filter_assets table)).
Proof.
  intros Ht. rewrite (emit_of_table arr table Ht).
  destruct (table_of_rows arr table Ht) as [df ->].
  destruct (drop_duplicates_text _
              (Forall_all_but_last _ _ (filter_assets_text df))) as [dfs ->].
  reflexivity.
Qed.

Lemma filter_assets_app (t1 t2 : list asset_row) :
  filter_assets (t1 ++ t2) = filter_assets t1 ++ filter_assets t2.
Proof. unfold filter_assets. apply filter_app. Qed.

(** The rows the asset filter keeps of an exploded URL list: those of its
    strings whose file name holds '_RFL_' or 'MASK'. *)
Lemma wanted_items (c p : pyval) (items : list json) :
  Forall2 holds_url
    (filter_assets
       (map (λ x, insert_asset_name
                    {| g_asset_url := Json x; g_cloud_cover := c; g_granule_poly := p |})
            items))
    (List.filter asset_wanted (text_urls items)).
Proof.
  induction items as [|u items IH]; [constructor|].
  cbn [map]. unfold filter_assets in *. rewrite filter_cons.
  destruct u as [|b|z|f|s|l|kvs];
    try (case_decide as Hw; [discriminate Hw|exact IH]).
  change (text_urls (JStr s :: items)) with (s :: text_urls items).
  cbn [List.filter].
  change (wanted (insert_asset_name
                    {| g_asset_url := Json (JStr s); g_cloud_cover := c;
                       g_granule_poly := p |}))
    with (asset_wanted s).
  case_decide as Hw.
  - rewrite Hw. constructor; [by split|exact IH].
  - apply not_true_is_false in Hw. by rewrite Hw.
Qed.

Lemma wanted_row (r : granule_row) (urls : list json) :
  g_asset_url r = Json (JArr urls) →
  Forall2 holds_url (filter_assets (map insert_asset_name (explode_row r)))
          (List.filter asset_wanted (text_urls urls)).
Proof.
  intros Hr. unfold explode_row. rewrite Hr. destruct urls as [|u urls].
  - cbn [map]. unfold filter_assets. rewrite filter_cons.
    case_decide as Hw; [discriminate Hw|constructor].
  - rewrite map_map. apply wanted_items.
Qed.

(** The rows the asset filter keeps of the whole table. *)
Lemma wanted_table (arr : list (list pyval)) (infos : list (bool * list json)) :
  Forall2 (λ row info, ∃ c p, row = [Json (JArr info.2); c; p]
                              ∧ not_empty_str p = info.1) arr infos →
  Forall2 holds_url (filter_assets (table_of (map padded arr)))
          (flat_map (λ info, file_urls info.1 info.2) infos).
Proof.
  induction 1 as [|row [has urls] arr infos (c & p & -> & Hp) _ IH]; [constructor|].
  cbn [map flat_map fst snd] in *. rewrite filter_cons.
  change (g_granule_poly (padded [Json (JArr urls); c; p])) with p.
  unfold file_urls at 1. case_decide as Hkeep.
  - rewrite Hkeep in Hp. subst has. cbn [explode flat_map].
    rewrite map_app, filter_assets_app. apply Forall2_app; [|exact IH].
    by apply wanted_row.
  - apply not_true_is_false in Hkeep. rewrite Hkeep in Hp. subst has. exact IH.
Qed.

(** A granule's geometry is kept by the filter exactly when the granule has
    a 'polygons' key. *)
Lemma geometry_kept (g : json) (poly : pyval) :
  granule_geometry pyfloat g = Ok poly →
  ∃ has : bool, py_in "polygons" g = Ok has ∧ not_empty_str poly = has.
Proof.
  unfold granule_geometry.
  destruct (py_in "polygons" g) as [has|e]; cbn [mbind pyresult_bind]; [|discriminate].
  intros H. exists has. split; [reflexivity|]. destruct has.
  - destruct (getitem "polygons" g) as [ps|e]; cbn [mbind pyresult_bind] in H;
      [|discriminate].
    destruct (py_iter ps) as [items|e]; cbn [mbind pyresult_bind] in H; [|discriminate].
    destruct (mapM _ items) as [polys|e]; cbn [mbind pyresult_bind] in H; [|discriminate].
    by injection H as <-.
  - by injection H as <-.
Qed.

Lemma forallb_negb {A} (f : A → bool) (l : list A) :
  forallb (λ x, negb (f x)) l = negb (existsb f l).
Proof.
  induction l as [|x l IH]; [reflexivity|].
  cbn [forallb existsb]. rewrite IH. by destruct (f x).
Qed.

(** Doubling the quotes is joining the pieces between them with two. *)
Lemma doubled_join (s : string) :
  doubled s
  = join (String quotechar (String quotechar EmptyString)) (split_on quotechar s).
Proof.
  induction s as [|a s IH]; [reflexivity|].
  cbn [doubled split_on]. pose proof (split_on_not_nil quotechar s) as Hne.
  destruct (Ascii.eqb a quotechar) eqn:Ha.
  - apply Ascii.eqb_eq in Ha as ->. rewrite IH.
    destruct (split_on quotechar s) as [|w ws]; [done|]. reflexivity.
  - rewrite IH. destruct (split_on quotechar s) as [|w ws]; [done|].
    destruct ws; reflexivity.
Qed.

(** What the writer writes for a field is the field as the file holds it. *)
Lemma csv_record_written (s : string) :
  written_as line_break s (csv_record line_break s).
Proof.
  unfold written_as, csv_record, plain_text, needs_quotes.
  destruct s as [|a s]; [reflexivity|].
  rewrite forallb_negb. cbn [String.eqb negb andb].
  destruct (existsb _ _); cbn [negb]; [|reflexivity].
  by rewrite doubled_join.
Qed.

Lemma written_records (urls : list string) :
  Forall2 (written_as line_break) urls (map (csv_record line_break) urls).
Proof.
  induction urls as [|s urls IH]; cbn [map]; constructor;
    [apply csv_record_written|exact IH].
Qed.

(** What the table and the file need of each granule: whether it has a
    'polygons' key, and its URL list. *)
Lemma granule_infos (with_title : bool) (gs : list json) (arr : list (list pyval)) :
  Forall2 (λ g row, parse_granule pyfloat with_title g = Ok row) gs arr →
  ∃ infos : list (bool * list json),
    Forall2 (λ g info, py_in "polygons" g = Ok info.1 ∧ granule_urls g = Ok info.2)
            gs infos
    ∧ Forall2 (λ row info, ∃ c p, row = [Json (JArr info.2); c; p]
                                  ∧ not_empty_str p = info.1) arr infos.
Proof.
  induction 1 as [|g row gs arr Hg _ (infos & Hgs & Harr)].
  - exists []. split; constructor.
  - destruct (parse_granule_shape _ _ _ _ Hg) as (urls & cc & poly & -> & Hu & _ & Hgeo).
    destruct (geometry_kept g poly Hgeo) as (has & Hhas & Hp).
    exists ((has, urls) :: infos). split; constructor; try done.
    by exists (Json cc), poly.
Qed.

Lemma Forall2_transfer {A B} (P : A → Prop) (R : A → B → Prop) (Q : B → Prop)
  (l : list A) (k : list B) :
  (∀ a b, P a → R a b → Q b) → Forall P l → Forall2 R l k → Forall Q k.
Proof.
  intros HPQ HP HR. induction HR as [|a b l k Hab _ IH]; [constructor|].
  inversion HP; subst. constructor; eauto.
Qed.

Lemma selected_nonempty (gs : list json) (s : string) :
  selected_href_of gs s → s ≠ EmptyString.
Proof. intros (g & x & links & _ & _ & _ & _ & Hhttps & _) ->. discriminate Hhttps. Qed.


(** The rows [first_of_each] keeps are rows of strings whose URLs differ
    from one another and from those already seen. *)
Lemma first_of_each_fresh (seen : list string) (df : list asset_row) :
  Forall (λ r, is_text (asset_url r)) df →
  NoDup (map asset_url (first_of_each seen df))
  ∧ Forall (λ r, ∃ s, asset_url r = Json (JStr s) ∧ s ∉ seen) (first_of_each seen df).
Proof.
  intros Htext. revert seen.
  induction Htext as [|r df (s & Hs) _ IH]; intros seen; cbn [first_of_each map].
  - split; constructor.
  - rewrite Hs. destruct (existsb (String.eqb s) seen) eqn:E; [apply IH|].
    destruct (IH (s :: seen)) as [Hnd Hfresh]. cbn [map]. split.
    + constructor; [|exact Hnd]. rewrite Hs. intros Hin.
      apply list_elem_of_fmap in Hin as (r' & Hr' & Hin).
      rewrite Forall_forall in Hfresh.
      destruct (Hfresh r' Hin) as (s' & Hs' & Hnot).
      rewrite Hs' in Hr'. injection Hr' as ->. apply Hnot. left.
    + constructor.
      * exists s. split; [exact Hs|]. intros Hin.
        apply list_elem_of_In in Hin.
        assert (existsb (String.eqb s) seen = true); [|congruence].
        apply existsb_exists. exists s. split; [exact Hin|apply String.eqb_refl].
      * eapply Forall_impl; [exact Hfresh|]. intros r' (s' & Hs' & Hnot).
        exists s'. split; [exact Hs'|]. intros Hin. apply Hnot. by right.
Qed.

(** C8. The cell that saves the URLs binds [cmr_results_dfs] to the table
    without its last row with duplicate URLs dropped (the first row of each
    URL is kept, so that no URL is left twice), leaves [cmr_results_df] as
    it was, and writes the file from [cmr_results_df]: the file has one
    record per row of the table, duplicates included, and its last record
    is that of the URL of the table's last row. *)
Theorem C8_duplicates_kept (env : gmap string (list asset_row)) (df : list asset_row) :
  (∀ t, Forall (λ r, is_text (asset_url r)) t →
        drop_duplicates t = Ok (first_of_each [] t)) →
  env !! "cmr_results_df" = Some df →
  Forall (λ r, is_text (asset_url r)) df →
  ∃ (dfs : list asset_row) (lines : list string),
    save_cell py_str line_break drop_duplicates env
    = Ok (<["cmr_results_dfs" := dfs]> env, lines)
    ∧ (df = [] → dfs = [])
    ∧ (∀ init r, df = init ++ [r] → dfs = first_of_each [] init)
    ∧ NoDup (map asset_url dfs)
    ∧ (<["cmr_results_dfs" := dfs]> env) !! "cmr_results_df" = Some df
    ∧ Forall2 (λ r line, ∃ s, asset_url r = Json (JStr s)
                              ∧ written_as line_break s line) df lines
    ∧ (∀ init r, df = init ++ [r] →
                 ∃ s line, asset_url r = Json (JStr s)
                           ∧ last lines = Some line
                           ∧ written_as line_break s line).
Proof.
  intros Hfirst Hdf Htext.
  exists (first_of_each [] (all_but_last df)), (to_csv py_str line_break df).
  split; [|split; [|split; [|split; [|split; [|split]]]]].
  - rewrite (save_cell_writes env df Hdf).
    by rewrite (Hfirst _ (Forall_all_but_last _ _ Htext)).
  - by intros ->.
  - intros init r ->. unfold all_but_last. by rewrite removelast_last.
  - apply first_of_each_fresh, Forall_all_but_last, Htext.
  - by rewrite lookup_insert_ne.
  - eapply Forall2_impl; [by apply to_csv_text|].
    intros r line (s & Hs & ->). exists s. split; [exact Hs|apply csv_record_written].
  - intros init r ->.
    apply Forall_app in Htext as [_ Hr]. inversion Hr as [|? ? (s & Hs) _]; subst.
    exists s, (csv_record line_break s). split; [done|]. split.
    + unfold to_csv. rewrite map_app. cbn [map]. rewrite Hs. cbn [cell_text].
      apply last_Some. eauto.
    + apply csv_record_written.
Qed.

End FileFacts.

(** ** The theorems on a sample search *)

Example parse_sample_row :
  parse_granule float_of_digits true sample_granule = Ok sample_row.
Proof. vm_compute. reflexivity. Qed.


Lemma valid_start_date : valid_datetime start_date.
Proof. unfold valid_datetime, start_date; cbn [year month day hour minute second]. lia. Qed.

Lemma valid_end_date : valid_datetime end_date.
Proof. unfold valid_datetime, end_date; cbn [year month day hour minute second]. lia. Qed.

(** The notebook's two datetimes, and the polygon cell run for three
    iterations. *)
Lemma C4_search_requests_witness :
  let cid := JStr "C2408750690-LPCLOUD" in
  let temporal := temporal_str start_date end_date in
  temporal = iso_utc start_date +:+ "," +:+ iso_utc end_date
  ∧ ∃ n : nat,
      (3 ≠ 0 → n ≠ 0)%nat
      ∧ sent (state_of (polygon_search float_of_digits two_pages cid temporal "{}" 3))
        = map (search_request cid temporal ("simplify-shapefile", JStr "true")
                 [{| part_name := "shapefile"; file_name := "isla_gaviota.geojson";
                     content := "{}"; content_type := "application/geo+json" |}])
              (page_numbers n).
Proof.
  cbv zeta.
  pose proof (C4_search_requests float_of_digits (λ _, "0.0") two_pages
                (JStr "C2408750690-LPCLOUD") start_date end_date 3
                valid_start_date valid_end_date) as (Ha & _ & _ & _ & Hp).
  split; [exact Ha | exact (Hp "{}")].
Defined.

Lemma keep_first_returns (df : list asset_row) :
  Forall (λ r, is_text (asset_url r)) df → ∃ dfs, keep_first df = Ok dfs.
Proof. intros _. by exists (first_of_each [] df). Qed.


Example emit_asset_urls_sample :
  emit_asset_urls (λ _, "") line_feed keep_first
                  [sample_row; plain_row; comma_row; sample_row]
  = Ok ["https://h/p/EMIT_L2A_RFL_001.nc"; "https://h/p/EMIT_L2A_MASK_001.nc";
        String quotechar ("https://h/p/EMIT_L2A_RFL_001,2.nc"
                          +:+ String quotechar EmptyString);
        "https://h/p/EMIT_L2A_RFL_001.nc"; "https://h/p/EMIT_L2A_MASK_001.nc"].
Proof. vm_compute. reflexivity. Qed.


(** A table with a duplicate: the file keeps it, and keeps the last row,
    while [cmr_results_dfs] holds one row. *)
Lemma C8_duplicates_kept_witness :
  ∃ (dfs : list asset_row) (lines : list string),
    save_cell (λ _, "") line_feed keep_first sample_env
    = Ok (<["cmr_results_dfs" := dfs]> sample_env, lines)
    ∧ (sample_table = [] → dfs = [])
    ∧ (∀ init r, sample_table = init ++ [r] → dfs = first_of_each [] init)
    ∧ NoDup (map asset_url dfs)
    ∧ (<["cmr_results_dfs" := dfs]> sample_env) !! "cmr_results_df" = Some sample_table
    ∧ Forall2 (λ r line, ∃ s, asset_url r = Json (JStr s)
                              ∧ written_as line_feed s line) sample_table lines
    ∧ (∀ init r, sample_table = init ++ [r] →
                 ∃ s line, asset_url r = Json (JStr s)
                           ∧ last lines = Some line
                           ∧ written_as line_feed s line).
Proof.
  apply (C8_duplicates_kept (λ _, "") line_feed keep_first sample_env sample_table).
  - reflexivity.
  - reflexivity.
  - repeat constructor; eexists; reflexivity.
Defined.

Example save_cell_sample :
  save_cell (λ _, "") line_feed keep_first sample_env
  = Ok (<["cmr_results_dfs" := [sample_asset "A_RFL_1.nc"]]> sample_env,
        ["https://h/p/A_RFL_1.nc"; "https://h/p/A_RFL_1.nc"; "https://h/p/A_MASK_1.nc"]).
Proof. reflexivity. Qed.

(** ** The reflectance tutorial *)

Import Refl.

Section MaskFacts.

Example minus_0_01_float64 :
  minus_0_01 float64 = S754_finite true 5764607523034235 (-59).
Proof. vm_compute. reflexivity. Qed.

Example minus_0_01_float32 :
  minus_0_01 float32 = S754_finite true 10737418 (-30).
Proof. vm_compute. reflexivity. Qed.

Lemma assign_where_equal_to (c v : spec_float) (data : list spec_float) :
  assign_where (equal_to c data) v data
  = map (λ x, if SFeqb x c then v else x) data.
Proof.
  induction data as [|x data IH]; [reflexivity|].
  cbn [equal_to map assign_where]. f_equal. exact IH.
Qed.

Lemma lookup_map {A B} (f : A → B) (l : list A) (i : nat) (x : A) :
  l !! i = Some x → map f l !! i = Some (f x).
Proof.
  revert i. induction l as [|a l IH]; intros [|i]; simpl; try discriminate.
  - by intros [= ->].
  - apply IH.
Qed.

Lemma SFeqb_nan_l (c : spec_float) : SFeqb nan c = false.
Proof. reflexivity. Qed.

Lemma mask_entry_twice (c x : spec_float) :
  let m := λ x, if SFeqb x c then nan else x in
  m (m x) = m x.
Proof.
  cbv beta zeta. destruct (SFeqb x c) eqn:Hx.
  - reflexivity.
  - rewrite Hx. reflexivity.
Qed.

Lemma minus_0_01_value (dt : dtype) :
  minus_0_01 dt = match dt with
                  | float32 => S754_finite true 10737418 (-30)
                  | float64 => S754_finite true 5764607523034235 (-59)
                  end.
Proof. destruct dt; vm_compute; reflexivity. Qed.



Example lit_0_2_float64 : lit_0_2 = S754_finite false 7205759403792794 (-55).
Proof. vm_compute. reflexivity. Qed.

Example mask_reflectance_sample :
  mask_reflectance float64
    [S754_finite false 1 0; minus_0_01 float64; nan; zero; minus_0_01 float64]
  = [S754_finite false 1 0; nan; nan; zero; nan].
Proof. vm_compute. reflexivity. Qed.

End MaskFacts.

Section GammaFacts.

(** Comparing in the other order gives the opposite result. *)
Lemma SFcompare_swap (x y : spec_float) :
  SFcompare y x = CompOpp <$> SFcompare x y.
Proof.
  destruct x as [sx|sx| |sx mx ex], y as [sy|sy| |sy my ey];
    try reflexivity; try (by destruct sx); try (by destruct sy);
    try (by destruct sx, sy).
  assert (Hm : Pos.compare_cont Eq my mx = CompOpp (Pos.compare_cont Eq mx my)).
  { symmetry. exact (Pos.compare_cont_antisym mx my Eq). }
  cbn [SFcompare]. rewrite (Z.compare_antisym ex ey), Hm.
  destruct sx, sy; cbn [fmap option_fmap option_map CompOpp]; try reflexivity;
    destruct (ex ?= ey)%Z; reflexivity.
Qed.

Lemma not_below_above (lo x : spec_float) :
  is_nan x = false → is_nan lo = false →
  SFltb x lo = false → SFleb lo x = true.
Proof.
  unfold SFltb, SFleb. rewrite (SFcompare_swap x lo).
  destruct x, lo; try discriminate; intros _ _;
    destruct (SFcompare _ _) as [[]|] eqn:E; try done;
    cbn in E; try discriminate;
    repeat match type of E with context [if ?b then _ else _] => destruct b end;
    discriminate.
Qed.

Lemma bounds_ordered (dt : dtype) :
  is_nan (one dt) = false ∧ SFleb zero zero = true ∧ SFleb zero (one dt) = true
  ∧ SFleb (one dt) (one dt) = true.
Proof. destruct dt; vm_compute; done. Qed.

(** A clipped entry is a NaN (when the entry was one) or lies in [0, 1]. *)
Lemma clip_range (dt : dtype) (x : spec_float) :
  let y := clip zero (one dt) x in
  (is_nan x = true ∧ y = x)
  ∨ (is_nan y = false ∧ SFleb zero y = true ∧ SFleb y (one dt) = true).
Proof.
  cbv zeta. unfold clip.
  destruct (bounds_ordered dt) as (H1 & H00 & H01 & H11).
  destruct (is_nan x) eqn:Hnan; [by left|right].
  destruct (SFltb x zero) eqn:Hlo; [done|].
  destruct (SFltb (one dt) x) eqn:Hhi; [done|].
  split; [done|]. split.
  - by apply not_below_above.
  - unfold SFltb in Hhi. unfold SFleb. rewrite (SFcompare_swap (one dt) x).
    destruct (SFcompare (one dt) x) as [[]|] eqn:E; try done.
    destruct x, (one dt); try discriminate; cbn in E;
      repeat match type of E with context [if ?b then _ else _] => destruct b end;
      discriminate.
Qed.

Lemma nan_to_num_clip (dt : dtype) (x : spec_float) :
  let y := clip zero (one dt) x in
  nan_to_num dt (one dt) y = (if is_nan y then one dt else y)
  ∧ in_unit_interval dt (nan_to_num dt (one dt) y).
Proof.
  cbv zeta. destruct (bounds_ordered dt) as (H1 & H00 & H01 & H11).
  destruct (clip_range dt x) as [[Hnan ->]|(Hy & Hlo & Hhi)].
  - destruct x; try discriminate. by split.
  - assert (Hfin : ∀ s, clip zero (one dt) x ≠ S754_infinity s).
    { intros s Heq. rewrite Heq in Hlo, Hhi.
      destruct s; [discriminate Hlo|]. destruct dt; discriminate Hhi. }
    destruct (clip zero (one dt) x) as [s|s| |s m e] eqn:Hc; try done.
    by destruct (Hfin s).
Qed.


End GammaFacts.

Example gamma_adjust_sample :
  gamma_adjust float64 (λ _, lit_0_2) (λ x, Ok x) (λ x _, x)
    (λ _, [S754_infinity true; S754_infinity false; nan; of_int float64 2; zero;
           lit_0_2])
    650
  = Ok [zero; one float64; one float64; one float64; zero; lit_0_2].
Proof. vm_compute. reflexivity. Qed.

(** ** Deleting names *)

Section DelFacts.

Context {V H : Type}.
Variable act : nat → list V → H → pyresult ((string → V) * H).

Lemma mem_elem_of (x : string) (l : list string) : mem x l = true ↔ x ∈ l.
Proof.
  unfold mem. rewrite existsb_exists. split.
  - intros (y & Hy & ->%String.eqb_eq). by apply list_elem_of_In.
  - intros Hx. exists x. split; [by apply list_elem_of_In|apply String.eqb_refl].
Qed.

Lemma elem_of_remove_name (x y : string) (l : list string) :
  y ∈ remove_name x l → y ≠ x ∧ y ∈ l.
Proof.
  unfold remove_name. rewrite list_elem_of_In, filter_In, <- list_elem_of_In.
  intros [Hy Hne]. split; [|done].
  intros ->. by rewrite String.eqb_refl in Hne.
Qed.

Lemma lookups_agree (env env2 : gmap string V) (reads : list string) :
  env ⊆ env2 →
  (∀ x, x ∈ reads → is_Some (env !! x)) →
  mapM (lookup_name env2) reads = mapM (lookup_name env) reads
  ∧ ∃ vs, mapM (lookup_name env) reads = Ok vs.
Proof.
  intros Hsub. induction reads as [|x reads IH]; intros Hb.
  - split; [reflexivity|]. by exists [].
  - destruct IH as (IH1 & vs & IH2).
    { intros y Hy. apply Hb. by right. }
    destruct (Hb x) as [v Hv]; [left|].
    assert (H1 : lookup_name env x = Ok v).
    { unfold lookup_name. by rewrite Hv. }
    assert (H2 : lookup_name env2 x = Ok v).
    { unfold lookup_name. by rewrite (lookup_weaken _ _ _ _ Hv Hsub). }
    cbn [mapM]. rewrite H1, H2. cbn [mbind pyresult_bind].
    rewrite IH1, IH2. split; [reflexivity|]. by exists (v :: vs).
Qed.

Lemma bind_names_mono (xs : list string) (value : string → V) :
  ∀ env env2 : gmap string V,
    env ⊆ env2 → bind_names xs value env ⊆ bind_names xs value env2.
Proof.
  induction xs as [|x xs IH]; intros env env2 Hsub; [done|].
  simpl. apply IH. by apply insert_mono.
Qed.

Lemma bind_names_bound (xs : list string) (value : string → V) :
  ∀ (env : gmap string V) (y : string),
    y ∈ xs ∨ is_Some (env !! y) → is_Some (bind_names xs value env !! y).
Proof.
  induction xs as [|x xs IH]; intros env y [Hy|Hy]; simpl.
  - by apply elem_of_nil in Hy.
  - done.
  - apply IH. apply elem_of_cons in Hy as [->|Hy]; [right|by left].
    rewrite lookup_insert_eq. by eexists.
  - apply IH. right. destruct (decide (x = y)) as [->|Hne].
    + rewrite lookup_insert_eq. by eexists.
    + by rewrite lookup_insert_ne.
Qed.

(** Statements that never read or delete an unbound name run the same with
    and without their deletions. *)
Lemma run_without_del (prog : list stmt) :
  ∀ (bound : list string) (env env2 : gmap string V) (h : H),
    well_scoped bound prog = true →
    (∀ x, x ∈ bound → is_Some (env !! x)) →
    env ⊆ env2 →
    agree (run act prog (env, h)) (run act (without_del prog) (env2, h)).
Proof.
  induction prog as [|s prog IH]; intros bound env env2 h Hws Hb Hsub.
  - simpl. done.
  - destruct s as [line reads binds|line x]; cbn [well_scoped] in Hws;
      apply andb_true_iff in Hws as [Hs Hrest].
    + cbn [without_del List.filter run exec].
      rewrite forallb_forall in Hs.
      destruct (lookups_agree env env2 reads Hsub) as (Heq & vs & Hvs).
      { intros y Hy. apply Hb, mem_elem_of, Hs. by apply list_elem_of_In. }
      rewrite Heq, Hvs. cbn [mbind pyresult_bind].
      destruct (act line vs h) as [[value h']|e]; cbn [mbind pyresult_bind]; [|done].
      apply (IH (binds ++ bound)); [done| |by apply bind_names_mono].
      intros y [Hy|Hy]%elem_of_app; apply bind_names_bound; [by left|right; by apply Hb].
    + cbn [without_del List.filter run exec].
      apply mem_elem_of, Hb in Hs as [v Hv]. rewrite Hv. cbn [mbind pyresult_bind].
      apply (IH (remove_name x bound)); [done| |].
      * intros y [Hne Hy]%elem_of_remove_name. rewrite lookup_delete_ne by done.
        by apply Hb.
      * etrans; [apply delete_subseteq|done].
Qed.

End DelFacts.

(** C7 (amended). The notebook deletes refl, wvl and loc, and later loc
    (bound again in between) and example, all after the last statement that
    builds the merged dataset ds (line 212); no statement reads or deletes
    a name that is unbound when it runs; after the deletions of lines
    229-231, and after those of lines 362-363, every name a statement reads
    is ds, the file path fp, an imported library, or a name bound after the
    deletions (such as ds_geo, which is built from fp); and for all values,
    memory and behaviour of the statements, the notebook run with its
    deletions and run without them raise the same exception or end with the
    same memory. *)
Theorem C7_deletions :
  deletions notebook
  = [Del 229 "refl"; Del 230 "wvl"; Del 231 "loc"; Del 362 "loc"; Del 363 "example"]
  ∧ lines_binding "ds" notebook = [109; 195; 212]
  ∧ well_scoped [] notebook = true
  ∧ reads_only ["ds"; "fp"] [] (after 231 notebook) = true
  ∧ reads_only ["ds"; "fp"] [] (after 363 notebook) = true
  ∧ (∀ (V H : Type) (act : nat → list V → H → pyresult ((string → V) * H)) (h : H),
       agree (run act notebook (∅, h)) (run act (without_del notebook) (∅, h))).
Proof.
  split; [reflexivity|]. split; [reflexivity|].
  assert (Hws : well_scoped [] notebook = true) by (vm_compute; reflexivity).
  split; [exact Hws|]. split; [vm_compute; reflexivity|].
  split; [vm_compute; reflexivity|].
  intros V H act h. apply (run_without_del act notebook [] ∅ ∅ h Hws); [|done].
  intros x Hx. by apply elem_of_nil in Hx.
Qed.

(** C7, counterexample: after the deletions the notebook also reads the file
    path fp, from which loc is read again (line 343) and ds_geo is built
    (line 404), so not every value computed there depends on ds and ds_geo
    only. *)
Lemma C7_counterexample_reads_fp :
  reads_only ["ds"; "ds_geo"] [] (after 231 notebook) = false
  ∧ reads_only ["ds"; "ds_geo"] [] (after 363 notebook) = false
  ∧ In (Run 343 ["xr"; "fp"] ["loc"]) (after 231 notebook)
  ∧ In (Run 404 ["emit_xarray"; "fp"] ["ds_geo"]) (after 363 notebook)
  ∧ mem "fp" (["ds"; "ds_geo"] ++ libraries) = false
  ∧ lines_binding "fp" notebook = [81].
Proof.
  split; [vm_compute; reflexivity|]. split; [vm_compute; reflexivity|].
  split; [vm_compute; tauto|]. split; [vm_compute; tauto|].
  split; reflexivity.
Qed.

(** * Further properties *)

(** ** The search loop at its edges *)

Section LoopEdges.

Variable pyfloat : string → option spec_float.
Variable server : nat → request → pyresult json.
Variable make_request : Z → request.
Variable with_title : bool.

Local Abbreviation parse := (parse_granule pyfloat with_title).
Local Abbreviation step' := (step pyfloat server make_request with_title).
Local Abbreviation search' := (search pyfloat server make_request with_title).
Local Abbreviation pages_answered :=
  (Cmr.pages_answered pyfloat server make_request with_title).
Local Abbreviation after_pages := (Cmr.after_pages make_request).

Lemma after_pages_snoc (rows : list (list (list pyval))) (r : list (list pyval)) :
  after_pages (rows ++ [r])
  = {| page_num := page_num (after_pages rows) + 1;
       granule_arr := granule_arr (after_pages rows) ++ r;
       sent := sent (after_pages rows) ++ [make_request (page_num (after_pages rows))] |}.
Proof.
  unfold Cmr.after_pages. cbn [page_num granule_arr sent].
  rewrite length_app. cbn [length].
  replace (length rows + 1) with (S (length rows)) by lia.
  rewrite page_numbers_S, map_app, concat_app. cbn [concat map].
  rewrite app_nil_r. f_equal. lia.
Qed.

Lemma sent_after_pages (rows : list (list (list pyval))) :
  length (sent (after_pages rows)) = length rows.
Proof.
  unfold Cmr.after_pages. cbn [sent]. by rewrite length_map, length_page_numbers.
Qed.

(** The loop goes through the pages that are answered well, whatever comes
    after them. *)
Lemma search_prefix (pages : list (list json)) (rows : list (list (list pyval))) :
  pages_answered pages rows →
  ∀ n : nat, (n ≤ length pages)%nat →
    ∀ fuel, search' (n + fuel) initial = search' fuel (after_pages (take n rows)).
Proof.
  intros [Hpages Hrows]. pose proof (Forall2_length _ _ _ Hrows) as Hlen.
  induction n as [|n IH]; intros Hn fuel; [reflexivity|].
  replace (S n + fuel) with (n + S fuel) by lia.
  rewrite IH by lia.
  destruct (lookup_lt_is_Some_2 pages n) as [gs Hgs]; [lia|].
  destruct (lookup_lt_is_Some_2 rows n) as [r Hr]; [lia|].
  destruct (Hpages n gs Hgs) as [Hne Hentry].
  pose proof (Forall2_lookup_lr _ _ _ _ _ _ Hrows Hgs Hr) as Hparse.
  cbn [search].
  rewrite (step_page pyfloat server make_request with_title _ gs r).
  - rewrite (take_S_r rows n r Hr), after_pages_snoc. reflexivity.
  - rewrite sent_after_pages, length_take_le by lia.
    unfold Cmr.after_pages. cbn [page_num]. rewrite length_take_le by lia. exact Hentry.
  - exact Hne.
  - exact Hparse.
Qed.

Lemma search_after (pages : list (list json)) (rows : list (list (list pyval)))
  (fuel : nat) :
  pages_answered pages rows →
  length pages < fuel →
  search' fuel initial = step' (after_pages rows) ∨
  ∃ st, step' (after_pages rows) = Looping st
        ∧ search' fuel initial = search' (fuel - length pages - 1) st.
Proof.
  intros Hp Hfuel. pose proof (Forall2_length _ _ _ (proj2 Hp)) as Hlen.
  assert (Hgo : search' fuel initial
                = search' (S (fuel - length pages - 1)) (after_pages rows)).
  { replace fuel with (length pages + S (fuel - length pages - 1)) at 1 by lia.
    rewrite (search_prefix pages rows Hp (length pages)) by lia.
    by rewrite take_ge by lia. }
  rewrite Hgo. cbn [search].
  destruct (step' (after_pages rows)) as [st|e st|st] eqn:Hstep; [by left|by left|].
  right. by exists st.
Qed.

(** The next request after the pages [rows], and the state once it is sent,
    [arr] being the rows held then. *)
Local Abbreviation next_request rows :=
  (make_request (Z.add (Z.of_nat (length rows)) 1)).
Local Abbreviation at_next_request rows arr :=
  {| page_num := Z.add (Z.of_nat (length rows)) 1;
     granule_arr := arr;
     sent := map make_request (page_numbers (S (length rows))) |}.

Lemma step_after_pages (rows : list (list (list pyval))) :
  step' (after_pages rows)
  = match entry_of (server (length rows) (next_request rows)) with
    | Raise e => Raised e (at_next_request rows (concat rows))
    | Ok granules =>
        if truthy granules then
          match py_iter granules with
          | Raise e => Raised e (at_next_request rows (concat rows))
          | Ok gs =>
              match append_rows pyfloat with_title gs (concat rows) with
              | (arr, Some e) => Raised e (at_next_request rows arr)
              | (arr, None) =>
                  Looping {| page_num := (Z.of_nat (length rows) + 1 + 1)%Z;
                             granule_arr := arr;
                             sent := map make_request (page_numbers (S (length rows))) |}
              end
          end
        else Break (at_next_request rows (concat rows))
    end.
Proof.
  unfold step. rewrite sent_after_pages.
  unfold Cmr.after_pages. cbn [page_num granule_arr sent].
  rewrite page_numbers_S, map_app. reflexivity.
Qed.

Lemma append_rows_raise (good : list json) (bad : json) (rest : list json)
  (good_rows arr : list (list pyval)) (e : pyerr) :
  Forall2 (λ g row, parse g = Ok row) good good_rows →
  parse bad = Raise e →
  append_rows pyfloat with_title (good ++ bad :: rest) arr = (arr ++ good_rows, Some e).
Proof.
  intros Hgood Hbad. revert arr.
  induction Hgood as [|g row good good_rows Hg _ IH]; intros arr; simpl.
  - by rewrite Hbad, app_nil_r.
  - rewrite Hg, IH, <- app_assoc. reflexivity.
Qed.

Lemma pages_exist :
  (∀ k : nat, ∃ gs rows,
     gs ≠ [] ∧
     entry_of (server k (make_request (Z.of_nat k + 1)%Z)) = Ok (JArr gs) ∧
     Forall2 (λ g row, parse g = Ok row) gs rows) →
  ∀ n : nat, ∃ pages rows, length rows = n ∧ pages_answered pages rows.
Proof.
  intros Hall. induction n as [|n (pages & rows & Hlen & Hp & Hr)].
  - exists [], []. split; [reflexivity|]. split; [|constructor].
    intros k gs Hk. destruct k; discriminate.
  - destruct (Hall n) as (gs & r & Hne & Hentry & Hparse).
    pose proof (Forall2_length _ _ _ Hr) as Hpl.
    exists (pages ++ [gs]), (rows ++ [r]). split; [rewrite length_app; simpl; lia|].
    split; [|by apply Forall2_app; [|constructor]].
    intros k gs' Hk.
    destruct (decide (k < length pages)) as [Hlt|Hge].
    + rewrite lookup_app_l in Hk by done. by apply Hp.
    + rewrite lookup_app_r in Hk by lia.
      destruct (k - length pages) as [|d] eqn:Hd; [|destruct d; discriminate].
      injection Hk as <-. replace k with n by lia. done.
Qed.

(** X1. A search whose every request is answered by a non-empty page of
    granules never leaves its loop: after any number of iterations it is
    still iterating, one request sent per iteration. *)
Theorem X1_search_never_leaves :
  (∀ k : nat, ∃ gs rows,
     gs ≠ [] ∧
     entry_of (server k (make_request (Z.of_nat k + 1)%Z)) = Ok (JArr gs) ∧
     Forall2 (λ g row, parse g = Ok row) gs rows) →
  ∀ fuel : nat, ∃ st,
    search' fuel initial = Looping st
    ∧ sent st = map make_request (page_numbers fuel)
    ∧ page_num st = (Z.of_nat fuel + 1)%Z.
Proof.
  intros Hall fuel.
  destruct (pages_exist Hall fuel) as (pages & rows & Hlen & Hp).
  pose proof (Forall2_length _ _ _ (proj2 Hp)) as Hpl.
  exists (after_pages rows).
  replace fuel with (fuel + 0) at 1 by lia.
  rewrite (search_prefix pages rows Hp fuel) by lia.
  rewrite take_ge by lia. unfold Cmr.after_pages. rewrite Hlen. done.
Qed.

(** X2. When a granule of a page raises, the search ends with that
    exception: the rows of the earlier pages and of the granules before it
    on the page stay in granule_arr, the granules after it are not read,
    and no further request is sent. *)
Theorem X2_search_raises_within_page
  (pages : list (list json)) (rows : list (list (list pyval)))
  (good : list json) (bad : json) (rest : list json)
  (good_rows : list (list pyval)) (e : pyerr) (fuel : nat) :
  pages_answered pages rows →
  entry_of (server (length pages) (make_request (Z.of_nat (length pages) + 1)%Z))
  = Ok (JArr (good ++ bad :: rest)) →
  Forall2 (λ g row, parse g = Ok row) good good_rows →
  parse bad = Raise e →
  length pages < fuel →
  search' fuel initial
  = Raised e {| page_num := (Z.of_nat (length pages) + 1)%Z;
                granule_arr := concat rows ++ good_rows;
                sent := map make_request (page_numbers (S (length pages))) |}.
Proof.
  intros Hp Hentry Hgood Hbad Hfuel.
  pose proof (Forall2_length _ _ _ (proj2 Hp)) as Hlen.
  assert (Hstep : step' (after_pages rows)
                  = Raised e (at_next_request rows (concat rows ++ good_rows))).
  { rewrite step_after_pages, <- Hlen, Hentry.
    replace (truthy (JArr (good ++ bad :: rest))) with true by (by destruct good).
    cbn [py_iter]. by rewrite (append_rows_raise good bad rest good_rows _ e). }
  destruct (search_after pages rows fuel Hp Hfuel) as [->|(st & Hst & _)].
  - rewrite Hstep, Hlen. reflexivity.
  - rewrite Hstep in Hst. discriminate.
Qed.

(** X3. A page whose ['feed']['entry'] is not a list but counts as false
    (None, an empty dict or string, zero) ends the search like an empty
    list does: no exception, and granule_arr holds the rows of the pages
    before. *)
Theorem X3_search_leaves_on_falsy_entry
  (pages : list (list json)) (rows : list (list (list pyval)))
  (entry : json) (fuel : nat) :
  pages_answered pages rows →
  entry_of (server (length pages) (make_request (Z.of_nat (length pages) + 1)%Z))
  = Ok entry →
  truthy entry = false →
  length pages < fuel →
  search' fuel initial
  = Break {| page_num := (Z.of_nat (length pages) + 1)%Z;
             granule_arr := concat rows;
             sent := map make_request (page_numbers (S (length pages))) |}.
Proof.
  intros Hp Hentry Hfalse Hfuel.
  pose proof (Forall2_length _ _ _ (proj2 Hp)) as Hlen.
  assert (Hstep : step' (after_pages rows) = Break (at_next_request rows (concat rows))).
  { by rewrite step_after_pages, <- Hlen, Hentry, Hfalse. }
  destruct (search_after pages rows fuel Hp Hfuel) as [->|(st & Hst & _)].
  - rewrite Hstep, Hlen. reflexivity.
  - rewrite Hstep in Hst. discriminate.
Qed.

(** X4. A page whose ['feed']['entry'] counts as true and is not a list
    (a number, a non-empty string or dict) ends the search with TypeError,
    and appends nothing. *)
Theorem X4_search_raises_on_non_list_entry
  (pages : list (list json)) (rows : list (list (list pyval)))
  (entry : json) (fuel : nat) :
  pages_answered pages rows →
  entry_of (server (length pages) (make_request (Z.of_nat (length pages) + 1)%Z))
  = Ok entry →
  truthy entry = true →
  (∀ items, entry ≠ JArr items) →
  length pages < fuel →
  search' fuel initial
  = Raised TypeError {| page_num := (Z.of_nat (length pages) + 1)%Z;
                        granule_arr := concat rows;
                        sent := map make_request (page_numbers (S (length pages))) |}.
Proof.
  intros Hp Hentry Htrue Hnl Hfuel.
  pose proof (Forall2_length _ _ _ (proj2 Hp)) as Hlen.
  assert (Hstr : ∀ s, parse (JStr s) = Raise TypeError).
  { intros s. unfold parse_granule. by destruct with_title. }
  assert (Hstep : step' (after_pages rows)
                  = Raised TypeError (at_next_request rows (concat rows))).
  { rewrite step_after_pages, <- Hlen, Hentry, Htrue.
    destruct entry as [|b|z|f|s|items|fields]; try done.
    - destruct s as [|c s]; [done|]. cbn [py_iter chars map append_rows].
      by rewrite Hstr.
    - by destruct (Hnl items).
    - destruct fields as [|[k v] fields]; [done|]. cbn [py_iter map append_rows fst].
      by rewrite Hstr. }
  destruct (search_after pages rows fuel Hp Hfuel) as [->|(st & Hst & _)].
  - rewrite Hstep, Hlen. reflexivity.
  - rewrite Hstep in Hst. discriminate.
Qed.

(** X5. An answer that is a dict without 'feed', or whose 'feed' is a dict
    without 'entry', ends the search with KeyError; the rows of the pages
    before stay. *)
Theorem X5_search_raises_on_missing_key
  (pages : list (list json)) (rows : list (list (list pyval)))
  (fields : list (string * json)) (fuel : nat) :
  pages_answered pages rows →
  server (length pages) (make_request (Z.of_nat (length pages) + 1)%Z)
  = Ok (JObj fields) →
  (assoc "feed" fields = None
   ∨ ∃ feed, assoc "feed" fields = Some (JObj feed) ∧ assoc "entry" feed = None) →
  length pages < fuel →
  search' fuel initial
  = Raised KeyError {| page_num := (Z.of_nat (length pages) + 1)%Z;
                       granule_arr := concat rows;
                       sent := map make_request (page_numbers (S (length pages))) |}.
Proof.
  intros Hp Hanswer Hmissing Hfuel.
  pose proof (Forall2_length _ _ _ (proj2 Hp)) as Hlen.
  assert (Hentry : entry_of (server (length pages)
                     (make_request (Z.of_nat (length pages) + 1)%Z)) = Raise KeyError).
  { rewrite Hanswer. unfold entry_of. cbn [mbind pyresult_bind getitem].
    destruct Hmissing as [->|(feed & -> & Hfeed)]; [done|].
    cbn [mbind pyresult_bind getitem]. by rewrite Hfeed. }
  assert (Hstep : step' (after_pages rows)
                  = Raised KeyError (at_next_request rows (concat rows))).
  { by rewrite step_after_pages, <- Hlen, Hentry. }
  destruct (search_after pages rows fuel Hp Hfuel) as [->|(st & Hst & _)].
  - rewrite Hstep, Hlen. reflexivity.
  - rewrite Hstep in Hst. discriminate.
Qed.

End LoopEdges.

Section LoopShape.

Variable pyfloat : string → option spec_float.
Variable str_float : spec_float → string.
Variable server : nat → request → pyresult json.

Lemma NoDup_page_numbers (n : nat) : NoDup (page_numbers n).
Proof.
  unfold page_numbers. change (NoDup ((λ k : nat, (Z.of_nat k + 1)%Z) <$> seq 0 n)).
  apply NoDup_fmap_2; [|apply NoDup_seq]. intros a b Hab. lia.
Qed.

Lemma sent_NoDup (make_request : Z → request) (with_title : bool) (fuel : nat) :
  (∀ p q, make_request p = make_request q → p = q) →
  NoDup (sent (state_of (search pyfloat server make_request with_title fuel initial))).
Proof.
  intros Hinj.
  destruct (search_in_sequence pyfloat server make_request with_title fuel initial
              (initial_in_sequence make_request)) as (n & -> & _).
  change (NoDup (make_request <$> page_numbers n)).
  apply NoDup_fmap_2; [exact Hinj|apply NoDup_page_numbers].
Qed.

(** X6. No search sends the same request twice: the requests of a point,
    bounding-box or polygon search differ from one another (in their
    page_num), whatever the server answers and however long the search
    runs. *)
Theorem X6_requests_never_repeat (cid : json) (temporal : string) (fuel : nat) :
  (∀ lon lat : spec_float,
     NoDup (sent (state_of (point_search pyfloat str_float server cid temporal
                                         lon lat fuel))))
  ∧ (∀ bound : spec_float * spec_float * spec_float * spec_float,
       NoDup (sent (state_of (bbox_search pyfloat str_float server cid temporal
                                          bound fuel))))
  ∧ (∀ shape : string,
       NoDup (sent (state_of (polygon_search pyfloat server cid temporal shape fuel)))).
Proof.
  split; [|split].
  - intros lon lat. apply sent_NoDup. intros p q [= Hpq]. exact Hpq.
  - intros bound. apply sent_NoDup. intros p q [= Hpq]. exact Hpq.
  - intros shape. apply sent_NoDup. intros p q [= Hpq]. exact Hpq.
Qed.

Lemma step_grows (make_request : Z → request) (with_title : bool) (st : search_state) :
  let st' := state_of (step pyfloat server make_request with_title st) in
  granule_arr st `prefix_of` granule_arr st'
  ∧ sent st `prefix_of` sent st'
  ∧ (page_num st ≤ page_num st')%Z.
Proof.
  cbv zeta. unfold step.
  assert (Hsent : sent st `prefix_of` sent st ++ [make_request (page_num st)])
    by apply prefix_app_r, reflexivity.
  destruct (entry_of _) as [granules|e]; [|done].
  destruct (truthy granules); [|done].
  destruct (py_iter granules) as [gs|e]; [|done].
  cbn [granule_arr sent page_num].
  destruct (append_rows _ _ gs (granule_arr st)) as [arr e] eqn:Happ.
  destruct (append_rows_from _ _ _ _ _ _ Happ) as (new & -> & _).
  assert (Harr : granule_arr st `prefix_of` granule_arr st ++ new)
    by apply prefix_app_r, reflexivity.
  destruct e; cbn [state_of granule_arr sent page_num]; split_and!; try done; lia.
Qed.

(** X7. A search only ever appends: at any point, whether it is still
    iterating, has left or has raised, granule_arr and the requests sent
    extend what they were before, and page_num has not decreased. *)
Theorem X7_search_only_appends (make_request : Z → request) (with_title : bool)
  (fuel : nat) (st : search_state) :
  let st' := state_of (search pyfloat server make_request with_title fuel st) in
  granule_arr st `prefix_of` granule_arr st'
  ∧ sent st `prefix_of` sent st'
  ∧ (page_num st ≤ page_num st')%Z.
Proof.
  cbv zeta. revert st. induction fuel as [|fuel IH]; intros st; [done|].
  cbn [search]. pose proof (step_grows make_request with_title st) as Hstep.
  cbv zeta in Hstep.
  destruct (step pyfloat server make_request with_title st) as [st1|e st1|st1];
    [exact Hstep|exact Hstep|].
  cbn [state_of] in Hstep. destruct Hstep as (H1 & H2 & H3).
  destruct (IH st1) as (H1' & H2' & H3').
  split_and!; [by etrans|by etrans|lia].
Qed.

End LoopShape.

(** ** Granules at their edges *)

Section GranuleEdges.

Variable pyfloat : string → option spec_float.

Lemma link_selected_text (x : json) (s : string) :
  getitem "href" x = Ok (JStr s) → link_selected x = Ok (href_selected s).
Proof.
  intros Hx. unfold link_selected, href_selected. rewrite Hx.
  cbn [mbind pyresult_bind py_in].
  destruct (contains "https" s); [|reflexivity].
  destruct (contains ".nc" s); reflexivity.
Qed.

Lemma selected_hrefs_text (links : list json) (hrefs : list string) :
  Forall2 (λ x s, getitem "href" x = Ok (JStr s)) links hrefs →
  selected_hrefs links = Ok (map JStr (List.filter href_selected hrefs)).
Proof.
  induction 1 as [|x s links hrefs Hx _ IH]; [reflexivity|].
  cbn [selected_hrefs List.filter]. rewrite (link_selected_text x s Hx).
  cbn [mbind pyresult_bind]. destruct (href_selected s).
  - rewrite Hx, IH. reflexivity.
  - exact IH.
Qed.

(** X8. When every link of a granule has a string href, the granule's URL
    list is exactly the hrefs that hold 'https' and '.nc' and not '.dmrpp',
    in the order of the links, repeated hrefs included. *)
Theorem X8_granule_urls_exact (g : json) (links : list json) (hrefs : list string) :
  (getitem "links" g ≫= py_iter) = Ok links →
  Forall2 (λ x s, getitem "href" x = Ok (JStr s)) links hrefs →
  granule_urls g
  = Ok (map JStr (List.filter (λ s, contains "https" s && contains ".nc" s
                                    && negb (contains ".dmrpp" s)) hrefs)).
Proof.
  intros Hlinks Hhrefs. unfold granule_urls.
  destruct (getitem "links" g) as [l|e]; [|discriminate].
  cbn [mbind pyresult_bind] in *. rewrite Hlinks.
  exact (selected_hrefs_text links hrefs Hhrefs).
Qed.

Lemma selected_hrefs_raise (good : list json) (hrefs : list string)
  (bad : json) (rest : list json) (e : pyerr) :
  Forall2 (λ x s, getitem "href" x = Ok (JStr s)) good hrefs →
  link_selected bad = Raise e →
  selected_hrefs (good ++ bad :: rest) = Raise e.
Proof.
  intros Hgood Hbad.
  induction Hgood as [|x s good hrefs Hx _ IH]; cbn [app selected_hrefs].
  - by rewrite Hbad.
  - rewrite (link_selected_text x s Hx). cbn [mbind pyresult_bind].
    destruct (href_selected s); [|exact IH].
    rewrite Hx, IH. reflexivity.
Qed.

(** X9. One bad link spoils the granule: after links with string hrefs, a
    link that is a dict without 'href' makes the URL list raise KeyError,
    and a link whose href is None, a boolean or a number makes it raise
    TypeError; the hrefs selected before it are lost with it. *)
Theorem X9_bad_link_raises (g : json) (good : list json) (hrefs : list string)
  (bad : json) (rest : list json) :
  (getitem "links" g ≫= py_iter) = Ok (good ++ bad :: rest) →
  Forall2 (λ x s, getitem "href" x = Ok (JStr s)) good hrefs →
  ((∃ fields, bad = JObj fields ∧ assoc "href" fields = None) →
   granule_urls g = Raise KeyError)
  ∧ ((∃ h, getitem "href" bad = Ok h ∧
           (h = JNull ∨ (∃ b, h = JBool b) ∨ (∃ z, h = JInt z) ∨ (∃ f, h = JFloat f))) →
     granule_urls g = Raise TypeError).
Proof.
  intros Hlinks Hgood.
  assert (Hraise : ∀ e, link_selected bad = Raise e → granule_urls g = Raise e).
  { intros e He. unfold granule_urls.
    destruct (getitem "links" g) as [l|e']; [|discriminate].
    cbn [mbind pyresult_bind] in *. rewrite Hlinks.
    exact (selected_hrefs_raise good hrefs bad rest e Hgood He). }
  split.
  - intros (fields & -> & Hnone). apply Hraise.
    unfold link_selected. cbn [getitem]. by rewrite Hnone.
  - intros (h & Hh & Hkind). apply Hraise. unfold link_selected. rewrite Hh.
    destruct Hkind as [->|[[b ->]|[[z ->]|[f ->]]]]; reflexivity.
Qed.

Lemma length_zip_self {A} (l : list A) : length (zip_self l) = length l / 2.
Proof.
  induction l as [| a | a b l IH] using zip_self_ind; [reflexivity|reflexivity|].
  cbn [zip_self length]. rewrite IH.
  change (S (S (length l))) with (1 * 2 + length l).
  by rewrite Nat.div_add_l.
Qed.

Lemma mapM_length {A B} (f : A → pyresult B) (l : list A) (r : list B) :
  mapM f l = Ok r → length r = length l.
Proof.
  revert r. induction l as [|a l IH]; intros r; simpl.
  - by intros [= <-].
  - destruct (f a) as [b|e]; simpl; [|discriminate].
    destruct (mapM f l) as [bs|e]; simpl; [|discriminate].
    intros [= <-]. simpl. by rewrite (IH bs).
Qed.

Lemma vertex_pair_cases (a b : string) :
  no_char space a = true → no_char space b = true →
  (∃ pt, vertex pyfloat (join " " [a; b]) = Ok pt)
  ∨ vertex pyfloat (join " " [a; b]) = Raise ValueError.
Proof.
  intros Ha Hb. unfold vertex.
  change (join " " [a; b]) with (a +:+ String space b).
  rewrite split_on_app by done. rewrite (split_on_no_char _ _ Hb).
  cbn [list_get lookup list_lookup mbind pyresult_bind]. unfold float.
  destruct (pyfloat b); cbn [mbind pyresult_bind]; [|by right].
  destruct (pyfloat a); cbn [mbind pyresult_bind]; [left; eauto|by right].
Qed.

Lemma vertices_cases (tokens : list string) :
  Forall (λ t, no_char space t = true) tokens →
  (∃ pts, mapM (vertex pyfloat)
               (map (λ ab : string * string, join " " [ab.1; ab.2]) (zip_self tokens))
          = Ok pts)
  ∨ mapM (vertex pyfloat)
         (map (λ ab : string * string, join " " [ab.1; ab.2]) (zip_self tokens))
    = Raise ValueError.
Proof.
  induction tokens as [| a | a b rest IH] using zip_self_ind; intros Hsp.
  - left. by exists [].
  - left. by exists [].
  - inversion Hsp as [|? ? Ha Hsp']; subst.
    inversion Hsp' as [|? ? Hb Hsp'']; subst.
    cbn [zip_self map mapM fst snd].
    destruct (vertex_pair_cases a b Ha Hb) as [[pt ->]| ->];
      cbn [mbind pyresult_bind]; [|by right].
    destruct (IH Hsp'') as [[pts ->]| ->]; cbn [mbind pyresult_bind];
      [left; eauto|by right].
Qed.

(** X10. Whatever the coordinate string of a polygon element holds, parsing
    it gives a polygon with one vertex for every two of its space-separated
    pieces (rounded down), their number being none or at least three, or
    raises ValueError: a paired piece is not a number, or the pairs are
    one or two, which shapely refuses as a ring. Splitting the joined
    pairs again never fails on an index. *)
Theorem X10_polygon_vertices_or_value_error (s : string) (others : list json) :
  match parse_polygon pyfloat (JArr (JStr s :: others)) with
  | Ok (Polygon pts) =>
      length pts = length (split_on space s) / 2
      ∧ (length pts = 0 ∨ 3 ≤ length pts)%nat
  | Raise e => e = ValueError
  end.
Proof.
  unfold parse_polygon. cbn [getitem0 py_split mbind pyresult_bind].
  destruct (vertices_cases (split_on space s) (split_on_pieces space s))
    as [[pts Hpts]|Hraise].
  - rewrite Hpts. cbn [mbind pyresult_bind].
    destruct (shapely_Polygon_cases pts) as [[Hn ->]|[_ ->]]; [|reflexivity].
    split; [|exact Hn].
    rewrite (mapM_length _ _ _ Hpts), length_map. apply length_zip_self.
  - rewrite Hraise. reflexivity.
Qed.

(** X11. The filter on empty geometry drops exactly the granules without a
    'polygons' key: for a granule that gives a row, the row's geometry is
    the empty string if and only if the granule has no such key; an empty
    'polygons' list gives a MultiPolygon, which the filter keeps. *)
Theorem X11_dropped_iff_no_polygons_key (with_title : bool) (g : json)
  (u c p : pyval) :
  parse_granule pyfloat with_title g = Ok [u; c; p] →
  (not_empty_str p = false ↔ py_in "polygons" g = Ok false).
Proof.
  intros Hparse.
  destruct (parse_granule_shape _ _ _ _ Hparse) as (urls & cc & poly & Heq & _ & _ & Hgeo).
  injection Heq as _ _ ->. revert Hgeo. unfold granule_geometry.
  destruct (py_in "polygons" g) as [[|]|e]; cbn [mbind pyresult_bind]; [| |discriminate].
  - destruct (getitem "polygons" g) as [ps|e]; cbn [mbind pyresult_bind]; [|discriminate].
    destruct (py_iter ps) as [items|e]; cbn [mbind pyresult_bind]; [|discriminate].
    destruct (mapM _ items) as [polys|e]; cbn [mbind pyresult_bind]; [|discriminate].
    intros [= <-]. split; discriminate.
  - intros [= <-]. split; reflexivity.
Qed.

Lemma parse_granule_title (g : json) :
  (∀ t, getitem "title" g = Ok t →
        parse_granule pyfloat true g = parse_granule pyfloat false g)
  ∧ (∀ fields, g = JObj fields → assoc "title" fields = None →
               parse_granule pyfloat true g = Raise KeyError).
Proof.
  split.
  - intros t Ht. unfold parse_granule. by rewrite Ht.
  - intros fields -> Hnone. unfold parse_granule. cbn [getitem]. by rewrite Hnone.
Qed.

(** X12. The polygon search reads each granule's 'title' and the other two
    searches do not: a first page whose granules all have a 'title' gives
    the polygon search the rows it gives a search that does not read it,
    and a first page whose first granule is a dict without 'title' ends the
    polygon search with KeyError after one request, nothing appended. *)
Theorem X12_polygon_search_needs_title
  (server : nat → request → pyresult json) (cid : json) (temporal shape : string)
  (fuel : nat) :
  (∀ gs arr,
     Forall (λ g, ∃ t, getitem "title" g = Ok t) gs →
     append_rows pyfloat true gs arr = append_rows pyfloat false gs arr)
  ∧ (∀ fields rest,
       entry_of (server 0 (polygon_request cid temporal shape 1))
       = Ok (JArr (JObj fields :: rest)) →
       assoc "title" fields = None →
       polygon_search pyfloat server cid temporal shape (S fuel)
       = Raised KeyError {| page_num := 1; granule_arr := [];
                            sent := [polygon_request cid temporal shape 1] |}).
Proof.
  split.
  - intros gs arr Htitles. revert arr.
    induction Htitles as [|g gs' [t Ht] _ IH]; intros arr; [reflexivity|].
    cbn [append_rows]. rewrite (proj1 (parse_granule_title g) t Ht).
    destruct (parse_granule pyfloat false g); [apply IH|reflexivity].
  - intros fields rest Hentry Hnone.
    unfold polygon_search. cbn [search]. unfold step.
    cbn [sent initial length page_num granule_arr]. rewrite Hentry.
    cbn [truthy py_iter append_rows].
    by rewrite (proj2 (parse_granule_title (JObj fields)) fields eq_refl Hnone).
Qed.

End GranuleEdges.

(** ** The table and the file at their edges *)

Section TableEdges.

Variable py_str : pyval → string.
Variable line_break : ascii → bool.
Variable drop_duplicates : list asset_row → pyresult (list asset_row).

Local Abbreviation table_of df :=
  (map insert_asset_name (explode (filter (λ r, not_empty_str (g_granule_poly r) = true) df))).
Local Abbreviation emit := (emit_asset_urls py_str line_break drop_duplicates).

Lemma explode_app (df1 df2 : list granule_row) :
  explode (df1 ++ df2) = explode df1 ++ explode df2.
Proof. unfold explode. apply flat_map_app. Qed.

Lemma results_table_inv (arr : list (list pyval)) (table : list asset_row) :
  results_table arr = Ok table →
  DataFrame arr = Ok (map padded arr) ∧ table = table_of (map padded arr).
Proof.
  unfold results_table.
  destruct (DataFrame arr) as [df|e] eqn:Hdf; cbn [mbind pyresult_bind]; [|discriminate].
  destruct (DataFrame_inv arr df Hdf) as [-> _]. by intros [= <-].
Qed.

(** The table of two batches of rows that each make a table is the table of
    the first followed by the table of the second. *)
Lemma results_table_app (arr1 arr2 : list (list pyval)) (t1 t2 : list asset_row) :
  results_table arr1 = Ok t1 → results_table arr2 = Ok t2 →
  results_table (arr1 ++ arr2) = Ok (t1 ++ t2).
Proof.
  intros [Hdf1 ->]%results_table_inv [Hdf2 ->]%results_table_inv.
  unfold results_table. rewrite (DataFrame_app _ _ _ _ Hdf1 Hdf2).
  cbn [mbind pyresult_bind]. by rewrite filter_app, explode_app, map_app.
Qed.

Lemma results_table_triples (arr : list (list pyval)) :
  Forall (λ r, length r = 3%nat) arr →
  results_table arr = Ok (table_of (map padded arr)).
Proof. intros H. unfold results_table. by rewrite (DataFrame_triples arr H). Qed.

Lemma as_rows_triples (triples : list (pyval * pyval * pyval)) :
  Forall (λ r, length r = 3%nat) (as_rows triples).
Proof. unfold as_rows. apply Forall_map, Forall_forall. reflexivity. Qed.

(** X13. A row contributes nothing to the URL file when its geometry is the
    empty string (a granule without 'polygons'), whatever its links, and
    when its URL list is empty (a granule with no selected link): the file
    written with such a row among the others is the file written without
    it. *)
Theorem X13_rows_without_geometry_or_links_leave_no_line
  (rows_before rows_after : list (pyval * pyval * pyval)) (u c p : pyval) :
  let before := as_rows rows_before in
  let after := as_rows rows_after in
  emit (before ++ [u; c; Json (JStr "")] :: after) = emit (before ++ after)
  ∧ emit (before ++ [Json (JArr []); c; p] :: after) = emit (before ++ after).
Proof.
  cbv zeta.
  pose proof (results_table_triples _ (as_rows_triples rows_before)) as Hbefore.
  pose proof (results_table_triples _ (as_rows_triples rows_after)) as Hafter.
  revert Hbefore Hafter. generalize (as_rows rows_before) (as_rows rows_after).
  intros before after Hbefore Hafter.
  assert (Hgen : ∀ row t,
            results_table [row] = Ok t → filter_assets t = [] →
            emit (before ++ row :: after) = emit (before ++ after)).
  { intros row t Hrow Hnone.
    change (row :: after) with ([row] ++ after).
    pose proof (results_table_app _ _ _ _ Hrow Hafter) as Hrest.
    rewrite (emit_of_table py_str line_break drop_duplicates _ _
               (results_table_app _ _ _ _ Hbefore Hrest)).
    rewrite (emit_of_table py_str line_break drop_duplicates _ _
               (results_table_app _ _ _ _ Hbefore Hafter)).
    by rewrite !filter_assets_app, Hnone. }
  split.
  - apply (Hgen _ []); reflexivity.
  - destruct (not_empty_str p) eqn:Hp.
    + apply (Hgen _ [insert_asset_name
                       {| g_asset_url := NaN; g_cloud_cover := c; g_granule_poly := p |}]).
      * unfold results_table. cbn [DataFrame width foldr length Nat.max Nat.eqb map
                                    mbind pyresult_bind].
        rewrite filter_cons. cbn [g_granule_poly padded nth].
        case_decide; [reflexivity|congruence].
      * reflexivity.
    + apply (Hgen _ []); [|reflexivity].
      unfold results_table. cbn [DataFrame width foldr length Nat.max Nat.eqb map
                                  mbind pyresult_bind].
      rewrite filter_cons. cbn [g_granule_poly padded nth].
      case_decide; [congruence|reflexivity].
Qed.

(** pandas drops duplicates of a column of strings without raising. *)
Hypothesis drop_duplicates_text :
  ∀ df, Forall (λ r, is_text (asset_url r)) df → ∃ dfs, drop_duplicates df = Ok dfs.

Local Abbreviation emit_table :=
  (emit_returns py_str line_break drop_duplicates drop_duplicates_text).

Lemma emit_inv (arr : list (list pyval)) (lines : list string) :
  emit arr = Ok lines →
  ∃ table, results_table arr = Ok table
           ∧ lines = to_csv py_str line_break (filter_assets table).
Proof.
  intros H.
  destruct (results_table arr) as [t|e] eqn:Ht;
    [|unfold emit_asset_urls in H; rewrite Ht in H; discriminate].
  rewrite (emit_table arr t Ht) in H. injection H as <-. by exists t.
Qed.

Lemma lines_app (arr1 arr2 : list (list pyval)) (t1 t2 : list asset_row) :
  results_table arr1 = Ok t1 → results_table arr2 = Ok t2 →
  emit (arr1 ++ arr2)
  = Ok (to_csv py_str line_break (filter_assets t1)
        ++ to_csv py_str line_break (filter_assets t2)).
Proof.
  intros Ht1 Ht2. rewrite (emit_table (arr1 ++ arr2) (t1 ++ t2)).
  - by rewrite filter_assets_app; unfold to_csv; rewrite map_app.
  - by apply results_table_app.
Qed.

(** X14. The file of two batches of rows is the file of the first followed
    by the file of the second: the lines keep the order of granule_arr, and
    the lines a row gives do not depend on the rows around it. *)
Theorem X14_file_of_batches (arr1 arr2 : list (list pyval))
  (lines1 lines2 : list string) :
  emit arr1 = Ok lines1 → emit arr2 = Ok lines2 →
  emit (arr1 ++ arr2) = Ok (lines1 ++ lines2).
Proof.
  intros H1 H2.
  destruct (emit_inv arr1 lines1 H1) as (t1 & Ht1 & ->).
  destruct (emit_inv arr2 lines2 H2) as (t2 & Ht2 & ->).
  exact (lines_app arr1 arr2 t1 t2 Ht1 Ht2).
Qed.

Lemma text_urls_strings (urls : list string) : text_urls (map JStr urls) = urls.
Proof.
  induction urls as [|s urls IH]; [reflexivity|]. cbn [map].
  change (text_urls (JStr s :: map JStr urls)) with (s :: text_urls (map JStr urls)).
  by rewrite IH.
Qed.

Variable pyfloat : string → option spec_float.

(** What the file needs of each granule whose hrefs are strings. *)
Lemma granule_lines (with_title : bool) (gs : list json)
  (infos : list (bool * list string)) :
  Forall2 (λ g info,
             (∃ row, parse_granule pyfloat with_title g = Ok row)
             ∧ py_in "polygons" g = Ok info.1
             ∧ ∃ links, (getitem "links" g ≫= py_iter) = Ok links
                        ∧ Forall2 (λ x s, getitem "href" x = Ok (JStr s)) links info.2)
          gs infos →
  ∃ arr,
    Forall2 (λ g row, parse_granule pyfloat with_title g = Ok row) gs arr
    ∧ Forall2 (λ row info,
                 ∃ c p, row = [Json (JArr (map JStr (List.filter href_selected info.2)));
                               c; p]
                        ∧ not_empty_str p = info.1) arr infos.
Proof.
  induction 1 as [|g [has hrefs] gs infos ([row Hrow] & Hhas & links & Hlinks & Hhrefs)
                    _ (arr & Harr & Hinfos)].
  - exists []. split; constructor.
  - exists (row :: arr). split; [by constructor|]. constructor; [|exact Hinfos].
    destruct (parse_granule_shape _ _ _ _ Hrow)
      as (urls & cc & poly & -> & Hurls & _ & Hgeo).
    exists (Json cc), poly. cbn [fst snd] in *. split.
    + unfold granule_urls in Hurls.
      destruct (getitem "links" g) as [l|e]; [|discriminate].
      cbn [mbind pyresult_bind] in Hurls, Hlinks. rewrite Hlinks in Hurls.
      cbn [mbind pyresult_bind] in Hurls.
      rewrite (selected_hrefs_text links hrefs Hhrefs) in Hurls. by injection Hurls as <-.
    + destruct (geometry_kept pyfloat g poly Hgeo) as (has' & Hhas' & ->). congruence.
Qed.

(** X23. From the granules to the file: when every link of every granule
    has a string href, the records of the URL file are, granule after
    granule and link after link, the hrefs that hold 'https' and '.nc' and
    not '.dmrpp' and whose file name holds '_RFL_' or 'MASK', of the
    granules that have a 'polygons' key, each written as the csv writer
    writes a single field; the other granules give no record. *)
Theorem X23_file_from_granules (with_title : bool) (gs : list json)
  (infos : list (bool * list string)) :
  Forall2 (λ g info,
             (∃ row, parse_granule pyfloat with_title g = Ok row)
             ∧ py_in "polygons" g = Ok info.1
             ∧ ∃ links, (getitem "links" g ≫= py_iter) = Ok links
                        ∧ Forall2 (λ x s, getitem "href" x = Ok (JStr s)) links info.2)
          gs infos →
  ∃ (granule_arr : list (list pyval)) (lines : list string),
    Forall2 (λ g row, parse_granule pyfloat with_title g = Ok row) gs granule_arr
    ∧ emit granule_arr = Ok lines
    ∧ Forall2 (written_as line_break)
              (flat_map (λ info, lines_of_granule info.1 info.2) infos) lines.
Proof.
  intros Hgs. destruct (granule_lines with_title gs infos Hgs) as (arr & Harr & Hinfos).
  exists arr, (map (csv_record line_break)
                   (flat_map (λ info, lines_of_granule info.1 info.2) infos)).
  split; [exact Harr|]. split; [|apply written_records].
  assert (Htriples : Forall (λ r, length r = 3%nat) arr).
  { clear -Hinfos. induction Hinfos as [|row info arr infos (c & p & -> & _) _ IH];
      by constructor. }
  rewrite (emit_table arr _ (results_table_triples arr Htriples)). f_equal.
  apply to_csv_urls.
  assert (Hlines : flat_map (λ info, lines_of_granule info.1 info.2) infos
                   = flat_map (λ info : bool * list json, file_urls info.1 info.2)
                       (map (λ info : bool * list string,
                               (info.1, map JStr (List.filter href_selected info.2)))
                            infos)).
  { clear. induction infos as [|[has hrefs] infos IH]; [reflexivity|].
    cbn [map flat_map fst snd]. rewrite <- IH. f_equal.
    unfold file_urls, lines_of_granule. by rewrite text_urls_strings. }
  rewrite Hlines. apply wanted_table.
  change (map ?f infos) with (f <$> infos). by apply Forall2_fmap_r.
Qed.

(** X15. The cell that saves the URLs raises NameError when cmr_results_df
    is not bound; when it completes, it has changed no variable other than
    cmr_results_dfs, and running it again writes the same file and leaves
    the variables as they are. *)
Theorem X15_save_cell_again (env : gmap string (list asset_row)) :
  (env !! "cmr_results_df" = None →
   save_cell py_str line_break drop_duplicates env = Raise NameError)
  ∧ (∀ env' lines,
       save_cell py_str line_break drop_duplicates env = Ok (env', lines) →
       (∀ x, x ≠ "cmr_results_dfs" → env' !! x = env !! x)
       ∧ save_cell py_str line_break drop_duplicates env' = Ok (env', lines)).
Proof.
  split.
  - intros Hnone. unfold save_cell. by rewrite Hnone.
  - intros env' lines Hrun.
    destruct (env !! "cmr_results_df") as [df|] eqn:Hdf;
      [|unfold save_cell in Hrun; rewrite Hdf in Hrun; discriminate].
    rewrite (save_cell_writes py_str line_break drop_duplicates env df Hdf) in Hrun.
    destruct (drop_duplicates (all_but_last df)) as [dfs|e] eqn:Hdfs; [|discriminate].
    cbn [mbind pyresult_bind] in Hrun. injection Hrun as <- <-.
    split.
    + intros x Hx. by rewrite lookup_insert_ne.
    + rewrite (save_cell_writes py_str line_break drop_duplicates _ df)
        by (by rewrite lookup_insert_ne).
      rewrite Hdfs. cbn [mbind pyresult_bind]. by rewrite insert_insert_eq.
Qed.

End TableEdges.

(** ** The temporal range and the concept id at their edges *)

Section RequestEdges.

Lemma digit_is_digit (n : nat) (c : ascii) :
  (N_of_ascii c <? 48)%N = true → Ascii.eqb (digit n) c = false.
Proof.
  intros Hc. unfold digit.
  pose proof (Nat.mod_upper_bound n 10) as Hlt.
  destruct (n mod 10) as [|[|[|[|[|[|[|[|[|[|k]]]]]]]]]]; try lia;
    apply Ascii.eqb_neq; intros <-; discriminate Hc.
Qed.

Lemma no_char_app (c : ascii) (a b : string) :
  no_char c (a +:+ b) = no_char c a && no_char c b.
Proof.
  induction a as [|x a IH]; [reflexivity|].
  change (String x a +:+ b) with (String x (a +:+ b)).
  cbn [no_char]. by rewrite IH, andb_assoc.
Qed.

Lemma strftime_no_comma (d : datetime) : no_char "," (strftime dt_format d) = true.
Proof.
  change (strftime dt_format d)
    with (year_digits (year d) +:+ "-" +:+ pad2 (month d) +:+ "-" +:+ pad2 (day d)
          +:+ "T" +:+ pad2 (hour d) +:+ ":" +:+ pad2 (minute d) +:+ ":"
          +:+ pad2 (second d) +:+ "Z").
  assert (Hy : no_char "," (year_digits (year d)) = true).
  { unfold year_digits, pad2.
    repeat case_match; cbn [no_char];
      rewrite !(digit_is_digit _ ",") by reflexivity; reflexivity. }
  unfold pad2. rewrite !no_char_app, Hy. cbn [no_char].
  rewrite !(digit_is_digit _ ",") by reflexivity. reflexivity.
Qed.

(** X16. The temporal parameter has exactly one comma whatever the two
    datetimes: splitting it at commas gives back the two formatted
    timestamps, start first. *)
Theorem X16_temporal_str_splits (start_date end_date : datetime) :
  split_on "," (temporal_str start_date end_date)
  = [strftime dt_format start_date; strftime dt_format end_date].
Proof.
  change (temporal_str start_date end_date)
    with (strftime dt_format start_date +:+ String "," (strftime dt_format end_date)).
  rewrite split_on_app by apply strftime_no_comma.
  by rewrite split_on_no_char by apply strftime_no_comma.
Qed.

(** X17. Resolving the concept id sends its one request whatever happens,
    and fails as the lookups fail: with the exception of the request or of
    decoding its answer; with KeyError when the answer is a dict without
    'feed', or its feed a dict without 'entry'; with IndexError when the
    entry list is empty. *)
Theorem X17_concept_id_errors (http : request → pyresult json) (doi : string) :
  let req := {| method := GET; url := doisearch doi; data := []; files := [] |} in
  length (fst (concept_id http doi)) = 1
  ∧ (∀ e, http req = Raise e → snd (concept_id http doi) = Raise e)
  ∧ (∀ fields, http req = Ok (JObj fields) → assoc "feed" fields = None →
               snd (concept_id http doi) = Raise KeyError)
  ∧ (∀ fields feed, http req = Ok (JObj fields) →
                    assoc "feed" fields = Some (JObj feed) →
                    (assoc "entry" feed = None →
                     snd (concept_id http doi) = Raise KeyError)
                    ∧ (assoc "entry" feed = Some (JArr []) →
                       snd (concept_id http doi) = Raise IndexError)).
Proof.
  cbv zeta. unfold concept_id. cbn [fst snd]. split; [reflexivity|].
  split; [|split].
  - intros e He. by rewrite He.
  - intros fields Hbody Hnone. rewrite Hbody. cbn [mbind pyresult_bind getitem].
    by rewrite Hnone.
  - intros fields feed Hbody Hfeed. rewrite Hbody. cbn [mbind pyresult_bind getitem].
    rewrite Hfeed. cbn [mbind pyresult_bind getitem].
    split; intros Hentry; by rewrite Hentry.
Qed.

End RequestEdges.

(** ** The reflectance arrays at their edges *)

Section ArrayEdges.

(** X18. After the masking assignment no entry of the array compares equal
    to -0.01 (the float nearest to -1/100 in the array's element type),
    whatever the array held. *)
Theorem X18_no_entry_equal_after_mask (dt : dtype) (data : list spec_float) :
  Forall (λ y, SFeqb y match dt with
                       | float32 => S754_finite true 10737418 (-30)
                       | float64 => S754_finite true 5764607523034235 (-59)
                       end = false)
         (mask_reflectance dt data).
Proof.
  rewrite <- (minus_0_01_value dt).
  unfold mask_reflectance. rewrite assign_where_equal_to.
  apply Forall_map, Forall_forall. intros x _. cbn beta.
  destruct (SFeqb x (minus_0_01 dt)) eqn:Hx; [reflexivity|exact Hx].
Qed.

Variable dt : dtype.
Variable nanmean : list spec_float → spec_float.
Variable math_log : spec_float → pyresult spec_float.
Variable power : spec_float → spec_float → spec_float.

Local Abbreviation gamma_adjust' := (gamma_adjust dt nanmean math_log power).

(** X19. [gamma_adjust] raises what [math.log] raises on the mean of the
    band, raises ZeroDivisionError when the logarithm of the mean is zero
    (a mean of 1), and in every other case returns an array as long as the
    band, also when the mean or its logarithm is a NaN or infinite. *)
Theorem X19_gamma_adjust_raises_or_returns (ds : Z → list spec_float) (band : Z)
  (num : spec_float) :
  math_log lit_0_2 = Ok num →
  (∀ e, math_log (nanmean (ds band)) = Raise e → gamma_adjust' ds band = Raise e)
  ∧ (∀ s, math_log (nanmean (ds band)) = Ok (S754_zero s) →
          gamma_adjust' ds band = Raise ZeroDivisionError)
  ∧ (∀ den, math_log (nanmean (ds band)) = Ok den →
            (∀ s, den ≠ S754_zero s) →
            ∃ scaled, gamma_adjust' ds band = Ok scaled
                      ∧ length scaled = length (ds band)).
Proof.
  intros Hnum. unfold gamma_adjust, gamma_exponent. rewrite Hnum.
  cbn [mbind pyresult_bind]. split; [|split].
  - intros e He. by rewrite He.
  - intros s Hs. by rewrite Hs.
  - intros den Hden Hnz. rewrite Hden. cbn [mbind pyresult_bind].
    destruct den as [s| | |]; [by destruct (Hnz s)| | |];
      cbn [py_div mbind pyresult_bind]; eexists; (split; [reflexivity|]);
      by rewrite !length_map.
Qed.

Lemma in_unit_interval_fixed (y : spec_float) :
  in_unit_interval dt y →
  nan_to_num dt (one dt) (clip zero (one dt) y) = y.
Proof.
  intros (Hnan & Hlo & Hhi).
  assert (Hclip : clip zero (one dt) y = y).
  { unfold clip. rewrite Hnan.
    unfold SFleb in Hlo, Hhi. unfold SFltb.
    rewrite (SFcompare_swap zero y), (SFcompare_swap y (one dt)).
    destruct (SFcompare zero y) as [[]|]; try discriminate;
      destruct (SFcompare y (one dt)) as [[]|]; try discriminate; reflexivity. }
  rewrite Hclip.
  destruct y as [s|s| |s m e]; try reflexivity; try discriminate.
  destruct s; [discriminate Hlo|destruct dt; discriminate Hhi].
Qed.

(** X20. What [gamma_adjust] returns is already clipped and free of NaN and
    of infinities: clipping it to [0, 1] and replacing NaN by 1 once more
    changes no entry. *)
Theorem X20_gamma_adjust_output_is_fixed (ds : Z → list spec_float) (band : Z)
  (scaled : list spec_float) :
  gamma_adjust' ds band = Ok scaled →
  map (λ y, nan_to_num dt (one dt) (clip zero (one dt) y)) scaled = scaled.
Proof.
  unfold gamma_adjust.
  destruct (gamma_exponent nanmean math_log (ds band)) as [gamma|e]; [|discriminate].
  cbn [mbind pyresult_bind]. intros [= <-].
  rewrite !map_map. apply map_ext. intros x.
  apply in_unit_interval_fixed. apply (nan_to_num_clip dt (power x gamma)).
Qed.

Lemma gamma_adjust_unit (ds : Z → list spec_float) (band : Z)
  (scaled : list spec_float) :
  gamma_adjust' ds band = Ok scaled →
  length scaled = length (ds band) ∧ Forall (in_unit_interval dt) scaled.
Proof.
  unfold gamma_adjust.
  destruct (gamma_exponent nanmean math_log (ds band)) as [gamma|e]; [|discriminate].
  cbn [mbind pyresult_bind]. intros [= <-]. split; [by rewrite !length_map|].
  rewrite map_map. apply Forall_map, Forall_forall. intros x _.
  apply (nan_to_num_clip dt (power x gamma)).
Qed.

(** X22. When the stacked RGB array is built, it has the three scaled bands
    in the order red, green, blue, each as long as a band of the dataset,
    and every entry of it is a number in [0, 1]; it is not built when one
    of the three calls of [gamma_adjust] raises, the first such exception
    being the one raised. *)
Theorem X22_rgb_stack_in_unit_interval (ds_geo : Z → list spec_float)
  (b650 b560 b470 : Z) :
  match rgb_stack dt nanmean math_log power ds_geo b650 b560 b470 with
  | Ok rgb =>
      ∃ r g b,
        rgb = [r; g; b]
        ∧ gamma_adjust' ds_geo b650 = Ok r
        ∧ gamma_adjust' ds_geo b560 = Ok g
        ∧ gamma_adjust' ds_geo b470 = Ok b
        ∧ length g = length r ∧ length b = length r
        ∧ length r = length (ds_geo b650)
        ∧ Forall (Forall (in_unit_interval dt)) rgb
  | Raise e =>
      gamma_adjust' ds_geo b650 = Raise e
      ∨ (∃ r, gamma_adjust' ds_geo b650 = Ok r ∧ gamma_adjust' ds_geo b560 = Raise e)
      ∨ (∃ r g, gamma_adjust' ds_geo b650 = Ok r ∧ gamma_adjust' ds_geo b560 = Ok g
                ∧ gamma_adjust' ds_geo b470 = Raise e)
      ∨ (e = ValueError ∧
         (length (ds_geo b560) ≠ length (ds_geo b650)
          ∨ length (ds_geo b470) ≠ length (ds_geo b650)))
  end.
Proof.
  unfold rgb_stack.
  destruct (gamma_adjust' ds_geo b650) as [r|e] eqn:Hr; cbn [mbind pyresult_bind];
    [|by left].
  destruct (gamma_adjust' ds_geo b560) as [g|e] eqn:Hg; cbn [mbind pyresult_bind];
    [|right; left; eauto].
  destruct (gamma_adjust' ds_geo b470) as [b|e] eqn:Hb; cbn [mbind pyresult_bind];
    [|right; right; left; eauto].
  destruct (gamma_adjust_unit _ _ _ Hr) as [Hlr Hur].
  destruct (gamma_adjust_unit _ _ _ Hg) as [Hlg Hug].
  destruct (gamma_adjust_unit _ _ _ Hb) as [Hlb Hub].
  destruct (Nat.eqb (length r) (length g)) eqn:E1;
    [destruct (Nat.eqb (length r) (length b)) eqn:E2|]; cbn [andb].
  - apply Nat.eqb_eq in E1, E2. exists r, g, b.
    split_and!; try done; try lia. by repeat constructor.
  - apply Nat.eqb_neq in E2. right; right; right. split; [done|]. right. lia.
  - apply Nat.eqb_neq in E1. right; right; right. split; [done|]. left. lia.
Qed.

End ArrayEdges.

(** ** Names in the reflectance notebook *)

Section NameFacts.

Context {V H : Type}.
Variable act : nat → list V → H → pyresult ((string → V) * H).

(** The statements themselves do not raise NameError. *)
Hypothesis act_no_NameError : ∀ line vs h, act line vs h ≠ Raise NameError.

Lemma well_scoped_no_NameError (prog : list stmt) :
  ∀ (bound : list string) (env : gmap string V) (h : H),
    well_scoped bound prog = true →
    (∀ x, x ∈ bound → is_Some (env !! x)) →
    run act prog (env, h) ≠ Raise NameError.
Proof.
  induction prog as [|s prog IH]; intros bound env h Hws Hb; [discriminate|].
  destruct s as [line reads binds|line x]; cbn [well_scoped] in Hws;
    apply andb_true_iff in Hws as [Hs Hrest]; cbn [run exec].
  - rewrite forallb_forall in Hs.
    destruct (lookups_agree env env reads) as (_ & vs & Hvs); [done| |].
    { intros y Hy. apply Hb, mem_elem_of, Hs. by apply list_elem_of_In. }
    rewrite Hvs. cbn [mbind pyresult_bind].
    destruct (act line vs h) as [[value h']|e] eqn:Hact; cbn [mbind pyresult_bind].
    + apply (IH (binds ++ bound)); [done|].
      intros y [Hy|Hy]%elem_of_app; apply bind_names_bound; [by left|right; by apply Hb].
    + intros [= ->]. by apply (act_no_NameError line vs h).
  - apply mem_elem_of, Hb in Hs as [v Hv]. rewrite Hv. cbn [mbind pyresult_bind].
    apply (IH (remove_name x bound)); [done|].
    intros y [Hne Hy]%elem_of_remove_name. rewrite lookup_delete_ne by done.
    by apply Hb.
Qed.

(** X21. Run from its first cell to its last in a fresh session, the
    reflectance notebook never raises NameError, and neither does any
    initial part of it: every name is bound when it is read and when it is
    deleted. *)
Theorem X21_notebook_names_are_bound (n : nat) (h : H) :
  run act (take n notebook) (∅, h) ≠ Raise NameError.
Proof.
  apply (well_scoped_no_NameError (take n notebook) [] ∅ h).
  - assert (Hprefix : ∀ prog bound k,
              well_scoped bound prog = true → well_scoped bound (take k prog) = true).
    { induction prog as [|s prog IHp]; intros bound k Hws; [by destruct k|].
      destruct k as [|k]; [reflexivity|].
      destruct s as [line reads binds|line x]; cbn [take well_scoped] in *;
        apply andb_true_iff in Hws as [Hs Hrest];
        apply andb_true_iff; split; try done; by apply IHp. }
    apply Hprefix. vm_compute. reflexivity.
  - intros x Hx. by apply elem_of_nil in Hx.
Qed.

End NameFacts.

(** ** The further properties on sample inputs *)

Lemma one_page_answered (answer : pyresult json) :
  pages_answered float_of_digits (then_answer answer) sample_request false
                 [[sample_granule]] [[sample_row]].
Proof.
  split.
  - intros [|k] gs; simpl; intros [= <-]. split; [discriminate|reflexivity].
  - repeat constructor.
Qed.

Lemma X1_search_never_leaves_witness :
  ∃ st,
    search float_of_digits one_granule_each sample_request false 3 initial = Looping st
    ∧ sent st = map sample_request (page_numbers 3)
    ∧ page_num st = 4%Z.
Proof.
  apply (X1_search_never_leaves float_of_digits one_granule_each sample_request false).
  intros k. exists [sample_granule], [sample_row].
  split; [discriminate|]. split; [reflexivity|repeat constructor].
Defined.

Lemma X2_search_raises_within_page_witness :
  search float_of_digits
         (then_answer (Ok (feed_of [sample_granule; bad_granule; sample_granule])))
         sample_request false 5 initial
  = Raised KeyError {| page_num := 2;
                       granule_arr := [sample_row; sample_row];
                       sent := map sample_request [1; 2]%Z |}.
Proof.
  apply (X2_search_raises_within_page float_of_digits _ sample_request false
           [[sample_granule]] [[sample_row]] [sample_granule] bad_granule
           [sample_granule] [sample_row] KeyError 5).
  - apply one_page_answered.
  - reflexivity.
  - repeat constructor.
  - reflexivity.
  - simpl. lia.
Defined.

Lemma X3_search_leaves_on_falsy_entry_witness :
  search float_of_digits
         (then_answer (Ok (JObj [("feed", JObj [("entry", JNull)])])))
         sample_request false 5 initial
  = Break {| page_num := 2;
             granule_arr := [sample_row];
             sent := map sample_request [1; 2]%Z |}.
Proof.
  apply (X3_search_leaves_on_falsy_entry float_of_digits _ sample_request false
           [[sample_granule]] [[sample_row]] JNull 5).
  - apply one_page_answered.
  - reflexivity.
  - reflexivity.
  - simpl. lia.
Defined.

Lemma X4_search_raises_on_non_list_entry_witness :
  search float_of_digits
         (then_answer (Ok (JObj [("feed", JObj [("entry", JStr "no granules")])])))
         sample_request false 5 initial
  = Raised TypeError {| page_num := 2;
                        granule_arr := [sample_row];
                        sent := map sample_request [1; 2]%Z |}.
Proof.
  apply (X4_search_raises_on_non_list_entry float_of_digits _ sample_request false
           [[sample_granule]] [[sample_row]] (JStr "no granules") 5).
  - apply one_page_answered.
  - reflexivity.
  - reflexivity.
  - discriminate.
  - simpl. lia.
Defined.

Lemma X5_search_raises_on_missing_key_witness :
  search float_of_digits
         (then_answer (Ok (JObj [("errors", JArr [JStr "Invalid page_num"])])))
         sample_request false 5 initial
  = Raised KeyError {| page_num := 2;
                       granule_arr := [sample_row];
                       sent := map sample_request [1; 2]%Z |}.
Proof.
  apply (X5_search_raises_on_missing_key float_of_digits _ sample_request false
           [[sample_granule]] [[sample_row]]
           [("errors", JArr [JStr "Invalid page_num"])] 5).
  - apply one_page_answered.
  - reflexivity.
  - left. reflexivity.
  - simpl. lia.
Defined.

Lemma X8_granule_urls_exact_witness :
  granule_urls sample_granule
  = Ok [JStr "https://h/p/EMIT_L2A_RFL_001.nc";
        JStr "https://h/p/EMIT_L2A_RFLUNCERT_001.nc";
        JStr "https://h/p/EMIT_L2A_MASK_001.nc"].
Proof.
  apply (X8_granule_urls_exact sample_granule
           (JObj [("href", JStr "https://h/p/EMIT_L2A_RFL_001.nc")]
            :: JObj [("href", JStr "s3://h/p/EMIT_L2A_RFL_001.nc")]
            :: JObj [("href", JStr "https://h/p/EMIT_L2A_RFL_001.nc.dmrpp")]
            :: JObj [("href", JStr "https://h/p/EMIT_L2A_RFLUNCERT_001.nc")]
            :: JObj [("href", JStr "https://h/p/EMIT_L2A_MASK_001.nc")]
            :: JObj [("href", JStr "https://h/p/EMIT_L2A_RFL_001.png")] :: [])
           sample_hrefs).
  - reflexivity.
  - repeat constructor.
Defined.

Lemma X9_bad_link_raises_witness :
  granule_urls
    (JObj [("links", JArr [JObj [("href", JStr "https://h/p/EMIT_L2A_RFL_001.nc")];
                           JObj [("rel", JStr "data")];
                           JObj [("href", JStr "https://h/p/EMIT_L2A_MASK_001.nc")]])])
  = Raise KeyError
  ∧ granule_urls
      (JObj [("links", JArr [JObj [("href", JStr "https://h/p/EMIT_L2A_RFL_001.nc")];
                             JObj [("href", JNull)]])])
    = Raise TypeError.
Proof.
  split.
  - refine (proj1 (X9_bad_link_raises _
             [JObj [("href", JStr "https://h/p/EMIT_L2A_RFL_001.nc")]]
             ["https://h/p/EMIT_L2A_RFL_001.nc"]
             (JObj [("rel", JStr "data")])
             [JObj [("href", JStr "https://h/p/EMIT_L2A_MASK_001.nc")]]
             _ _) _).
    + reflexivity.
    + repeat constructor.
    + eexists. split; reflexivity.
  - refine (proj2 (X9_bad_link_raises _
             [JObj [("href", JStr "https://h/p/EMIT_L2A_RFL_001.nc")]]
             ["https://h/p/EMIT_L2A_RFL_001.nc"]
             (JObj [("href", JNull)]) [] _ _) _).
    + reflexivity.
    + repeat constructor.
    + exists JNull. split; [reflexivity|by left].
Defined.

Lemma X11_dropped_iff_no_polygons_key_witness :
  (not_empty_str (Json (JStr "")) = false
   ↔ py_in "polygons" (JObj [("cloud_cover", JStr "7"); ("links", JArr [])]) = Ok false)
  ∧ (not_empty_str (MultiPolygon []) = false
     ↔ py_in "polygons" (JObj [("cloud_cover", JStr "7"); ("polygons", JArr []);
                               ("links", JArr [])]) = Ok false).
Proof.
  split.
  - apply (X11_dropped_iff_no_polygons_key float_of_digits false
             (JObj [("cloud_cover", JStr "7"); ("links", JArr [])])
             (Json (JArr [])) (Json (JStr "7")) (Json (JStr ""))).
    reflexivity.
  - apply (X11_dropped_iff_no_polygons_key float_of_digits false _
             (Json (JArr [])) (Json (JStr "7")) (MultiPolygon [])).
    reflexivity.
Defined.

Lemma X12_polygon_search_needs_title_witness :
  append_rows float_of_digits true [sample_granule] []
  = append_rows float_of_digits false [sample_granule] []
  ∧ polygon_search float_of_digits
      (λ _ _, Ok (feed_of [untitled_granule])) (JStr "C2408750690-LPCLOUD") "" "{}" 1
    = Raised KeyError
        {| page_num := 1; granule_arr := [];
           sent := [polygon_request (JStr "C2408750690-LPCLOUD") "" "{}" 1] |}.
Proof.
  split.
  - apply (proj1 (X12_polygon_search_needs_title float_of_digits
                    (λ _ _, Ok (feed_of [untitled_granule]))
                    (JStr "C2408750690-LPCLOUD") "" "{}" 0)).
    repeat constructor. eexists. reflexivity.
  - apply (proj2 (X12_polygon_search_needs_title float_of_digits
                    (λ _ _, Ok (feed_of [untitled_granule]))
                    (JStr "C2408750690-LPCLOUD") "" "{}" 0)
             [("cloud_cover", JStr "7"); ("links", JArr [JObj [("rel", JStr "data")]])] []).
    + reflexivity.
    + reflexivity.
Defined.

Lemma X14_file_of_batches_witness :
  emit_asset_urls (λ _, "") line_feed keep_first
                  ([sample_row] ++ [sample_row; sample_row])
  = Ok (["https://h/p/EMIT_L2A_RFL_001.nc"; "https://h/p/EMIT_L2A_MASK_001.nc"]
        ++ ["https://h/p/EMIT_L2A_RFL_001.nc"; "https://h/p/EMIT_L2A_MASK_001.nc";
            "https://h/p/EMIT_L2A_RFL_001.nc"; "https://h/p/EMIT_L2A_MASK_001.nc"]).
Proof.
  apply (X14_file_of_batches (λ _, "") line_feed keep_first keep_first_returns
           [sample_row] [sample_row; sample_row]); reflexivity.
Defined.

(** Three granules: the second has no 'polygons', the URL of the third
    holds a comma and is written between quotes. *)
Lemma X23_file_from_granules_witness :
  ∃ (granule_arr : list (list pyval)) (lines : list string),
    Forall2 (λ g row, parse_granule float_of_digits false g = Ok row)
            [sample_granule; plain_granule; comma_granule] granule_arr
    ∧ emit_asset_urls (λ _, "") line_feed keep_first granule_arr = Ok lines
    ∧ Forall2 (written_as line_feed)
              ["https://h/p/EMIT_L2A_RFL_001.nc"; "https://h/p/EMIT_L2A_MASK_001.nc";
               "https://h/p/EMIT_L2A_RFL_001,2.nc"] lines.
Proof.
  apply (X23_file_from_granules (λ _, "") line_feed keep_first keep_first_returns
           float_of_digits false [sample_granule; plain_granule; comma_granule]
           [(true, sample_hrefs); (false, ["https://h/p/EMIT_L2A_RFL_002.nc"]);
            (true, ["https://h/p/EMIT_L2A_RFL_001,2.nc"])]).
  repeat constructor.
  - eexists. reflexivity.
  - eexists. split; [reflexivity|]. repeat constructor.
  - eexists. reflexivity.
  - eexists. split; [reflexivity|]. repeat constructor.
  - eexists. reflexivity.
  - eexists. split; [reflexivity|]. repeat constructor.
Defined.

Lemma X15_save_cell_again_witness :
  let env' := <["cmr_results_dfs" := [sample_asset "A_RFL_1.nc"]]> sample_env in
  let lines := ["https://h/p/A_RFL_1.nc"; "https://h/p/A_RFL_1.nc";
                "https://h/p/A_MASK_1.nc"] in
  save_cell (λ _, "") line_feed keep_first (∅ : gmap string (list asset_row))
  = Raise NameError
  ∧ save_cell (λ _, "") line_feed keep_first env' = Ok (env', lines).
Proof.
  cbv zeta. split.
  - apply (proj1 (X15_save_cell_again (λ _, "") line_feed keep_first ∅)). reflexivity.
  - apply (proj2 (X15_save_cell_again (λ _, "") line_feed keep_first sample_env) _ _).
    reflexivity.
Defined.

Lemma X17_concept_id_errors_witness :
  snd (concept_id (λ _, Ok (JObj [("feed", JObj [("entry", JArr [])])])) doi)
  = Raise IndexError
  ∧ snd (concept_id (λ _, Ok (JObj [("errors", JArr [])])) doi) = Raise KeyError
  ∧ snd (concept_id (λ _, Raise JSONDecodeError) doi) = Raise JSONDecodeError.
Proof.
  split; [|split].
  - apply (proj2 (proj2 (proj2 (proj2
             (X17_concept_id_errors (λ _, Ok (JObj [("feed", JObj [("entry", JArr [])])])) doi)))
             [("feed", JObj [("entry", JArr [])])] [("entry", JArr [])]
             eq_refl eq_refl)).
    reflexivity.
  - apply (proj1 (proj2 (proj2
             (X17_concept_id_errors (λ _, Ok (JObj [("errors", JArr [])])) doi)))
             [("errors", JArr [])] eq_refl).
    reflexivity.
  - apply (proj1 (proj2 (X17_concept_id_errors (λ _, Raise JSONDecodeError) doi))).
    reflexivity.
Defined.

Lemma X19_gamma_adjust_raises_or_returns_witness :
  gamma_adjust float64 (λ _, one float64) (λ x, Ok (SFsub 53 1024 x (one float64)))
               (λ x _, x) sample_band 650
  = Raise ZeroDivisionError
  ∧ gamma_adjust float64 (λ _, zero)
                 (λ x, if SFltb zero x then Ok x else Raise ValueError)
                 (λ x _, x) sample_band 650
    = Raise ValueError
  ∧ ∃ scaled,
      gamma_adjust float64 (λ _, nan) (λ x, Ok x) (λ x _, x) sample_band 650 = Ok scaled
      ∧ length scaled = length (sample_band 650).
Proof.
  split; [|split].
  - apply (proj1 (proj2 (X19_gamma_adjust_raises_or_returns float64 (λ _, one float64)
                           (λ x, Ok (SFsub 53 1024 x (one float64))) (λ x _, x)
                           sample_band 650 _ eq_refl)) false).
    vm_compute. reflexivity.
  - apply (proj1 (X19_gamma_adjust_raises_or_returns float64 (λ _, zero)
                    (λ x, if SFltb zero x then Ok x else Raise ValueError) (λ x _, x)
                    sample_band 650 lit_0_2 ltac:(vm_compute; reflexivity))).
    reflexivity.
  - apply (proj2 (proj2 (X19_gamma_adjust_raises_or_returns float64 (λ _, nan)
                           (λ x, Ok x) (λ x _, x) sample_band 650 lit_0_2 eq_refl)) nan).
    + reflexivity.
    + discriminate.
Defined.

Lemma X20_gamma_adjust_output_is_fixed_witness :
  map (λ y, nan_to_num float64 (one float64) (clip zero (one float64) y))
      [zero; one float64; one float64; one float64; zero; lit_0_2]
  = [zero; one float64; one float64; one float64; zero; lit_0_2].
Proof.
  apply (X20_gamma_adjust_output_is_fixed float64 (λ _, lit_0_2) (λ x, Ok x) (λ x _, x)
           sample_band 650).
  vm_compute. reflexivity.
Defined.

Lemma X21_notebook_names_are_bound_witness :
  run quiet_act (take 30 notebook) (∅, tt) ≠ Raise NameError
  ∧ run quiet_act (take (length notebook) notebook) (∅, tt) ≠ Raise NameError.
Proof.
  split; apply (X21_notebook_names_are_bound quiet_act); discriminate.
Defined.
